(** * Nova content-moderation bots: the moderation-decision pipeline

    A shallow embedding of the two chat bots of this repository,
    [src/discord/bot.py] and [src/telegram/bot.py]: the policy and
    instruction loaders, the request builder and moderation client, the
    severity threshold and the auto-moderation handlers, followed by the
    properties the specification states about them.

    Conventions of the embedding.
    - A Python [str] is a [string]; a character is a code point in the
      range 0..255 (the Latin-1 block), so [len] is [String.length].
    - A value decoded from JSON is a [pyval]; a [dict] keeps its items as
      an association list read from the front.
    - Module-level configuration constants of the bots are the fields of a
      record, so that a statement can range over every configuration; the
      two character limits keep the values the source gives them.
    - A handler is a program of the monad [M]: it threads the list of
      platform calls it attempts and the [action_taken] label, and it may
      raise a Python exception. *)

From Stdlib Require Import ZArith QArith Qround Ascii String List Bool Lia.
From stdpp Require Import base option list gmap strings.

Local Open Scope string_scope.
Local Open Scope list_scope.
Local Open Scope Z_scope.

(** ** Python strings *)

Module PyStr.

(** [str.isspace] on one character, for code points below 256: the
    controls 9..13 and 28..31, the space, NEL (0x85) and NBSP (0xA0). *)
Definition isspace (c : ascii) : bool :=
  let n := Z.of_nat (nat_of_ascii c) in
  ((9 <=? n) && (n <=? 13)) || ((28 <=? n) && (n <=? 32))
  || (n =? 133) || (n =? 160).

(** [str.lower] on one character: A..Z, and the Latin-1 capitals
    0xC0..0xDE without the multiplication sign 0xD7. *)
Definition lower_char (c : ascii) : ascii :=
  let n := Z.of_nat (nat_of_ascii c) in
  if ((65 <=? n) && (n <=? 90))
     || ((192 <=? n) && (n <=? 222) && negb (n =? 215))
  then ascii_of_nat (Z.to_nat (n + 32)) else c.

Fixpoint lower (s : string) : string :=
  match s with
  | EmptyString => EmptyString
  | String c s' => String (lower_char c) (lower s')
  end.

Fixpoint lstrip (s : string) : string :=
  match s with
  | EmptyString => EmptyString
  | String c s' => if isspace c then lstrip s' else s
  end.

Fixpoint rstrip (s : string) : string :=
  match s with
  | EmptyString => EmptyString
  | String c s' =>
      match rstrip s' with
      | EmptyString => if isspace c then EmptyString else String c EmptyString
      | r => String c r
      end
  end.

(** [s.strip()] *)
Definition strip (s : string) : string := rstrip (lstrip s).

(** [s.startswith(p)] *)
Definition startswith (s p : string) : bool := String.prefix p s.

Definition newline : ascii := ascii_of_nat 10.

(** [s.split("\n")]: never empty, [""] splits into [[""]]. *)
Fixpoint split_lines (s : string) : list string :=
  match s with
  | EmptyString => [EmptyString]
  | String c s' =>
      if Ascii.eqb c newline then EmptyString :: split_lines s'
      else match split_lines s' with
           | l :: ls => String c l :: ls
           | [] => [String c EmptyString]
           end
  end.

(** ["\n".join(ls)] *)
Fixpoint join_lines (ls : list string) : string :=
  match ls with
  | [] => EmptyString
  | [l] => l
  | l :: ls' => String.append l (String newline (join_lines ls'))
  end.

(** [len(s)] *)
Definition len (s : string) : Z := Z.of_nat (String.length s).

Fixpoint take (n : nat) (s : string) : string :=
  match n, s with
  | S n', String c s' => String c (take n' s')
  | _, _ => EmptyString
  end.

(** [s[:n]] for a limit [n >= 0] *)
Definition slice_to (n : Z) (s : string) : string := take (Z.to_nat n) s.

(** Truth value of a string: [bool(s)] *)
Definition nonempty (s : string) : bool :=
  match s with EmptyString => false | _ => true end.

End PyStr.

(** ** Values decoded from JSON *)

#[local] Set Warnings "-register-all".

(** What [json.loads] returns. A float is finite, and then the number it
    stands for, or one of the three values the decoder reads from [NaN],
    [Infinity] and [-Infinity] (and from a literal out of range, such as
    [1e400]). *)
Inductive pyval : Type :=
| PNone
| PBool (b : bool)
| PInt (z : Z)
| PFloat (q : Q)
| PNaN                        (* float("nan") *)
| PInf (negative : bool)      (* float("inf"), float("-inf") *)
| PStr (s : string)
| PList (l : list pyval)
| PDict (d : list (string * pyval)).

(** [bool(v)] *)
Definition truthy (v : pyval) : bool :=
  match v with
  | PNone => false
  | PBool b => b
  | PInt z => negb (z =? 0)
  | PFloat q => negb (Qnum q =? 0)
  | PNaN | PInf _ => true
  | PStr s => PyStr.nonempty s
  | PList l => match l with [] => false | _ => true end
  | PDict d => match d with [] => false | _ => true end
  end.

(** Lookup in the items of a dict. *)
Fixpoint items_get (d : list (string * pyval)) (k : string) : option pyval :=
  match d with
  | [] => None
  | (k', v) :: d' => if String.eqb k' k then Some v else items_get d' k
  end.

(** ** Severity threshold (both bots) *)

(** [SEVERITY_ORDER = {"LOW": 1, "MEDIUM": 2, "HIGH": 3, "CRITICAL": 4}] *)
Definition SEVERITY_ORDER : gmap string Z :=
  <["LOW" := 1]> (<["MEDIUM" := 2]> (<["HIGH" := 3]> (<["CRITICAL" := 4]> ∅))).

(** [SEVERITY_ORDER.get(k, 0)] for a hashable key [k]: no key that is not
    a string equals one of the four. *)
Definition SEVERITY_ORDER_get (k : pyval) : Z :=
  match k with
  | PStr s => default 0 (SEVERITY_ORDER !! s)
  | _ => 0
  end.

(** Discord, [severity_meets_threshold(severity, min_severity)] *)
Definition severity_meets_threshold (severity : pyval) (min_severity : string) : bool :=
  SEVERITY_ORDER_get (PStr min_severity) <=? SEVERITY_ORDER_get severity.

(** Telegram, the test that makes [handle_message] return:
    [severity_levels.get(severity, 0) < severity_levels.get(MIN, 0)] *)
Definition severity_below_threshold (severity : pyval) (min_severity : string) : bool :=
  SEVERITY_ORDER_get severity <? SEVERITY_ORDER_get (PStr min_severity).

(** The rank of the specification, in its own words: LOW is 1, MEDIUM 2,
    HIGH 3, CRITICAL 4 and every other string 0. *)
Definition spec_rank (s : string) : Z :=
  if String.eqb s "LOW" then 1
  else if String.eqb s "MEDIUM" then 2
  else if String.eqb s "HIGH" then 3
  else if String.eqb s "CRITICAL" then 4
  else 0.

(** ** Exceptions and the handler monad *)

(** The Python exceptions the modelled code can meet. *)
Inductive exn : Type :=
| JSONDecodeError   (* json.loads on a body that is not JSON *)
| ClientError       (* aiohttp: the request itself failed *)
| AttributeError    (* .get on a value that is not a dict *)
| TypeError         (* unhashable key, unordered operands of min *)
| OverflowError     (* timedelta out of range, an infinity made an int *)
| ValueError        (* NaN made an int, a format code a value does not have *)
| Forbidden         (* discord.Forbidden *)
| NotFound          (* discord.NotFound *)
| HTTPException     (* any other discord.HTTPException *)
| TelegramError.    (* telegram.error.TelegramError *)

Inductive outcome (A : Type) : Type :=
| Ok (a : A)
| Raised (e : exn).
Arguments Ok {A} a.
Arguments Raised {A} e.

(** A computation over a state [S] that may raise. *)
Definition M (S A : Type) : Type := S -> S * outcome A.

Definition ret {S A} (a : A) : M S A := fun s => (s, Ok a).

Definition raise {S A} (e : exn) : M S A := fun s => (s, Raised e).

Definition bind {S A B} (m : M S A) (f : A -> M S B) : M S B :=
  fun s => match m s with
           | (s', Ok a) => f a s'
           | (s', Raised e) => (s', Raised e)
           end.

(** [try: body except ...: handler]: [handler e] is [None] when no
    [except] clause matches [e]; what the body did before raising stays
    done. *)
Definition try_except {S A} (body : M S A) (handler : exn -> option (M S A)) : M S A :=
  fun s => match body s with
           | (s', Ok a) => (s', Ok a)
           | (s', Raised e) =>
               match handler e with
               | Some h => h s'
               | None => (s', Raised e)
               end
           end.

Definition lift {S A} (r : outcome A) : M S A := fun s => (s, r).

(** A computation on the first part of a state of two parts. *)
Definition on_fst {S T A} (m : M S A) : M (S * T) A :=
  fun st => match m (fst st) with
            | (s', o) => ((s', snd st), o)
            end.

Declare Scope py_scope.
Delimit Scope py_scope with py.
Notation "x <- m ;; k" := (bind m (fun x => k))
  (at level 100, m at next level, right associativity) : py_scope.
Notation "m ;;; k" := (bind m (fun _ => k))
  (at level 100, right associativity) : py_scope.
Local Open Scope py_scope.

(** [result.get(key)] and [result.get(key, dflt)] on a decoded value:
    only a dict has the method. *)
Definition py_get (v : pyval) (key : string) (dflt : pyval) : outcome pyval :=
  match v with
  | PDict d => Ok (default dflt (items_get d key))
  | _ => Raised AttributeError
  end.

(** A list or a dict cannot be a dictionary key. *)
Definition unhashable (v : pyval) : bool :=
  match v with
  | PList _ | PDict _ => true
  | _ => false
  end.

(** What an int or a float is in an ordering comparison. *)
Inductive number : Type :=
| finite (q : Q)
| nan
| infinity (negative : bool).

(** The number a value stands for in an ordering comparison with an int;
    [bool] is a subclass of [int]. *)
Definition as_number (v : pyval) : option number :=
  match v with
  | PBool b => Some (finite (inject_Z (if b then 1 else 0)))
  | PInt z => Some (finite (inject_Z z))
  | PFloat q => Some (finite q)
  | PNaN => Some nan
  | PInf negative => Some (infinity negative)
  | _ => None
  end.

(** [m < a] for an int [m]: the comparison of an int with a float is
    exact, and every comparison with NaN is false. *)
Definition int_lt (m : Z) (a : number) : bool :=
  match a with
  | finite q => if Qlt_le_dec (inject_Z m) q then true else false
  | nan => false
  | infinity negative => negb negative
  end.

(** [a <= m] for an int [m]. *)
Definition le_int (a : number) (m : Z) : bool :=
  match a with
  | finite q => if Qlt_le_dec (inject_Z m) q then false else true
  | nan => false
  | infinity negative => negative
  end.

(** [min(a, m)] for an int [m]: the second operand replaces the first
    when [m < a]; comparing an int with a value that is not a number
    raises. *)
Definition py_min_int (a : pyval) (m : Z) : outcome pyval :=
  match as_number a with
  | Some n => Ok (if int_lt m n then PInt m else a)
  | None => Raised TypeError
  end.

(** [timedelta(days=v)]: [v] must be a number; NaN and the infinities
    cannot be made the int the days are kept as; and the whole days of
    the result must have a magnitude of at most 999999999. The value
    kept is the number of days itself. *)
Definition timedelta_days (v : pyval) : outcome pyval :=
  match as_number v with
  | Some (finite q) =>
      if (-999999999 <=? Qfloor q) && (Qfloor q <=? 999999999)
      then Ok v else Raised OverflowError
  | Some nan => Raised ValueError
  | Some (infinity _) => Raised OverflowError
  | None => Raised TypeError
  end.

(** ** What the bots read from outside *)

(** A text file of the bot directory at the moment it is loaded. *)
Inductive file : Type :=
| Missing                     (* path.exists() is false *)
| Unreadable                  (* read_text raises *)
| Contents (text : string).

(** The JSON body of a request: ["policy"] and ["instructions"] are keys
    only when they are set. *)
Record payload : Type := mkPayload {
  p_content : string;
  p_policy : option string;
  p_instructions : option string
}.

(** What the POST comes back with: [decoded] is what [json.loads] makes
    of [text], [None] when it raises. *)
Record response : Type := mkResponse {
  status : Z;
  text : string;
  decoded : option pyval
}.

Inductive http_reply : Type :=
| Failed                      (* the request raised *)
| Responded (r : response).

(** [POLICY_MAX_CHARS], [INSTRUCTIONS_MAX_CHARS] (both bots) *)
Definition POLICY_MAX_CHARS : Z := 10000.
Definition INSTRUCTIONS_MAX_CHARS : Z := 2000.

(** [if x:] for an optional string. *)
Definition opt_truthy (o : option string) : bool :=
  match o with
  | Some s => PyStr.nonempty s
  | None => false
  end.

(** [if l:] for a list. *)
Definition list_truthy {A} (l : list A) : bool :=
  match l with [] => false | _ => true end.

(** [x in l] for ints. *)
Definition py_in (x : Z) (l : list Z) : bool := existsb (Z.eqb x) l.

(** ** The Discord bot, [src/discord/bot.py] *)

Module Discord.

(** The module-level configuration constants. *)
Record Config : Type := mkConfig {
  USE_POLICY_FILE : bool;
  USE_INSTRUCTIONS_FILE : bool;
  AUTO_MODERATE_MESSAGES : bool;
  AUTO_MODERATE_ACTION : string;
  AUTO_MODERATE_DEFAULT_TIMEOUT_DAYS : Z;
  AUTO_MODERATE_MAX_TIMEOUT_DAYS : Z;
  AUTO_MODERATE_LOG_CHANNEL_ID : option Z;
  AUTO_MODERATE_MIN_SEVERITY : string;
  AUTO_MODERATE_IGNORE_BOTS : bool;
  AUTO_MODERATE_EXCLUDED_CHANNELS : list Z;
  AUTO_MODERATE_INCLUDED_CHANNELS : list Z;
  AUTO_MODERATE_BYPASS_ROLES : list Z;
  ALLOWED_GUILD_IDS : list Z
}.

(** The configuration as the source ships it. *)
Definition shipped : Config := {|
  USE_POLICY_FILE := true;
  USE_INSTRUCTIONS_FILE := true;
  AUTO_MODERATE_MESSAGES := true;
  AUTO_MODERATE_ACTION := "delete_and_warn";
  AUTO_MODERATE_DEFAULT_TIMEOUT_DAYS := 1;
  AUTO_MODERATE_MAX_TIMEOUT_DAYS := 28;
  AUTO_MODERATE_LOG_CHANNEL_ID := None;
  AUTO_MODERATE_MIN_SEVERITY := "LOW";
  AUTO_MODERATE_IGNORE_BOTS := true;
  AUTO_MODERATE_EXCLUDED_CHANNELS := [];
  AUTO_MODERATE_INCLUDED_CHANNELS := [];
  AUTO_MODERATE_BYPASS_ROLES := [];
  ALLOWED_GUILD_IDS := []
|}.

(** The warning a loader hands back with its content; the text each
    stands for is an f-string of the source. *)
Inductive warning : Type :=
| not_found (name : string)               (* "<name> not found" *)
| exceeds (name : string) (limit n : Z)   (* "<name> exceeds <limit> character limit (<n> chars) - truncated" *)
| error_reading (name : string).          (* "Error reading <name>: <e>" *)

(** The test of the loop of [load_policy_file] on a stripped line. *)
Definition keeps_policy_line (line : string) : bool :=
  PyStr.startswith (PyStr.lower line) "#policy"
  || (PyStr.nonempty line && negb (PyStr.startswith line "#")).

(** The loop of [load_policy_file]: [policy_lines] grows at its end. *)
Fixpoint policy_loop (lines policy_lines : list string) : list string :=
  match lines with
  | [] => policy_lines
  | line :: rest =>
      let line := PyStr.strip line in
      if keeps_policy_line line
      then policy_loop rest (policy_lines ++ [line])
      else policy_loop rest policy_lines
  end.

(** What both loaders do with the joined lines. *)
Definition capped (name : string) (limit : Z) (content : string)
  : option string * option warning :=
  if negb (PyStr.nonempty content) then (None, None)
  else if PyStr.len content >? limit
  then (Some (PyStr.slice_to limit content),
        Some (exceeds name limit (PyStr.len content)))
  else (Some content, None).

(** The [policy_lines] of [load_policy_file] after its loop, for a file
    that reads as [text]. *)
Definition policy_lines (text : string) : list string :=
  let content := PyStr.strip text in
  let lines := PyStr.split_lines content in
  policy_loop lines [].

Definition load_policy_file (cfg : Config) (f : file)
  : option string * option warning :=
  if negb (USE_POLICY_FILE cfg) then (None, None)
  else match f with
       | Missing => (None, Some (not_found "policy.txt"))
       | Unreadable => (None, Some (error_reading "policy.txt"))
       | Contents text =>
           capped "policy.txt" POLICY_MAX_CHARS
                  (PyStr.join_lines (policy_lines text))
       end.

(** The test of the comprehension of [load_instructions_file]. *)
Definition keeps_instruction_line (line : string) : bool :=
  PyStr.nonempty (PyStr.strip line)
  && negb (PyStr.startswith (PyStr.strip line) "#").

(** The [instruction_lines] of [load_instructions_file]. *)
Definition instruction_lines (text : string) : list string :=
  let content := PyStr.strip text in
  let lines := PyStr.split_lines content in
  List.filter keeps_instruction_line lines.

Definition load_instructions_file (cfg : Config) (f : file)
  : option string * option warning :=
  if negb (USE_INSTRUCTIONS_FILE cfg) then (None, None)
  else match f with
       | Missing => (None, Some (not_found "instructions.txt"))
       | Unreadable => (None, Some (error_reading "instructions.txt"))
       | Contents text =>
           capped "instructions.txt" INSTRUCTIONS_MAX_CHARS
                  (PyStr.join_lines (instruction_lines text))
       end.

(** The entries of [sources]; each stands for a label of the source. *)
Inductive source : Type :=
| file_policy           (* "policy.txt" *)
| file_instructions     (* "instructions.txt" *)
| inline_policy         (* "inline policy" *)
| inline_instructions.  (* "inline instructions" *)

(** [final += "\n" + extra] when [final] is set, [final = extra] else. *)
Definition extend (final extra : string) : string :=
  if PyStr.nonempty final
  then String.append final (String PyStr.newline extra)
  else extra.

(** [if final and len(final) > limit: final = final[:limit]] *)
Definition clip (limit : Z) (final : string) : string :=
  if PyStr.nonempty final && (PyStr.len final >? limit)
  then PyStr.slice_to limit final else final.

(** [payload[key] = final] only [if final:] *)
Definition field (final : string) : option string :=
  if PyStr.nonempty final then Some final else None.

(** [call_nova_moderation] up to the POST: the payload and [sources]. *)
Definition build_request (cfg : Config) (policy_txt instructions_txt : file)
    (content : string) (policy instructions : option string)
    (use_policy_file use_instructions_file : bool)
  : payload * list source :=
  let sources : list source := [] in
  let final_policy := "" in
  let final_instructions := "" in
  let '(final_policy, sources) :=
    if use_policy_file && USE_POLICY_FILE cfg then
      match fst (load_policy_file cfg policy_txt) with
      | Some fp => if PyStr.nonempty fp then (fp, (sources ++ [file_policy])%list)
                   else (final_policy, sources)
      | None => (final_policy, sources)
      end
    else (final_policy, sources) in
  let '(final_instructions, sources) :=
    if use_instructions_file && USE_INSTRUCTIONS_FILE cfg then
      match fst (load_instructions_file cfg instructions_txt) with
      | Some fi => if PyStr.nonempty fi then (fi, (sources ++ [file_instructions])%list)
                   else (final_instructions, sources)
      | None => (final_instructions, sources)
      end
    else (final_instructions, sources) in
  let '(final_policy, sources) :=
    match policy with
    | Some p => if PyStr.nonempty p
                then (extend final_policy p, (sources ++ [inline_policy])%list)
                else (final_policy, sources)
    | None => (final_policy, sources)
    end in
  let '(final_instructions, sources) :=
    match instructions with
    | Some i => if PyStr.nonempty i
                then (extend final_instructions i, (sources ++ [inline_instructions])%list)
                else (final_instructions, sources)
    | None => (final_instructions, sources)
    end in
  let final_policy := clip POLICY_MAX_CHARS final_policy in
  let final_instructions := clip INSTRUCTIONS_MAX_CHARS final_instructions in
  (mkPayload content (field final_policy) (field final_instructions), sources).

(** The dict [call_nova_moderation] answers a status other than 200
    with. *)
Definition error_dict (r : response) : pyval :=
  PDict [("error", PBool true); ("status_code", PInt (status r));
         ("message", PStr (text r))].

(** The end of [call_nova_moderation]: what it makes of the answer.
    Writing [debug.txt] in between cannot raise out of its [try]. *)
Definition read_response (o : http_reply) : outcome pyval :=
  match o with
  | Failed => Raised ClientError
  | Responded r =>
      if status r =? 200
      then match decoded r with
           | Some v => Ok v
           | None => Raised JSONDecodeError
           end
      else Ok (error_dict r)
  end.

(** *** The auto-moderation handler *)

(** What [on_message] reads of a [discord.Message]. *)
Record Message : Type := mkMessage {
  author_bot : bool;                  (* message.author.bot *)
  author_roles : option (list Z);     (* role ids, when the author has [roles] *)
  guild : option Z;                   (* message.guild.id, None in a DM *)
  channel : Z;                        (* message.channel.id *)
  content : string                    (* message.content *)
}.

(** The value of the variable [action_taken]. *)
Inductive label : Type :=
| configured (action : string)        (* AUTO_MODERATE_ACTION *)
| timed_out (days : pyval).           (* "timeout (<days>d)" *)

(** The calls the handler makes to the outside. *)
Inductive call : Type :=
| post_moderation (p : payload)       (* session.post(NOVA_API_URL, json=payload) *)
| message_delete                      (* message.delete() *)
| message_reply                       (* message.reply(embed, delete_after=30) *)
| author_send                         (* message.author.send(embed) *)
| channel_send                        (* message.channel.send(embed, delete_after=10) *)
| author_timeout (days : pyval)       (* message.author.timeout(timedelta(days)) *)
| author_ban                          (* message.author.ban(...) *)
| log_channel_send (l : label).       (* log_channel.send(create_auto_mod_log_embed(..)) *)

(** The outside at the time of one message. [platform c] is the
    exception the call [c] meets, if any; for [log_channel_send] it
    covers the construction of the embed too. *)
Record Env : Type := mkEnv {
  policy_txt : file;
  instructions_txt : file;
  http : payload -> http_reply;
  platform : call -> option exn;
  log_channel_found : bool            (* bot.get_channel(id) is not None *)
}.

Record State : Type := mkState {
  calls : list call;
  action_taken : label
}.

Definition record (c : call) : M State unit :=
  fun s => (mkState (calls s ++ [c])%list (action_taken s), Ok tt).

Definition set_action_taken (l : label) : M State unit :=
  fun s => (mkState (calls s) l, Ok tt).

Definition get_action_taken : M State label :=
  fun s => (s, Ok (action_taken s)).

(** An awaited platform call. *)
Definition attempt (env : Env) (c : call) : M State unit :=
  record c ;;;
  match platform env c with
  | Some e => raise e
  | None => ret tt
  end.

(** [try: ... except discord.Forbidden: print(...)] *)
Definition except_forbidden (body : M State unit) : M State unit :=
  try_except body (fun e => match e with Forbidden => Some (ret tt) | _ => None end).

(** [try: ... except discord.NotFound: print(...)] *)
Definition except_not_found (body : M State unit) : M State unit :=
  try_except body (fun e => match e with NotFound => Some (ret tt) | _ => None end).

(** [try: ... except Exception as e: print(...)] *)
Definition except_exception (body : M State unit) : M State unit :=
  try_except body (fun _ => Some (ret tt)).

Definition call_nova_moderation (cfg : Config) (env : Env)
    (content : string) (policy instructions : option string)
    (use_policy_file use_instructions_file : bool)
  : M State (pyval * list source) :=
  let '(p, sources) :=
    build_request cfg (policy_txt env) (instructions_txt env) content
                  policy instructions use_policy_file use_instructions_file in
  record (post_moderation p) ;;;
  v <- lift (read_response (http env p)) ;;
  ret (v, sources).

(** The four scope tests of [on_message], in the order they run. *)
Definition bot_ignored (cfg : Config) (m : Message) : bool :=
  AUTO_MODERATE_IGNORE_BOTS cfg && author_bot m.

Definition guild_not_allowed (cfg : Config) (guild_id : Z) : bool :=
  list_truthy (ALLOWED_GUILD_IDS cfg) && negb (py_in guild_id (ALLOWED_GUILD_IDS cfg)).

Definition channel_skipped (cfg : Config) (m : Message) : bool :=
  if list_truthy (AUTO_MODERATE_INCLUDED_CHANNELS cfg)
  then negb (py_in (channel m) (AUTO_MODERATE_INCLUDED_CHANNELS cfg))
  else py_in (channel m) (AUTO_MODERATE_EXCLUDED_CHANNELS cfg).

Definition has_bypass_role (cfg : Config) (m : Message) : bool :=
  list_truthy (AUTO_MODERATE_BYPASS_ROLES cfg) &&
  match author_roles m with
  | Some author_role_ids =>
      existsb (fun role_id => py_in role_id author_role_ids)
              (AUTO_MODERATE_BYPASS_ROLES cfg)
  | None => false
  end.

(** [status not in ["BLOCKED", "DISALLOWED"]] *)
Definition status_blocks (v : pyval) : bool :=
  match v with
  | PStr s => String.eqb s "BLOCKED" || String.eqb s "DISALLOWED"
  | _ => false
  end.

(** The [timeout_days] of the timeout branch. *)
Definition timeout_days (cfg : Config) (result : pyval) : outcome pyval :=
  match py_get result "banned_days" PNone with
  | Ok banned_days =>
      if truthy banned_days
      then py_min_int banned_days (AUTO_MODERATE_MAX_TIMEOUT_DAYS cfg)
      else Ok (PInt (AUTO_MODERATE_DEFAULT_TIMEOUT_DAYS cfg))
  | Raised e => Raised e
  end.

(** The [if]/[elif] chain on [AUTO_MODERATE_ACTION] inside the [try]. *)
Definition enforce (cfg : Config) (env : Env) (result : pyval) : M State unit :=
  let action := AUTO_MODERATE_ACTION cfg in
  if String.eqb action "delete" then
    attempt env message_delete
  else if String.eqb action "warn" then
    attempt env message_reply
  else if String.eqb action "log" then
    ret tt
  else if String.eqb action "delete_and_warn" then
    except_forbidden (attempt env author_send) ;;;
    except_exception (attempt env channel_send) ;;;
    attempt env message_delete
  else if String.eqb action "timeout" then
    timeout_days <- lift (timeout_days cfg result) ;;
    timeout_duration <- lift (timedelta_days timeout_days) ;;
    except_forbidden
      (attempt env (author_timeout timeout_duration) ;;;
       set_action_taken (timed_out timeout_days)) ;;;
    except_forbidden (attempt env author_send) ;;;
    except_exception (attempt env channel_send) ;;;
    attempt env message_delete
  else if String.eqb action "ban" then
    except_forbidden (attempt env author_ban) ;;;
    except_forbidden (attempt env author_send) ;;;
    except_exception (attempt env channel_send) ;;;
    except_not_found (attempt env message_delete)
  else ret tt.

(** The end of [on_message]: the post to the log channel. *)
Definition log_alert (cfg : Config) (env : Env) : M State unit :=
  match AUTO_MODERATE_LOG_CHANNEL_ID cfg with
  | Some id =>
      if negb (id =? 0) && log_channel_found env
      then except_exception
             (l <- get_action_taken ;; attempt env (log_channel_send l))
      else ret tt
  | None => ret tt
  end.

(** [on_message] from the test of [result.get("error")] on: what the
    handler does with the value the client returned. *)
Definition act_on (cfg : Config) (env : Env) (result : pyval) : M State unit :=
  error <- lift (py_get result "error" PNone) ;;
  if truthy error then ret tt
  else
    status <- lift (py_get result "status" (PStr "ALLOWED")) ;;
    severity <- lift (py_get result "severity" (PStr "LOW")) ;;
    if negb (status_blocks status) then ret tt
    else if unhashable severity then raise TypeError
    else if negb (severity_meets_threshold severity
                    (AUTO_MODERATE_MIN_SEVERITY cfg)) then ret tt
    else
      set_action_taken (configured (AUTO_MODERATE_ACTION cfg)) ;;;
      proceed <- try_except
                   (enforce cfg env result ;;; ret true)
                   (fun e => match e with
                             | Forbidden => Some (ret false)
                             | NotFound => Some (ret true)
                             | _ => None
                             end) ;;
      if proceed then log_alert cfg env else ret tt.

(** [on_message] after [bot.process_commands(message)], which serves the
    prefix commands and is no part of auto-moderation. *)
Definition on_message (cfg : Config) (env : Env) (message : Message) : M State unit :=
  if negb (AUTO_MODERATE_MESSAGES cfg) then ret tt
  else if bot_ignored cfg message then ret tt
  else match guild message with
  | None => ret tt
  | Some guild_id =>
  if negb (PyStr.nonempty (content message)) then ret tt
  else if guild_not_allowed cfg guild_id then ret tt
  else if channel_skipped cfg message then ret tt
  else if has_bypass_role cfg message then ret tt
  else
    answer <- try_except
                (r <- call_nova_moderation cfg env (content message)
                                           None None true true ;;
                 ret (Some (fst r)))
                (fun _ => Some (ret None)) ;;
    match answer with
    | None => ret tt
    | Some result => act_on cfg env result
    end
  end.

(** *** What the result embed shows *)

(** The local variables of [create_moderation_embed] for a verdict. *)
Record shown : Type := mkShown {
  shown_status : pyval;
  shown_severity : pyval;
  shown_category : pyval;
  shown_action : pyval;
  shown_confidence : pyval;
  shown_reason : pyval;
  shown_detected_signals : pyval;
  shown_banned_days : pyval;
  shown_uncertainty_flag : pyval;
  shown_escalation_required : pyval
}.

Inductive embed : Type :=
| error_embed (status_code message : pyval)   (* "Moderation Error" *)
| result_embed (v : shown).                   (* "Content Moderation Result" *)

(** [create_moderation_embed(result, ...)] up to the layout: the values
    it reads from [result]. *)
Definition embed_values (result : pyval) : outcome embed :=
  match result with
  | PDict d =>
      let get key dflt := default dflt (items_get d key) in
      if truthy (get "error" PNone)
      then Ok (error_embed (get "status_code" PNone)
                           (get "message" (PStr "Unknown error")))
      else Ok (result_embed {|
        shown_status := get "status" (PStr "UNKNOWN");
        shown_severity := get "severity" (PStr "UNKNOWN");
        shown_category := get "category" (PStr "UNKNOWN");
        shown_action := get "action" (PStr "UNKNOWN");
        shown_confidence := get "confidence" (PInt 0);
        shown_reason := get "reason" (PStr "No reason provided");
        shown_detected_signals := get "detected_signals" (PList []);
        shown_banned_days := get "banned_days" PNone;
        shown_uncertainty_flag := get "uncertainty_flag" (PBool false);
        shown_escalation_required := get "escalation_required" (PBool false)
      |})
  | _ => Raised AttributeError
  end.

(** *** The status of the files *)

(** One entry of the dict [get_file_status] returns. *)
Record file_status : Type := mkFileStatus {
  fs_enabled : bool;                  (* "enabled" *)
  fs_exists : bool;                   (* "exists" *)
  fs_content : option string;         (* "content" *)
  fs_length : Z;                      (* "length" *)
  fs_max_length : Z;                  (* "max_length" *)
  fs_warning : option warning         (* "warning" *)
}.

(** [path.exists()] *)
Definition file_exists (f : file) : bool :=
  match f with
  | Missing => false
  | Unreadable | Contents _ => true
  end.

(** [len(content) if content else 0] *)
Definition length_or_0 (content : option string) : Z :=
  match content with
  | Some c => if PyStr.nonempty c then PyStr.len c else 0
  | None => 0
  end.

(** [get_file_status()]: the entries ["policy"] and ["instructions"]. *)
Definition get_file_status (cfg : Config) (policy_txt instructions_txt : file)
  : file_status * file_status :=
  let '(policy_content, policy_warning) := load_policy_file cfg policy_txt in
  let '(instructions_content, instructions_warning) :=
    load_instructions_file cfg instructions_txt in
  (mkFileStatus (USE_POLICY_FILE cfg) (file_exists policy_txt)
                policy_content (length_or_0 policy_content)
                POLICY_MAX_CHARS policy_warning,
   mkFileStatus (USE_INSTRUCTIONS_FILE cfg) (file_exists instructions_txt)
                instructions_content (length_or_0 instructions_content)
                INSTRUCTIONS_MAX_CHARS instructions_warning).

(** *** The alert in the log channel *)

(** The string the variable [action_taken] holds; [str_of] is [str] on
    the days inside the f-string ["timeout ({timeout_days}d)"]. *)
Definition label_text (str_of : pyval -> string) (l : label) : string :=
  match l with
  | configured action => action
  | timed_out days =>
      String.append "timeout (" (String.append (str_of days) "d)")
  end.

(** [action_labels] of [create_auto_mod_log_embed] *)
Definition action_labels : list (string * string) :=
  [("delete", "Deleted"); ("warn", "Warned"); ("log", "Logged Only");
   ("delete_and_warn", "Deleted + DM Warning");
   ("timeout", "Deleted + Timeout"); ("ban", "Deleted + Banned")].

(** [labels.get(key, dflt)] *)
Fixpoint labels_get (labels : list (string * string)) (key dflt : string) : string :=
  match labels with
  | [] => dflt
  | (k, v) :: rest => if String.eqb k key then v else labels_get rest key dflt
  end.

(** The value of the field "Action Taken":
    [action_labels.get(action_taken, action_taken)]. *)
Definition action_taken_field (action_taken : string) : string :=
  labels_get action_labels action_taken action_taken.

(** Whether the embed gets the field "Jump to Message":
    [action_taken not in ["delete", "delete_and_warn", "timeout", "ban"]]. *)
Definition jump_to_message (action_taken : string) : bool :=
  negb (existsb (String.eqb action_taken)
          ["delete"; "delete_and_warn"; "timeout"; "ban"]).

(** *** The commands *)

(** The descriptions of the error embeds of the commands. *)
Inductive complaint : Type :=
| too_long              (* "Content exceeds maximum length of 50,000 characters." *)
| message_not_found     (* "Message not found. Make sure you're using a valid ..." *)
| cannot_read           (* "I don't have permission to read that message." *)
| no_text.              (* "That message has no text content to moderate." *)

(** The calls a command makes on its interaction. [followup_result]
    stands for [interaction.followup.send(embed=embed)], after
    [embed.set_author(...)] when [with_author] is set, for the embed
    made of [result], [content] and [sources]. *)
Inductive interaction_call : Type :=
| defer                               (* interaction.response.defer(ephemeral=True) *)
| fetch_message (msg_id : Z)          (* interaction.channel.fetch_message(msg_id) *)
| followup_error (c : complaint)      (* interaction.followup.send(embed=<error>) *)
| followup_result (result : pyval) (content : string)
                  (sources : list source) (with_author : bool).

(** The interaction of one command: [answers c] is the exception the
    call [c] meets, if any, and [fetched msg_id] the content of the
    message [fetch_message] returns. [embed_error result] is the
    exception [create_moderation_embed] raises on a result whose
    confidence is a string or whose detected signals are a dict: there
    the class depends on the text and on the version of Python
    (ValueError, or OverflowError when ten copies of the string read as
    a large int; TypeError, or KeyError from Python 3.12 on). *)
Record Interaction : Type := mkInteraction {
  answers : interaction_call -> option exn;
  fetched : Z -> string;
  embed_error : pyval -> exn
}.

(** [status == "ALLOWED"] *)
Definition is_allowed (status : pyval) : bool :=
  match status with
  | PStr s => String.eqb s "ALLOWED"
  | _ => false
  end.

(** A repetition count must fit [Py_ssize_t]. *)
Definition index_sized (n : Z) : bool := (- 2 ^ 63 <=? n) && (n <? 2 ^ 63).

(** [int(x)] for a finite float: toward zero. *)
Definition py_int (q : Q) : Z := Z.quot (Qnum q) (Zpos (Qden q)).

(** ["█" * filled + "░" * empty] for [empty = 10 - filled]; the memory a
    long bar takes is not modelled. *)
Definition bar (filled : Z) : outcome unit :=
  if index_sized filled && index_sized (10 - filled)
  then Ok tt else Raised OverflowError.

(** [create_confidence_bar(confidence)] and then
    [f"{confidence:.0%}"]: whether they raise. *)
Definition confidence_field (i : Interaction) (result confidence : pyval)
  : outcome unit :=
  match confidence with
  | PNone | PDict _ => Raised TypeError      (* None * 10, dict * 10 *)
  | PList _ => Raised TypeError              (* int(list) *)
  | PStr _ => Raised (embed_error i result)  (* int(str), or the format *)
  | PNaN => Raised ValueError                (* int(nan) *)
  | PInf _ => Raised OverflowError           (* int(inf) *)
  | PBool b => bar (if b then 10 else 0)
  | PInt z => bar (z * 10)
  | PFloat q => bar (py_int (q * 10))
  end.

(** [detected_signals[:5]] under [if detected_signals:]. *)
Definition signals_field (i : Interaction) (result detected_signals : pyval)
  : outcome unit :=
  if truthy detected_signals then
    match detected_signals with
    | PList _ | PStr _ => Ok tt
    | PDict _ => Raised (embed_error i result)
    | _ => Raised TypeError                  (* not subscriptable *)
    end
  else Ok tt.

(** [create_moderation_embed(result, content_preview, sources)]: the
    embed, or the exception of the first step that raises. A severity
    is a key of [severity_colors] unless the status is ALLOWED, an
    action always one of [get_action_emoji]. *)
Definition create_moderation_embed (i : Interaction) (result : pyval)
    (content_preview : string) (sources : list source) : outcome embed :=
  match embed_values result with
  | Raised e => Raised e
  | Ok (error_embed status_code message) => Ok (error_embed status_code message)
  | Ok (result_embed v) =>
      if negb (is_allowed (shown_status v)) && unhashable (shown_severity v)
      then Raised TypeError
      else
        match confidence_field i result (shown_confidence v) with
        | Raised e => Raised e
        | Ok _ =>
            if unhashable (shown_action v) then Raised TypeError
            else
              match signals_field i result (shown_detected_signals v) with
              | Raised e => Raised e
              | Ok _ => Ok (result_embed v)
              end
        end
  end.

(** The calls of the client, and those on the interaction. *)
Definition Session : Type := State * list interaction_call.

(** An awaited call on the interaction. *)
Definition respond (i : Interaction) (c : interaction_call) : M Session unit :=
  (fun st : Session => ((fst st, (snd st ++ [c])%list), Ok tt)) ;;;
  match answers i c with
  | Some e => raise e
  | None => ret tt
  end.

(** The command [/moderate]. *)
Definition moderate (cfg : Config) (env : Env) (i : Interaction)
    (content : string) : M Session unit :=
  respond i defer ;;;
  if PyStr.len content >? 50000 then respond i (followup_error too_long)
  else
    r <- on_fst (call_nova_moderation cfg env content None None true true) ;;
    lift (create_moderation_embed i (fst r) content (snd r)) ;;;
    respond i (followup_result (fst r) content (snd r) false).

(** The command [/moderate-message]; [message_id] is [int(message_id)],
    [None] when that raises ValueError. *)
Definition moderate_message (cfg : Config) (env : Env) (i : Interaction)
    (message_id : option Z) (policy instructions : option string)
    (use_policy_file use_instructions_file : bool) : M Session unit :=
  respond i defer ;;;
  found <- match message_id with
           | None => ret (inl message_not_found)
           | Some msg_id =>
               try_except
                 (respond i (fetch_message msg_id) ;;;
                  ret (inr (fetched i msg_id)))
                 (fun e => match e with
                           | NotFound => Some (ret (inl message_not_found))
                           | Forbidden => Some (ret (inl cannot_read))
                           | _ => None
                           end)
           end ;;
  match found with
  | inl c => respond i (followup_error c)
  | inr content =>
      if negb (PyStr.nonempty content) then respond i (followup_error no_text)
      else
        r <- on_fst (call_nova_moderation cfg env content policy instructions
                       use_policy_file use_instructions_file) ;;
        lift (create_moderation_embed i (fst r) content (snd r)) ;;;
        respond i (followup_result (fst r) content (snd r) true)
  end.

(** The context menu "Moderate This Message"; [content] is
    [message.content]. *)
Definition moderate_context (cfg : Config) (env : Env) (i : Interaction)
    (content : string) : M Session unit :=
  respond i defer ;;;
  if negb (PyStr.nonempty content) then respond i (followup_error no_text)
  else
    r <- on_fst (call_nova_moderation cfg env content None None true true) ;;
    lift (create_moderation_embed i (fst r) content (snd r)) ;;;
    respond i (followup_result (fst r) content (snd r) true).

End Discord.

(** ** The Telegram bot, [src/telegram/bot.py] *)

Module Telegram.

Record Config : Type := mkConfig {
  USE_POLICY_FILE : bool;
  USE_INSTRUCTIONS_FILE : bool;
  AUTO_MODERATE_MESSAGES : bool;
  AUTO_MODERATE_ACTION : string;
  AUTO_MODERATE_MIN_SEVERITY : string;
  AUTO_MODERATE_DEFAULT_TIMEOUT_DAYS : Z;
  AUTO_MODERATE_MAX_TIMEOUT_DAYS : Z;
  ALLOWED_CHAT_IDS : list Z
}.

(** The configuration as the source ships it. *)
Definition shipped : Config := {|
  USE_POLICY_FILE := true;
  USE_INSTRUCTIONS_FILE := true;
  AUTO_MODERATE_MESSAGES := true;
  AUTO_MODERATE_ACTION := "delete_and_warn";
  AUTO_MODERATE_MIN_SEVERITY := "LOW";
  AUTO_MODERATE_DEFAULT_TIMEOUT_DAYS := 1;
  AUTO_MODERATE_MAX_TIMEOUT_DAYS := 28;
  ALLOWED_CHAT_IDS := []
|}.

Inductive warning : Type :=
| file_not_found (name : string)      (* "File not found: <name>" *)
| truncated_to (max_chars : Z)        (* "Truncated to <max_chars> chars" *)
| exception_text.                     (* str(e) *)

(** The test of the loop of [load_text_file] on a stripped line that is
    not empty. *)
Definition keeps_line (line : string) : bool :=
  PyStr.startswith (PyStr.lower line) "#policy"
  || negb (PyStr.startswith line "#").

Fixpoint lines_loop (split lines : list string) : list string :=
  match split with
  | [] => lines
  | line :: rest =>
      let line := PyStr.strip line in
      if negb (PyStr.nonempty line) then lines_loop rest lines
      else if keeps_line line then lines_loop rest (lines ++ [line])
      else lines_loop rest lines
  end.

(** The [lines] of [load_text_file] after its loop, for a file that
    reads as [text]. *)
Definition kept_lines (text : string) : list string :=
  let content := PyStr.strip text in
  lines_loop (PyStr.split_lines content) [].

(** [load_text_file(path, max_chars)]; [name] is [path.name]. *)
Definition load_text_file (name : string) (f : file) (max_chars : Z)
  : option string * option warning :=
  match f with
  | Missing => (None, Some (file_not_found name))
  | Unreadable => (None, Some exception_text)
  | Contents text =>
      let content := PyStr.join_lines (kept_lines text) in
      if negb (PyStr.nonempty content) then (None, None)
      else if PyStr.len content >? max_chars
      then (Some (PyStr.slice_to max_chars content), Some (truncated_to max_chars))
      else (Some content, None)
  end.

(** [call_nova_moderation] up to the POST. *)
Definition build_request (cfg : Config) (policy_txt instructions_txt : file)
    (content : string) : payload :=
  let policy_content := "" in
  let instructions_content := "" in
  let policy_content :=
    if USE_POLICY_FILE cfg then
      match fst (load_text_file "policy.txt" policy_txt POLICY_MAX_CHARS) with
      | Some p => if PyStr.nonempty p then p else policy_content
      | None => policy_content
      end
    else policy_content in
  let instructions_content :=
    if USE_INSTRUCTIONS_FILE cfg then
      match fst (load_text_file "instructions.txt" instructions_txt
                                INSTRUCTIONS_MAX_CHARS) with
      | Some i => if PyStr.nonempty i then i else instructions_content
      | None => instructions_content
      end
    else instructions_content in
  mkPayload content
            (if PyStr.nonempty policy_content then Some policy_content else None)
            (if PyStr.nonempty instructions_content
             then Some instructions_content else None).

(** The dict a status other than 200 is answered with. *)
Definition error_dict (r : response) : pyval :=
  PDict [("error", PBool true); ("message", PStr (text r))].

Definition read_response (o : http_reply) : outcome pyval :=
  match o with
  | Failed => Raised ClientError
  | Responded r =>
      if status r =? 200
      then match decoded r with
           | Some v => Ok v
           | None => Raised JSONDecodeError
           end
      else Ok (error_dict r)
  end.

(** *** The message handler *)

(** What [handle_message] reads of [update.message]. *)
Record Message : Type := mkMessage {
  from_user : bool;                   (* message.from_user is not None *)
  chat : Z;                           (* message.chat.id *)
  text_ : option string               (* message.text *)
}.

Inductive call : Type :=
| post_moderation (p : payload)       (* session.post(NOVA_API_URL, json=payload) *)
| message_delete                      (* message.delete() *)
| reply_text                          (* message.reply_text(...) *)
| send_message                        (* context.bot.send_message(chat_id, ...) *)
| user_send_message                   (* message.from_user.send_message(...) *)
| restrict_chat_member (days : pyval) (* restrict until now + timedelta(days) *)
| ban_chat_member                     (* context.bot.ban_chat_member(...) *)
| delete_later (delay : Z).           (* asyncio.create_task(delete_later(msg, delay)) *)

(** The outside at the time of one update. [date_overflows d] says
    whether [datetime.now() + timedelta(days=d)] leaves the range of
    [datetime]. *)
Record Env : Type := mkEnv {
  policy_txt : file;
  instructions_txt : file;
  http : payload -> http_reply;
  platform : call -> option exn;
  date_overflows : pyval -> bool
}.

Definition State : Type := list call.

Definition record (c : call) : M State unit :=
  fun s => ((s ++ [c])%list, Ok tt).

Definition attempt (env : Env) (c : call) : M State unit :=
  record c ;;;
  match platform env c with
  | Some e => raise e
  | None => ret tt
  end.

(** [try: ... except Exception: ...] *)
Definition except_exception (body : M State unit) : M State unit :=
  try_except body (fun _ => Some (ret tt)).

Definition call_nova_moderation (cfg : Config) (env : Env) (content : string)
  : M State pyval :=
  let p := build_request cfg (policy_txt env) (instructions_txt env) content in
  record (post_moderation p) ;;;
  lift (read_response (http env p)).

Definition chat_not_allowed (cfg : Config) (m : Message) : bool :=
  list_truthy (ALLOWED_CHAT_IDS cfg) && negb (py_in (chat m) (ALLOWED_CHAT_IDS cfg)).

Definition status_blocks (v : pyval) : bool :=
  match v with
  | PStr s => String.eqb s "BLOCKED" || String.eqb s "DISALLOWED"
  | _ => false
  end.

(** The [days] of the timeout branch. *)
Definition timeout_days (cfg : Config) (result : pyval) : outcome pyval :=
  match py_get result "banned_days"
               (PInt (AUTO_MODERATE_DEFAULT_TIMEOUT_DAYS cfg)) with
  | Ok days => py_min_int days (AUTO_MODERATE_MAX_TIMEOUT_DAYS cfg)
  | Raised e => Raised e
  end.

(** [AUTO_MODERATE_ACTION in ["delete", "delete_and_warn", "timeout", "ban"]] *)
Definition deletes (action : string) : bool :=
  String.eqb action "delete" || String.eqb action "delete_and_warn"
  || String.eqb action "timeout" || String.eqb action "ban".

(** The body of the [try] of [handle_message]. *)
Definition enforce (cfg : Config) (env : Env) (result : pyval) : M State unit :=
  let action := AUTO_MODERATE_ACTION cfg in
  (if deletes action then attempt env message_delete else ret tt) ;;;
  if String.eqb action "warn" then
    attempt env reply_text ;;;
    record (delete_later 30)
  else if String.eqb action "delete_and_warn" then
    attempt env send_message ;;;
    record (delete_later 10) ;;;
    except_exception (attempt env user_send_message)
  else if String.eqb action "timeout" then
    days <- lift (timeout_days cfg result) ;;
    duration <- lift (timedelta_days days) ;;
    (if date_overflows env duration then raise OverflowError else ret tt) ;;;
    attempt env (restrict_chat_member duration) ;;;
    attempt env send_message ;;;
    record (delete_later 10)
  else if String.eqb action "ban" then
    attempt env ban_chat_member ;;;
    attempt env send_message ;;;
    record (delete_later 10)
  else ret tt.

(** [handle_message] from the test of [result.get("error")] on. *)
Definition act_on (cfg : Config) (env : Env) (result : pyval) : M State unit :=
  error <- lift (py_get result "error" PNone) ;;
  if truthy error then ret tt
  else
    status <- lift (py_get result "status" (PStr "ALLOWED")) ;;
    severity <- lift (py_get result "severity" (PStr "LOW")) ;;
    if negb (status_blocks status) then ret tt
    else if unhashable severity then raise TypeError
    else if severity_below_threshold severity
              (AUTO_MODERATE_MIN_SEVERITY cfg) then ret tt
    else except_exception (enforce cfg env result).

(** [handle_message]; [update_message] is [update.message]. *)
Definition handle_message (cfg : Config) (env : Env)
    (update_message : option Message) : M State unit :=
  if negb (AUTO_MODERATE_MESSAGES cfg) then ret tt
  else match update_message with
  | None => ret tt
  | Some message =>
  if negb (opt_truthy (text_ message)) then ret tt
  else if negb (from_user message) then raise AttributeError
  else if chat_not_allowed cfg message then ret tt
  else
    let content := default "" (text_ message) in
    result <- call_nova_moderation cfg env content ;;
    act_on cfg env result
  end.

(** *** What the report shows *)

Inductive report : Type :=
| error_report (message : pyval)
| result_report (status severity category reason confidence : pyval)
                (suggested_ban : option pyval).

(** [format_report(result, content)] up to the layout: the values it
    reads from [result]. *)
Definition report_values (result : pyval) : outcome report :=
  match result with
  | PDict d =>
      let get key dflt := default dflt (items_get d key) in
      if truthy (get "error" PNone)
      then Ok (error_report (get "message" PNone))
      else Ok (result_report
                 (get "status" (PStr "UNKNOWN"))
                 (get "severity" (PStr "UNKNOWN"))
                 (get "category" (PStr "UNKNOWN"))
                 (get "reason" (PStr "No reason provided"))
                 (get "confidence" (PInt 0))
                 (if truthy (get "banned_days" PNone)
                  then Some (get "banned_days" PNone) else None))
  | _ => Raised AttributeError
  end.

(** *** The commands *)

(** The texts the commands reply with. *)
Inductive notice : Type :=
| usage                 (* "Usage: /moderate [text content]" *)
| text_too_long         (* "Error: Text too long (max 50k chars)." *)
| analyzing             (* "Analyzing..." *)
| no_policy_file        (* "No policy file loaded." *)
| policy_configuration (shown : string) (truncated : bool).
                        (* "Policy Configuration" with [p[:1000]], and
                           "(truncated)" when [truncated] *)

(** The calls of a command. [edit_text] stands for
    [status_msg.edit_text(report)], for the report made of [result] and
    [content]. *)
Inductive command_call : Type :=
| command_reply (n : notice)          (* update.message.reply_text(...) *)
| send_chat_action                    (* context.bot.send_chat_action(...) *)
| edit_text (result : pyval) (content : string).

(** The calls of the client, and those of the command. *)
Definition Session : Type := State * list command_call.

(** An awaited call of a command; [answers c] is the exception [c]
    meets, if any. *)
Definition answer (answers : command_call -> option exn) (c : command_call)
  : M Session unit :=
  (fun st : Session => ((fst st, (snd st ++ [c])%list), Ok tt)) ;;;
  match answers c with
  | Some e => raise e
  | None => ret tt
  end.

(** [f"{confidence:.0%}"]: a number is formatted, an int as the float
    it converts to, and the other values have no such format. *)
Definition percent (confidence : pyval) : outcome unit :=
  match confidence with
  | PBool _ | PFloat _ | PNaN | PInf _ => Ok tt
  | PInt z =>
      if Z.abs z <? 2 ^ 1024 - 2 ^ 970 then Ok tt else Raised OverflowError
  | PStr _ => Raised ValueError
  | PNone | PList _ | PDict _ => Raised TypeError
  end.

(** [format_report(result, content)]: the report, or the exception of
    the step that raises. *)
Definition format_report (result : pyval) (content : string) : outcome report :=
  match report_values result with
  | Raised e => Raised e
  | Ok (error_report message) => Ok (error_report message)
  | Ok (result_report status severity category reason confidence suggested_ban) =>
      match percent confidence with
      | Raised e => Raised e
      | Ok _ => Ok (result_report status severity category reason confidence
                      suggested_ban)
      end
  end.

(** [" ".join(context.args)] *)
Fixpoint join_args (args : list string) : string :=
  match args with
  | [] => EmptyString
  | [a] => a
  | a :: rest => String.append a (String " " (join_args rest))
  end.

(** [moderate_command]; [update_message] says whether [update.message]
    is set, [args] is [context.args]. *)
Definition moderate_command (cfg : Config) (env : Env)
    (answers : command_call -> option exn)
    (update_message : bool) (args : list string) : M Session unit :=
  if negb update_message then ret tt
  else if negb (list_truthy args) then answer answers (command_reply usage)
  else
    let content := join_args args in
    if PyStr.len content >? 50000
    then answer answers (command_reply text_too_long)
    else
      answer answers (command_reply analyzing) ;;;
      answer answers send_chat_action ;;;
      result <- on_fst (call_nova_moderation cfg env content) ;;
      lift (format_report result content) ;;;
      answer answers (edit_text result content).

(** [policy_command]; without [update.message] the reply raises. *)
Definition policy_command (policy_txt : file)
    (answers : command_call -> option exn)
    (update_message : bool) : M Session unit :=
  let '(p, warning) := load_text_file "policy.txt" policy_txt POLICY_MAX_CHARS in
  if negb update_message then raise AttributeError
  else if negb (opt_truthy p) then answer answers (command_reply no_policy_file)
  else
    let p := default "" p in
    answer answers
      (command_reply (policy_configuration (PyStr.slice_to 1000 p)
                                           (PyStr.len p >? 1000))).

End Telegram.

(** ** Blank and comment lines *)

(** A line is blank or a comment for the policy loop. *)
Definition dropped_from_policy (raw : string) : Prop :=
  let l := PyStr.strip raw in
  l = "" \/ (PyStr.startswith l "#" = true
             /\ PyStr.startswith (PyStr.lower l) "#policy" = false).

(** A line is blank or a comment for the instructions loader. *)
Definition dropped_from_instructions (raw : string) : Prop :=
  let l := PyStr.strip raw in
  l = "" \/ PyStr.startswith l "#" = true.

(** ** The lines of the specification *)

(** A stripped line the policy loader is to keep: it starts with
    ["#policy"] in any letter case, or it is not empty and does not
    start with ["#"]. *)
Definition spec_keeps_policy (l : string) : bool :=
  PyStr.startswith (PyStr.lower l) "#policy"
  || (negb (String.eqb l "") && negb (PyStr.startswith l "#")).

(** A line the instructions loader of the Discord bot is to keep: once
    stripped, it is not empty and does not start with ["#"]. *)
Definition spec_keeps_instruction (l : string) : bool :=
  negb (String.eqb (PyStr.strip l) "")
  && negb (PyStr.startswith (PyStr.strip l) "#").

(** The lines of the policy: the lines of the stripped text, each
    stripped, those to keep, in their order. *)
Definition spec_policy_lines (text : string) : list string :=
  List.filter spec_keeps_policy
    (List.map PyStr.strip (PyStr.split_lines (PyStr.strip text))).

(** The lines of the instructions: the lines of the stripped text as
    they are, those to keep, in their order. *)
Definition spec_instruction_lines (text : string) : list string :=
  List.filter spec_keeps_instruction (PyStr.split_lines (PyStr.strip text)).

(** ** The merge of the specification *)

(** File content followed by inline content, joined by one newline, file
    content first; a part that is absent or empty leaves the other
    alone. *)
Definition spec_merged (file_content inline : option string) : string :=
  let f := default "" file_content in
  let i := default "" inline in
  if PyStr.nonempty f
  then if PyStr.nonempty i
       then String.append f (String PyStr.newline i)
       else f
  else i.

(** Text beyond [limit] characters is cut off. *)
Definition spec_truncated (limit : Z) (s : string) : string :=
  if PyStr.len s >? limit then PyStr.slice_to limit s else s.

(** A source is listed when it is used. *)
Definition spec_listed {A} (used : bool) (tag : A) : list A :=
  if used then [tag] else [].

(** ** A content within its limit *)

(** [c] is [content] cut at [limit]: a start of the content, not empty
    and within the limit, the content itself when that fits, and of
    exactly [limit] characters when it does not. *)
Definition within (limit : Z) (content c : string) : Prop :=
  String.prefix c content = true
  /\ 1 <= PyStr.len c <= limit
  /\ (PyStr.len content <= limit -> c = content)
  /\ (limit < PyStr.len content -> PyStr.len c = limit).

(** What a loader is to return for the lines it keeps: the lines joined
    by newlines and cut at the limit, and nothing when that is empty. *)
Definition spec_loaded (limit : Z) (lines : list string) : option string :=
  let content := PyStr.join_lines lines in
  if String.eqb content "" then None else Some (spec_truncated limit content).

(** ** The duration of the specification *)

(** [min(verdict.banned_days or config.default_timeout_days,
    config.max_timeout_days)] for an integer or absent [banned_days]; an
    absent value or 0 gives way to the default. *)
Definition spec_timeout_days (banned_days : option Z) (default_days max_days : Z) : Z :=
  Z.min (match banned_days with
         | Some b => if b =? 0 then default_days else b
         | None => default_days
         end) max_days.

(** ** Sample inputs *)

Module Sample.

(** The double quote, and a JSON string literal. *)
Definition dq : ascii := ascii_of_nat 34.

Definition quoted (s : string) : string :=
  String dq (String.append s (String dq EmptyString)).

(** A JSON object of string members, as the API writes it. *)
Fixpoint members (kvs : list (string * string)) : string :=
  match kvs with
  | [] => EmptyString
  | [(k, v)] => String.append (quoted k) (String.append ": " (quoted v))
  | (k, v) :: rest =>
      String.append (quoted k)
        (String.append ": " (String.append (quoted v)
           (String.append ", " (members rest))))
  end.

Definition object (kvs : list (string * string)) : string :=
  String.append "{" (String.append (members kvs) "}").

(** A 200 answer whose body is the object [kvs]. *)
Definition verdict (kvs : list (string * string)) : http_reply :=
  Responded (mkResponse 200 (object kvs)
               (Some (PDict (List.map (fun kv => (fst kv, PStr (snd kv))) kvs)))).

(** A file of comments and blank lines only. *)
Definition only_comments : string :=
  PyStr.join_lines ["# moderation policy"; ""; "   # nothing yet  "; "#"].

(** A text of [n] letters a. *)
Fixpoint letters (n : nat) : string :=
  match n with
  | O => EmptyString
  | S n' => String "a" (letters n')
  end.

(** A policy file that fills the limit of 10000 characters. *)
Definition full_policy : string := letters (Z.to_nat POLICY_MAX_CHARS).

(** A gateway error page: status 502, a body that is not JSON. *)
Definition bad_gateway : response := mkResponse 502 "Bad Gateway" None.

(** A 200 answer whose body is not JSON. *)
Definition garbled : response := mkResponse 200 "<html>oops</html>" None.

(** No policy files, every platform call succeeds, the API answers
    [reply]. *)
Definition discord_env (reply : http_reply) : Discord.Env :=
  Discord.mkEnv Missing Missing (fun _ => reply) (fun _ => None) false.

Definition telegram_env (reply : http_reply) : Telegram.Env :=
  Telegram.mkEnv Missing Missing (fun _ => reply) (fun _ => None) (fun _ => false).

Definition discord_start : Discord.State :=
  Discord.mkState [] (Discord.configured "").

(** A member with role 10 writes in channel 5 of guild 1. *)
Definition guild_message : Discord.Message :=
  Discord.mkMessage false (Some [10]) (Some 1) 5 "I will find and hurt you".

(** The same text in a direct message. *)
Definition direct_message : Discord.Message :=
  Discord.mkMessage false None None 5 "I will find and hurt you".

(** A user writes in chat 7. *)
Definition chat_message : Telegram.Message :=
  Telegram.mkMessage true 7 (Some "I will find and hurt you").

(** The shipped Discord configuration with another action, include list
    and exclude list. *)
Definition discord_cfg (action : string) (included excluded : list Z)
  : Discord.Config :=
  Discord.mkConfig true true true action 1 28 None "LOW" true
                   excluded included [] [].

(** The shipped Telegram configuration with another action and allow
    list. *)
Definition telegram_cfg (action : string) (allowed : list Z) : Telegram.Config :=
  Telegram.mkConfig true true true action "LOW" 1 28 allowed.

(** A configuration with the log channel 77, and an outside where the
    channel is found and every call succeeds. *)
Definition logged_cfg (action : string) : Discord.Config :=
  Discord.mkConfig true true true action 1 28 (Some 77) "LOW" true [] [] [] [].

Definition logged_env : Discord.Env :=
  Discord.mkEnv Missing Missing (fun _ => Failed) (fun _ => None) true.

(** An interaction where every call succeeds and every message reads
    [content]. *)
Definition interaction (content : string) : Discord.Interaction :=
  Discord.mkInteraction (fun _ => None) (fun _ => content) (fun _ => ValueError).

Definition discord_session : Discord.Session := (discord_start, []).

Definition telegram_session : Telegram.Session := ([], []).

End Sample.

(** * Properties *)

(** ** The severity threshold *)

Section Severity.

Ltac split_key s k :=
  destruct (String.eqb_spec s k) as [-> | ?];
  [ reflexivity | rewrite lookup_insert_ne by congruence ].

(** The dictionary lookup of the source computes the rank of the
    specification. *)
Lemma SEVERITY_ORDER_get_rank (s : string) :
  SEVERITY_ORDER_get (PStr s) = spec_rank s.
Proof.
  unfold SEVERITY_ORDER_get, SEVERITY_ORDER, spec_rank.
  split_key s "LOW". split_key s "MEDIUM".
  split_key s "HIGH". split_key s "CRITICAL".
  rewrite lookup_empty. reflexivity.
Qed.

Lemma spec_rank_unknown (s : string) :
  s <> "LOW" -> s <> "MEDIUM" -> s <> "HIGH" -> s <> "CRITICAL" ->
  spec_rank s = 0.
Proof.
  intros H1 H2 H3 H4. unfold spec_rank.
  repeat match goal with
         | |- context [String.eqb s ?k] =>
             destruct (String.eqb_spec s k); [congruence |]
         end.
  reflexivity.
Qed.

Lemma spec_rank_known (m : string) :
  m = "LOW" \/ m = "MEDIUM" \/ m = "HIGH" \/ m = "CRITICAL" ->
  1 <= spec_rank m.
Proof.
  intros [-> | [-> | [-> | ->]]]; vm_compute; congruence.
Qed.

Lemma severity_meets_threshold_rank (s min : string) :
  severity_meets_threshold (PStr s) min = (spec_rank min <=? spec_rank s).
Proof.
  unfold severity_meets_threshold. rewrite !SEVERITY_ORDER_get_rank. reflexivity.
Qed.

Lemma severity_below_threshold_rank (s min : string) :
  severity_below_threshold (PStr s) min = (spec_rank s <? spec_rank min).
Proof.
  unfold severity_below_threshold. rewrite !SEVERITY_ORDER_get_rank. reflexivity.
Qed.

End Severity.

(** C3. For every pair of severity strings, [severity_meets_threshold]
    holds exactly when the rank of the severity is at least the rank of
    the minimum, with LOW, MEDIUM, HIGH, CRITICAL ranked 1 to 4 and every
    other string 0; the comparison inside the Telegram handler lets a
    message through to enforcement exactly in the same cases. *)
Theorem C3_severity_meets_threshold_iff_rank (s min : string) :
  (severity_meets_threshold (PStr s) min = true <-> spec_rank s >= spec_rank min)
  /\ negb (severity_below_threshold (PStr s) min)
     = severity_meets_threshold (PStr s) min.
Proof.
  rewrite severity_meets_threshold_rank, severity_below_threshold_rank. split.
  - rewrite Z.leb_le. lia.
  - destruct (Z.leb_spec (spec_rank min) (spec_rank s)),
             (Z.ltb_spec (spec_rank s) (spec_rank min)); simpl; auto; lia.
Qed.

(** C6, as the claim states it, fails: an unrecognised severity meets an
    unrecognised minimum, both being ranked 0. *)
Lemma C6_unrecognised_threshold_counterexample :
  ~ (forall s min : string,
        s <> "LOW" -> s <> "MEDIUM" -> s <> "HIGH" -> s <> "CRITICAL" ->
        severity_meets_threshold (PStr s) min = false)
  /\ severity_meets_threshold (PStr "UNKNOWN") "NONE" = true
  /\ severity_below_threshold (PStr "UNKNOWN") "NONE" = false.
Proof.
  assert (E : severity_meets_threshold (PStr "UNKNOWN") "NONE" = true)
    by (rewrite severity_meets_threshold_rank; reflexivity).
  split; [| split].
  - intros H. specialize (H "UNKNOWN" "NONE").
    rewrite E in H. discriminate H; intro; discriminate.
  - exact E.
  - rewrite severity_below_threshold_rank; reflexivity.
Qed.

(** ** Scope rules of the handlers *)

Section Scope.

Lemma py_in_elem_of (x : Z) (l : list Z) : py_in x l = true <-> x ∈ l.
Proof.
  unfold py_in. rewrite existsb_exists, list_elem_of_In. split.
  - intros [y [Hy E]]. apply Z.eqb_eq in E. subst y. exact Hy.
  - intros H. exists x. split; [exact H | apply Z.eqb_refl].
Qed.

Lemma py_in_not_elem_of (x : Z) (l : list Z) : py_in x l = false <-> x ∉ l.
Proof.
  rewrite <- py_in_elem_of. destruct (py_in x l); split; congruence.
Qed.

Lemma list_truthy_nonempty {A} (l : list A) : list_truthy l = true <-> l <> [].
Proof. destruct l; simpl; split; congruence. Qed.

(** The Discord handler leaves at once when one of its scope tests
    holds. *)
Lemma on_message_out_of_scope cfg env m s :
  Discord.bot_ignored cfg m = true
  \/ (forall g, Discord.guild m = Some g -> Discord.guild_not_allowed cfg g = true)
  \/ Discord.channel_skipped cfg m = true
  \/ Discord.has_bypass_role cfg m = true ->
  Discord.on_message cfg env m s = (s, Ok tt).
Proof.
  intros H. unfold Discord.on_message.
  destruct (Discord.AUTO_MODERATE_MESSAGES cfg); simpl; [| reflexivity].
  destruct (Discord.bot_ignored cfg m) eqn:Hb; [reflexivity |].
  destruct (Discord.guild m) as [g |] eqn:Hg; [| reflexivity].
  destruct (PyStr.nonempty (Discord.content m)); simpl; [| reflexivity].
  destruct (Discord.guild_not_allowed cfg g) eqn:Ha; [reflexivity |].
  destruct (Discord.channel_skipped cfg m) eqn:Hc; [reflexivity |].
  destruct (Discord.has_bypass_role cfg m) eqn:Hr; [reflexivity |].
  destruct H as [H | [H | [H | H]]]; try discriminate.
  specialize (H g eq_refl). congruence.
Qed.

End Scope.

(** C10. A Discord message outside a guild, or one whose content is
    empty, makes [on_message] return with nothing called: no request to
    the moderation API and no enforcement, whatever the configuration. *)
Theorem C10_dm_or_empty_content_is_skipped
    (cfg : Discord.Config) (env : Discord.Env) (m : Discord.Message)
    (s : Discord.State) :
  Discord.guild m = None \/ Discord.content m = "" ->
  Discord.on_message cfg env m s = (s, Ok tt).
Proof.
  intros H. unfold Discord.on_message.
  destruct (Discord.AUTO_MODERATE_MESSAGES cfg); simpl; [| reflexivity].
  destruct (Discord.bot_ignored cfg m); [reflexivity |].
  destruct H as [-> | ->]; [reflexivity |].
  destruct (Discord.guild m); reflexivity.
Qed.

(** C10 at a direct message, a CRITICAL verdict waiting. *)
Lemma C10_dm_or_empty_content_is_skipped_witness :
  Discord.on_message Discord.shipped
    (Sample.discord_env (Sample.verdict [("status", "BLOCKED"); ("severity", "CRITICAL")]))
    Sample.direct_message Sample.discord_start
  = (Sample.discord_start, Ok tt).
Proof.
  apply C10_dm_or_empty_content_is_skipped. left. reflexivity.
Defined.

(** C2, as the claim states it, fails: with a channel on both the include
    list and the exclude list, the include list decides and the message
    is moderated; here it is deleted although its channel is excluded. *)
Lemma C2_excluded_channel_counterexample :
  let cfg := Sample.discord_cfg "delete" [5] [5] in
  let m := Sample.guild_message in
  Discord.channel m ∈ Discord.AUTO_MODERATE_EXCLUDED_CHANNELS cfg
  /\ Discord.on_message cfg
       (Sample.discord_env (Sample.verdict [("status", "BLOCKED"); ("severity", "CRITICAL")]))
       m Sample.discord_start
     = (Discord.mkState
          [Discord.post_moderation (mkPayload "I will find and hurt you" None None);
           Discord.message_delete]
          (Discord.configured "delete"),
        Ok tt).
Proof.
  split.
  - apply py_in_elem_of. reflexivity.
  - vm_compute. reflexivity.
Qed.

(** C2, amended. [on_message] calls nothing, neither the moderation API
    nor the platform, when the author is a bot and bots are ignored, when
    the guild allow list is not empty and lacks the guild, when the
    include list is not empty and lacks the channel, when the include
    list is empty and the exclude list has the channel, or when the
    author holds a bypass role. The Telegram handler has the allow-list
    rule only: it calls nothing for a chat outside a non-empty allow
    list. *)
Theorem C2_scope_rules_select_no_action :
  (forall (cfg : Discord.Config) (env : Discord.Env) (m : Discord.Message)
          (s : Discord.State),
      (Discord.AUTO_MODERATE_IGNORE_BOTS cfg = true /\ Discord.author_bot m = true)
      \/ (Discord.ALLOWED_GUILD_IDS cfg <> []
          /\ forall g, Discord.guild m = Some g -> g ∉ Discord.ALLOWED_GUILD_IDS cfg)
      \/ (Discord.AUTO_MODERATE_INCLUDED_CHANNELS cfg <> []
          /\ Discord.channel m ∉ Discord.AUTO_MODERATE_INCLUDED_CHANNELS cfg)
      \/ (Discord.AUTO_MODERATE_INCLUDED_CHANNELS cfg = []
          /\ Discord.channel m ∈ Discord.AUTO_MODERATE_EXCLUDED_CHANNELS cfg)
      \/ (exists roles r, Discord.author_roles m = Some roles
                          /\ r ∈ Discord.AUTO_MODERATE_BYPASS_ROLES cfg
                          /\ r ∈ roles) ->
      Discord.on_message cfg env m s = (s, Ok tt))
  /\ (forall (cfg : Telegram.Config) (env : Telegram.Env) (m : Telegram.Message)
             (s : Telegram.State),
         Telegram.ALLOWED_CHAT_IDS cfg <> [] ->
         Telegram.chat m ∉ Telegram.ALLOWED_CHAT_IDS cfg ->
         fst (Telegram.handle_message cfg env (Some m) s) = s).
Proof.
  split.
  - intros cfg env m s H. apply on_message_out_of_scope.
    destruct H as [[Hi Hb] | [[Hne Hg] | [[Hne Hc] | [[He Hc] | Hr]]]].
    + left. unfold Discord.bot_ignored. rewrite Hi, Hb. reflexivity.
    + right; left. intros g Eg. unfold Discord.guild_not_allowed.
      apply andb_true_intro. split.
      * apply list_truthy_nonempty, Hne.
      * apply negb_true_iff, py_in_not_elem_of, Hg, Eg.
    + right; right; left. unfold Discord.channel_skipped.
      apply list_truthy_nonempty in Hne. rewrite Hne.
      apply negb_true_iff, py_in_not_elem_of, Hc.
    + right; right; left. unfold Discord.channel_skipped.
      rewrite He. simpl. apply py_in_elem_of, Hc.
    + right; right; right. destruct Hr as [roles [r [Er [Hb Hin]]]].
      unfold Discord.has_bypass_role. rewrite Er.
      apply andb_true_intro. split.
      * apply list_truthy_nonempty. intros E. rewrite E in Hb.
        apply not_elem_of_nil in Hb. exact Hb.
      * apply existsb_exists. exists r. split.
        -- apply list_elem_of_In, Hb.
        -- apply py_in_elem_of, Hin.
  - intros cfg env m s Hne Hc. unfold Telegram.handle_message.
    destruct (Telegram.AUTO_MODERATE_MESSAGES cfg); simpl; [| reflexivity].
    destruct (opt_truthy (Telegram.text_ m)); simpl; [| reflexivity].
    destruct (Telegram.from_user m); simpl; [| reflexivity].
    assert (E : Telegram.chat_not_allowed cfg m = true).
    { unfold Telegram.chat_not_allowed. apply andb_true_intro. split.
      - apply list_truthy_nonempty, Hne.
      - apply negb_true_iff, py_in_not_elem_of, Hc. }
    rewrite E. reflexivity.
Qed.

(** C2 at sample inputs: an excluded channel in the Discord bot, a chat
    outside the allow list in the Telegram bot, a CRITICAL verdict waiting. *)
Lemma C2_scope_rules_select_no_action_witness :
  Discord.on_message (Sample.discord_cfg "ban" [] [5])
    (Sample.discord_env (Sample.verdict [("status", "BLOCKED"); ("severity", "CRITICAL")]))
    Sample.guild_message Sample.discord_start
  = (Sample.discord_start, Ok tt)
  /\ fst (Telegram.handle_message (Sample.telegram_cfg "ban" [8; 9])
            (Sample.telegram_env (Sample.verdict [("status", "BLOCKED"); ("severity", "CRITICAL")]))
            (Some Sample.chat_message) [])
     = [].
Proof.
  split.
  - apply (proj1 C2_scope_rules_select_no_action).
    right; right; right; left. split; [reflexivity |].
    apply py_in_elem_of. reflexivity.
  - apply (proj2 C2_scope_rules_select_no_action).
    + discriminate.
    + apply py_in_not_elem_of. reflexivity.
Defined.

(** ** The moderation client and a failed call *)

Section Client.

(** [call_nova_moderation] posts once and hands back what
    [read_response] makes of the answer. *)
Lemma discord_call_nova_moderation_eq cfg env content pol ins upf uif s :
  Discord.call_nova_moderation cfg env content pol ins upf uif s =
  let br := Discord.build_request cfg (Discord.policy_txt env)
              (Discord.instructions_txt env) content pol ins upf uif in
  (Discord.mkState (Discord.calls s ++ [Discord.post_moderation (fst br)])
                   (Discord.action_taken s),
   match Discord.read_response (Discord.http env (fst br)) with
   | Ok v => Ok (v, snd br)
   | Raised e => Raised e
   end).
Proof.
  unfold Discord.call_nova_moderation.
  destruct (Discord.build_request _ _ _ _ _ _ _ _) as [p sources]. simpl.
  unfold bind, Discord.record, lift, ret.
  destruct (Discord.read_response _); reflexivity.
Qed.

Lemma telegram_call_nova_moderation_eq cfg env content s :
  Telegram.call_nova_moderation cfg env content s =
  let p := Telegram.build_request cfg (Telegram.policy_txt env)
             (Telegram.instructions_txt env) content in
  ((s ++ [Telegram.post_moderation p])%list,
   Telegram.read_response (Telegram.http env p)).
Proof. reflexivity. Qed.

(** The error dict stops [act_on] at its first test. *)
Lemma discord_act_on_error_dict cfg env r s :
  Discord.act_on cfg env (Discord.error_dict r) s = (s, Ok tt).
Proof. reflexivity. Qed.

Lemma telegram_act_on_error_dict cfg env r s :
  Telegram.act_on cfg env (Telegram.error_dict r) s = (s, Ok tt).
Proof. reflexivity. Qed.

(** What the two clients make of an answer that is not a verdict. *)
Lemma discord_read_response_failure r :
  status r <> 200 \/ decoded r = None ->
  Discord.read_response (Responded r) = Ok (Discord.error_dict r)
  \/ Discord.read_response (Responded r) = Raised JSONDecodeError.
Proof.
  intros H. unfold Discord.read_response.
  destruct (Z.eqb_spec (status r) 200) as [E | E].
  - destruct H as [H | H]; [contradiction |]. rewrite H. right. reflexivity.
  - left. reflexivity.
Qed.

Lemma telegram_read_response_failure r :
  status r <> 200 \/ decoded r = None ->
  Telegram.read_response (Responded r) = Ok (Telegram.error_dict r)
  \/ Telegram.read_response (Responded r) = Raised JSONDecodeError.
Proof.
  intros H. unfold Telegram.read_response.
  destruct (Z.eqb_spec (status r) 200) as [E | E].
  - destruct H as [H | H]; [contradiction |]. rewrite H. right. reflexivity.
  - left. reflexivity.
Qed.

(** With such an answer [on_message] calls at most the API. *)
Lemma discord_on_message_failure cfg env m s r :
  (forall p, Discord.http env p = Responded r) ->
  status r <> 200 \/ decoded r = None ->
  exists l,
    Discord.on_message cfg env m s
    = (Discord.mkState (Discord.calls s ++ l) (Discord.action_taken s), Ok tt)
    /\ Forall (fun c => exists p, c = Discord.post_moderation p) l.
Proof.
  intros Hhttp Hr.
  assert (Hs : (s, Ok tt) =
               (Discord.mkState (Discord.calls s ++ []) (Discord.action_taken s),
                @Ok unit tt))
    by (rewrite app_nil_r; destruct s; reflexivity).
  unfold Discord.on_message.
  repeat match goal with
         | |- context [if ?b then _ else _] =>
             destruct b; simpl;
             [ try (exists []; split; [exact Hs | constructor]) |
               try (exists []; split; [exact Hs | constructor]) ]
         | |- context [match Discord.guild m with _ => _ end] =>
             destruct (Discord.guild m); simpl;
             [| exists []; split; [exact Hs | constructor] ]
         end.
  all: unfold bind at 1; unfold try_except; unfold bind at 1;
    rewrite discord_call_nova_moderation_eq; cbv zeta; rewrite Hhttp;
    destruct (discord_read_response_failure r Hr) as [E | E]; rewrite E;
    eexists; (split; [reflexivity | repeat constructor; eexists; reflexivity]).
Qed.

Lemma telegram_handle_message_failure cfg env um s r :
  (forall p, Telegram.http env p = Responded r) ->
  status r <> 200 \/ decoded r = None ->
  exists l,
    fst (Telegram.handle_message cfg env um s) = (s ++ l)%list
    /\ Forall (fun c => exists p, c = Telegram.post_moderation p) l.
Proof.
  intros Hhttp Hr.
  assert (Hs : s = (s ++ [])%list) by (rewrite app_nil_r; reflexivity).
  unfold Telegram.handle_message.
  destruct (Telegram.AUTO_MODERATE_MESSAGES cfg); simpl;
    [| exists []; split; [exact Hs | constructor]].
  destruct um as [m |]; [| exists []; split; [exact Hs | constructor]].
  destruct (opt_truthy (Telegram.text_ m)); simpl;
    [| exists []; split; [exact Hs | constructor]].
  destruct (Telegram.from_user m); simpl;
    [| exists []; split; [exact Hs | constructor]].
  destruct (Telegram.chat_not_allowed cfg m);
    [exists []; split; [exact Hs | constructor] |].
  unfold bind at 1. rewrite telegram_call_nova_moderation_eq. cbv zeta.
  rewrite Hhttp.
  destruct (telegram_read_response_failure r Hr) as [E | E]; rewrite E;
    eexists; (split; [reflexivity | repeat constructor; eexists; reflexivity]).
Qed.

(** The handlers know a failure by the member [error], which they test
    before they read [status] and [severity]. *)
Lemma discord_act_on_error_member cfg env d s :
  truthy (default PNone (items_get d "error")) = true ->
  Discord.act_on cfg env (PDict d) s = (s, Ok tt).
Proof.
  intros H. unfold Discord.act_on, py_get. unfold bind at 1. unfold lift at 1.
  rewrite H. reflexivity.
Qed.

Lemma telegram_act_on_error_member cfg env d s :
  truthy (default PNone (items_get d "error")) = true ->
  Telegram.act_on cfg env (PDict d) s = (s, Ok tt).
Proof.
  intros H. unfold Telegram.act_on, py_get. unfold bind at 1. unfold lift at 1.
  rewrite H. reflexivity.
Qed.

(** A body that parses into a dict with a true member [error] is no
    verdict either, whatever else it holds. *)
Lemma discord_on_message_error_member cfg env m s r d :
  (forall p, Discord.http env p = Responded r) ->
  status r = 200 -> decoded r = Some (PDict d) ->
  truthy (default PNone (items_get d "error")) = true ->
  exists l,
    Discord.on_message cfg env m s
    = (Discord.mkState (Discord.calls s ++ l) (Discord.action_taken s), Ok tt)
    /\ Forall (fun c => exists p, c = Discord.post_moderation p) l.
Proof.
  intros Hhttp Hst Hd Herr.
  assert (Hs : (s, Ok tt) =
               (Discord.mkState (Discord.calls s ++ []) (Discord.action_taken s),
                @Ok unit tt))
    by (rewrite app_nil_r; destruct s; reflexivity).
  assert (Hr : Discord.read_response (Responded r) = Ok (PDict d))
    by (unfold Discord.read_response; rewrite Hst, Hd; reflexivity).
  unfold Discord.on_message.
  repeat match goal with
         | |- context [if ?b then _ else _] =>
             destruct b; simpl;
             [ try (exists []; split; [exact Hs | constructor]) |
               try (exists []; split; [exact Hs | constructor]) ]
         | |- context [match Discord.guild m with _ => _ end] =>
             destruct (Discord.guild m); simpl;
             [| exists []; split; [exact Hs | constructor] ]
         end.
  all: unfold bind at 1; unfold try_except; unfold bind at 1;
    rewrite discord_call_nova_moderation_eq; cbv zeta; rewrite Hhttp, Hr;
    cbn [fst ret]; rewrite (discord_act_on_error_member _ _ _ _ Herr);
    eexists; (split; [reflexivity | repeat constructor; eexists; reflexivity]).
Qed.

Lemma telegram_handle_message_error_member cfg env um s r d :
  (forall p, Telegram.http env p = Responded r) ->
  status r = 200 -> decoded r = Some (PDict d) ->
  truthy (default PNone (items_get d "error")) = true ->
  exists l,
    fst (Telegram.handle_message cfg env um s) = (s ++ l)%list
    /\ Forall (fun c => exists p, c = Telegram.post_moderation p) l.
Proof.
  intros Hhttp Hst Hd Herr.
  assert (Hs : s = (s ++ [])%list) by (rewrite app_nil_r; reflexivity).
  assert (Hr : Telegram.read_response (Responded r) = Ok (PDict d))
    by (unfold Telegram.read_response; rewrite Hst, Hd; reflexivity).
  unfold Telegram.handle_message.
  destruct (Telegram.AUTO_MODERATE_MESSAGES cfg); simpl;
    [| exists []; split; [exact Hs | constructor]].
  destruct um as [m |]; [| exists []; split; [exact Hs | constructor]].
  destruct (opt_truthy (Telegram.text_ m)); simpl;
    [| exists []; split; [exact Hs | constructor]].
  destruct (Telegram.from_user m); simpl;
    [| exists []; split; [exact Hs | constructor]].
  destruct (Telegram.chat_not_allowed cfg m);
    [exists []; split; [exact Hs | constructor] |].
  unfold bind at 1. rewrite telegram_call_nova_moderation_eq. cbv zeta.
  rewrite Hhttp, Hr, (telegram_act_on_error_member _ _ _ _ Herr).
  eexists. split; [reflexivity | repeat constructor; eexists; reflexivity].
Qed.

End Client.

(** C1, as the claim states it, fails: when a 200 body is not JSON the
    client returns no error value, [json.loads] raises out of it; and
    the error value of the Telegram client carries no status code. *)
Lemma C1_unparsable_body_counterexample :
  snd (Discord.call_nova_moderation Discord.shipped
         (Sample.discord_env (Responded Sample.garbled))
         "hello" None None true true Sample.discord_start)
  = Raised JSONDecodeError
  /\ (forall v, snd (Discord.call_nova_moderation Discord.shipped
                       (Sample.discord_env (Responded Sample.garbled))
                       "hello" None None true true Sample.discord_start)
                <> Ok v)
  /\ snd (Telegram.call_nova_moderation Telegram.shipped
            (Sample.telegram_env (Responded Sample.bad_gateway)) "hello" [])
     = Ok (PDict [("error", PBool true); ("message", PStr "Bad Gateway")]).
Proof.
  split; [reflexivity | split; [intros v; discriminate | reflexivity]].
Qed.

(** C1, amended. When the status of the answer is not 200 the client
    returns an error dict, which holds the status code and the raw body
    in the Discord bot and the raw body alone in the Telegram bot; when
    the status is 200 and the body is not JSON the client raises. In
    both cases the handler calls nothing but the moderation API: it
    takes no action on the message, and the Discord handler returns
    normally. The failure is not read as a verdict: the handlers test
    the member [error] before they read [status] and [severity], so that
    a value whose member [error] is true, and be its status BLOCKED and
    its severity CRITICAL, ends the handler with nothing called. *)
Theorem C1_failed_call_takes_no_action :
  (forall (cfg : Discord.Config) (env : Discord.Env) (m : Discord.Message)
          (s : Discord.State) (r : response),
      (forall p, Discord.http env p = Responded r) ->
      (status r <> 200 ->
       forall content pol ins upf uif, exists sources,
         snd (Discord.call_nova_moderation cfg env content pol ins upf uif s)
         = Ok (PDict [("error", PBool true); ("status_code", PInt (status r));
                      ("message", PStr (text r))], sources))
      /\ (status r = 200 -> decoded r = None ->
          forall content pol ins upf uif,
            snd (Discord.call_nova_moderation cfg env content pol ins upf uif s)
            = Raised JSONDecodeError)
      /\ (status r <> 200 \/ decoded r = None ->
          exists l,
            Discord.on_message cfg env m s
            = (Discord.mkState (Discord.calls s ++ l) (Discord.action_taken s), Ok tt)
            /\ Forall (fun c => exists p, c = Discord.post_moderation p) l))
  /\ (forall (cfg : Telegram.Config) (env : Telegram.Env)
             (um : option Telegram.Message) (s : Telegram.State) (r : response),
         (forall p, Telegram.http env p = Responded r) ->
         (status r <> 200 ->
          forall content,
            snd (Telegram.call_nova_moderation cfg env content s)
            = Ok (PDict [("error", PBool true); ("message", PStr (text r))]))
         /\ (status r = 200 -> decoded r = None ->
             forall content,
               snd (Telegram.call_nova_moderation cfg env content s)
               = Raised JSONDecodeError)
         /\ (status r <> 200 \/ decoded r = None ->
             exists l,
               fst (Telegram.handle_message cfg env um s) = (s ++ l)%list
               /\ Forall (fun c => exists p, c = Telegram.post_moderation p) l))
  /\ (forall d : list (string * pyval),
         truthy (default PNone (items_get d "error")) = true ->
         (forall cfg env s, Discord.act_on cfg env (PDict d) s = (s, Ok tt))
         /\ (forall cfg env s, Telegram.act_on cfg env (PDict d) s = (s, Ok tt))
         /\ (forall cfg env m s r,
                (forall p, Discord.http env p = Responded r) ->
                status r = 200 -> decoded r = Some (PDict d) ->
                exists l,
                  Discord.on_message cfg env m s
                  = (Discord.mkState (Discord.calls s ++ l)
                                     (Discord.action_taken s), Ok tt)
                  /\ Forall (fun c => exists p, c = Discord.post_moderation p) l)
         /\ (forall cfg env um s r,
                (forall p, Telegram.http env p = Responded r) ->
                status r = 200 -> decoded r = Some (PDict d) ->
                exists l,
                  fst (Telegram.handle_message cfg env um s) = (s ++ l)%list
                  /\ Forall (fun c => exists p, c = Telegram.post_moderation p) l)).
Proof.
  split; [| split].
  3:{ intros d Herr. split; [| split; [| split]].
      - intros cfg env s. apply discord_act_on_error_member, Herr.
      - intros cfg env s. apply telegram_act_on_error_member, Herr.
      - intros cfg env m s r Hhttp Hst Hd.
        apply (discord_on_message_error_member cfg env m s r d Hhttp Hst Hd Herr).
      - intros cfg env um s r Hhttp Hst Hd.
        apply (telegram_handle_message_error_member cfg env um s r d Hhttp Hst
                 Hd Herr). }
  - intros cfg env m s r Hhttp. split; [| split].
    + intros Hst content pol ins upf uif.
      rewrite discord_call_nova_moderation_eq. cbv zeta. rewrite Hhttp.
      unfold Discord.read_response.
      destruct (Z.eqb_spec (status r) 200); [contradiction |].
      eexists. reflexivity.
    + intros Hst Hd content pol ins upf uif.
      rewrite discord_call_nova_moderation_eq. cbv zeta. rewrite Hhttp.
      unfold Discord.read_response. rewrite Hst, Hd. reflexivity.
    + apply discord_on_message_failure, Hhttp.
  - intros cfg env um s r Hhttp. split; [| split].
    + intros Hst content.
      rewrite telegram_call_nova_moderation_eq. cbv zeta. rewrite Hhttp.
      unfold Telegram.read_response.
      destruct (Z.eqb_spec (status r) 200); [contradiction |]. reflexivity.
    + intros Hst Hd content.
      rewrite telegram_call_nova_moderation_eq. cbv zeta. rewrite Hhttp.
      unfold Telegram.read_response. rewrite Hst, Hd. reflexivity.
    + apply telegram_handle_message_failure, Hhttp.
Qed.

(** C1 at sample inputs: a 502 answer in the Discord bot, a 200 answer
    that is not JSON in the Telegram bot, and a value with a true member
    [error] beside a blocking status, all configured to ban. *)
Lemma C1_failed_call_takes_no_action_witness :
  (exists l,
      Discord.on_message (Sample.discord_cfg "ban" [] [])
        (Sample.discord_env (Responded Sample.bad_gateway))
        Sample.guild_message Sample.discord_start
      = (Discord.mkState (Discord.calls Sample.discord_start ++ l)
                         (Discord.action_taken Sample.discord_start), Ok tt)
      /\ Forall (fun c => exists p, c = Discord.post_moderation p) l)
  /\ (exists l,
         fst (Telegram.handle_message (Sample.telegram_cfg "ban" [])
                (Sample.telegram_env (Responded Sample.garbled))
                (Some Sample.chat_message) [])
         = ([] ++ l)%list
         /\ Forall (fun c => exists p, c = Telegram.post_moderation p) l)
  /\ Discord.act_on (Sample.discord_cfg "ban" [] []) (Sample.discord_env Failed)
       (PDict [("error", PBool true); ("status", PStr "BLOCKED");
               ("severity", PStr "CRITICAL")])
       Sample.discord_start
     = (Sample.discord_start, Ok tt).
Proof.
  split; [| split].
  3:{ apply (proj1 (proj2 (proj2 C1_failed_call_takes_no_action)
                      [("error", PBool true); ("status", PStr "BLOCKED");
                       ("severity", PStr "CRITICAL")] eq_refl)). }
  - refine (proj2 (proj2 (proj1 C1_failed_call_takes_no_action
             (Sample.discord_cfg "ban" [] [])
             (Sample.discord_env (Responded Sample.bad_gateway))
             Sample.guild_message Sample.discord_start Sample.bad_gateway _)) _).
    + intros p. reflexivity.
    + left. discriminate.
  - refine (proj2 (proj2 (proj1 (proj2 C1_failed_call_takes_no_action)
             (Sample.telegram_cfg "ban" [])
             (Sample.telegram_env (Responded Sample.garbled))
             (Some Sample.chat_message) [] Sample.garbled _)) _).
    + intros p. reflexivity.
    + right. reflexivity.
Defined.

(** ** Laws of the handler monad *)

Section Laws.

Context {S A B : Type}.

Lemma bind_ret (a : A) (f : A -> M S B) : bind (ret a) f = f a.
Proof. reflexivity. Qed.

Lemma bind_lift_ok (a : A) (f : A -> M S B) : bind (lift (Ok a)) f = f a.
Proof. reflexivity. Qed.

Lemma bind_lift_raised (e : exn) (f : A -> M S B) :
  bind (lift (Raised e)) f = raise e.
Proof. reflexivity. Qed.

Lemma bind_raise (e : exn) (f : A -> M S B) : bind (raise e) f = raise e.
Proof. reflexivity. Qed.

End Laws.

(** ** Traces of calls *)

Section Traces.

Context {S C : Type} (trace : S -> list C).

(** A computation only adds calls. *)
Definition grows {A} (m : M S A) : Prop :=
  forall s, exists l, trace (fst (m s)) = trace s ++ l.

(** A computation makes the call [c] before any other. *)
Definition starts_with {A} (c : C) (m : M S A) : Prop :=
  forall s, exists l, trace (fst (m s)) = trace s ++ c :: l.

Lemma grows_ret {A} (a : A) : grows (ret a).
Proof. intros s. exists []. simpl. rewrite app_nil_r. reflexivity. Qed.

Lemma grows_raise {A} (e : exn) : grows (@raise S A e).
Proof. intros s. exists []. simpl. rewrite app_nil_r. reflexivity. Qed.

Lemma grows_lift {A} (r : outcome A) : grows (lift r).
Proof. intros s. exists []. simpl. rewrite app_nil_r. reflexivity. Qed.

Lemma grows_bind {A B} (m : M S A) (f : A -> M S B) :
  grows m -> (forall a, grows (f a)) -> grows (bind m f).
Proof.
  intros Hm Hf s. unfold bind. destruct (Hm s) as [l Hl].
  destruct (m s) as [s' [a | e]]; simpl in *.
  - destruct (Hf a s') as [l' Hl']. exists (l ++ l').
    rewrite Hl', Hl, app_assoc. reflexivity.
  - exists l. exact Hl.
Qed.

Lemma grows_try_except {A} (m : M S A) (h : exn -> option (M S A)) :
  grows m -> (forall e k, h e = Some k -> grows k) -> grows (try_except m h).
Proof.
  intros Hm Hh s. unfold try_except. destruct (Hm s) as [l Hl].
  destruct (m s) as [s' [a | e]]; simpl in *.
  - exists l. exact Hl.
  - destruct (h e) as [k |] eqn:Ek; simpl.
    + destruct (Hh e k Ek s') as [l' Hl']. exists (l ++ l').
      rewrite Hl', Hl, app_assoc. reflexivity.
    + exists l. exact Hl.
Qed.

Lemma grows_if {A} (b : bool) (m1 m2 : M S A) :
  grows m1 -> grows m2 -> grows (if b then m1 else m2).
Proof. destruct b; auto. Qed.

Lemma starts_with_grows {A} (c : C) (m : M S A) : starts_with c m -> grows m.
Proof. intros H s. destruct (H s) as [l Hl]. exists (c :: l). exact Hl. Qed.

Lemma starts_with_bind {A B} (c : C) (m : M S A) (f : A -> M S B) :
  starts_with c m -> (forall a, grows (f a)) -> starts_with c (bind m f).
Proof.
  intros Hm Hf s. unfold bind. destruct (Hm s) as [l Hl].
  destruct (m s) as [s' [a | e]]; simpl in *.
  - destruct (Hf a s') as [l' Hl']. exists (l ++ l').
    rewrite Hl', Hl, <- app_assoc. reflexivity.
  - exists l. exact Hl.
Qed.

Lemma starts_with_try_except {A} (c : C) (m : M S A) (h : exn -> option (M S A)) :
  starts_with c m -> (forall e k, h e = Some k -> grows k) ->
  starts_with c (try_except m h).
Proof.
  intros Hm Hh s. unfold try_except. destruct (Hm s) as [l Hl].
  destruct (m s) as [s' [a | e]]; simpl in *.
  - exists l. exact Hl.
  - destruct (h e) as [k |] eqn:Ek; simpl.
    + destruct (Hh e k Ek s') as [l' Hl']. exists (l ++ l').
      rewrite Hl', Hl, <- app_assoc. reflexivity.
    + exists l. exact Hl.
Qed.

(** After a step that returns and leaves the state alone, the first
    call is that of what follows. *)
Lemma starts_with_after {A B} (c : C) (m : M S A) (f : A -> M S B) (a : A) :
  (forall s, m s = (s, Ok a)) -> starts_with c (f a) ->
  starts_with c (bind m f).
Proof.
  intros Hm Hf s. unfold bind. rewrite Hm. apply Hf.
Qed.

End Traces.

Create HintDb traces.

#[local] Hint Resolve grows_ret grows_raise grows_lift grows_bind grows_if
  starts_with_grows : traces.

(** Rewrites the comparisons of the configured action with the literals
    of the [if]/[elif] chain into their values. *)
Ltac decide_action :=
  repeat match goal with
         | |- context [String.eqb ?a ?b] =>
             let r := eval vm_compute in (String.eqb a b) in
             change (String.eqb a b) with r
         end;
  cbv iota.

Section DiscordTraces.

Lemma discord_record_starts c : starts_with Discord.calls c (Discord.record c).
Proof. intros s. exists []. reflexivity. Qed.

Lemma discord_attempt_starts env c : starts_with Discord.calls c (Discord.attempt env c).
Proof.
  intros s. exists []. unfold Discord.attempt, bind, Discord.record.
  destruct (Discord.platform env c); reflexivity.
Qed.

Lemma discord_set_action_taken_grows l : grows Discord.calls (Discord.set_action_taken l).
Proof. intros s. exists []. simpl. rewrite app_nil_r. reflexivity. Qed.

Lemma discord_except_forbidden_grows m :
  grows Discord.calls m -> grows Discord.calls (Discord.except_forbidden m).
Proof.
  intros H. apply grows_try_except; [exact H |].
  intros e k E. destruct e; inversion E. apply grows_ret.
Qed.

Lemma discord_except_not_found_grows m :
  grows Discord.calls m -> grows Discord.calls (Discord.except_not_found m).
Proof.
  intros H. apply grows_try_except; [exact H |].
  intros e k E. destruct e; inversion E. apply grows_ret.
Qed.

Lemma discord_except_exception_grows m :
  grows Discord.calls m -> grows Discord.calls (Discord.except_exception m).
Proof.
  intros H. apply grows_try_except; [exact H |].
  intros e k E. inversion E. apply grows_ret.
Qed.

Lemma discord_attempt_grows env c : grows Discord.calls (Discord.attempt env c).
Proof. eapply starts_with_grows, discord_attempt_starts. Qed.

#[local] Hint Resolve discord_attempt_grows discord_set_action_taken_grows
  discord_except_forbidden_grows discord_except_not_found_grows
  discord_except_exception_grows : traces.

(** The timeout branch asks the platform for the timeout first, with
    the duration it computed. *)
Lemma discord_enforce_timeout_starts cfg env result v :
  Discord.AUTO_MODERATE_ACTION cfg = "timeout" ->
  Discord.timeout_days cfg result = Ok v ->
  timedelta_days v = Ok v ->
  starts_with Discord.calls (Discord.author_timeout v) (Discord.enforce cfg env result).
Proof.
  intros Hact Hdays Hdelta. unfold Discord.enforce. rewrite Hact. decide_action.
  rewrite Hdays, bind_lift_ok. cbv beta. rewrite Hdelta, bind_lift_ok. cbv beta.
  apply starts_with_bind.
  - apply starts_with_try_except.
    + apply starts_with_bind; [apply discord_attempt_starts |].
      intros _. apply discord_set_action_taken_grows.
    + intros e k E. destruct e; inversion E. apply grows_ret.
  - auto 8 with traces.
Qed.

End DiscordTraces.

Section TelegramTraces.

(** The state of the Telegram handler is its trace. *)
Let calls (s : Telegram.State) : list Telegram.call := s.

Lemma telegram_record_starts c : starts_with calls c (Telegram.record c).
Proof. intros s. exists []. reflexivity. Qed.

Lemma telegram_attempt_starts env c : starts_with calls c (Telegram.attempt env c).
Proof.
  intros s. exists []. unfold Telegram.attempt, bind, Telegram.record.
  destruct (Telegram.platform env c); reflexivity.
Qed.

Lemma telegram_attempt_grows env c : grows calls (Telegram.attempt env c).
Proof. eapply starts_with_grows, telegram_attempt_starts. Qed.

Lemma telegram_record_grows c : grows calls (Telegram.record c).
Proof. eapply starts_with_grows, telegram_record_starts. Qed.

#[local] Hint Resolve telegram_attempt_grows telegram_record_grows : traces.

(** The timeout branch, once the message is deleted and when the end of
    the mute is a date, asks the platform for the restriction, with the
    duration it computed. *)
Lemma telegram_enforce_timeout_starts cfg env result v s :
  Telegram.AUTO_MODERATE_ACTION cfg = "timeout" ->
  Telegram.timeout_days cfg result = Ok v ->
  timedelta_days v = Ok v ->
  Telegram.platform env Telegram.message_delete = None ->
  Telegram.date_overflows env v = false ->
  exists l,
    fst (Telegram.enforce cfg env result s)
    = s ++ Telegram.message_delete :: Telegram.restrict_chat_member v :: l.
Proof.
  intros Hact Hdays Hdelta Hdel Hdate.
  unfold Telegram.enforce. rewrite Hact. unfold Telegram.deletes. decide_action.
  cbn [orb]. cbv iota.
  rewrite Hdays, bind_lift_ok. cbv beta. rewrite Hdelta, bind_lift_ok. cbv beta.
  rewrite Hdate, bind_ret.
  unfold bind at 1. unfold Telegram.attempt at 1. unfold bind at 1.
  unfold Telegram.record at 1. rewrite Hdel. unfold ret at 1.
  assert (H : starts_with calls (Telegram.restrict_chat_member v)
                (bind (Telegram.attempt env (Telegram.restrict_chat_member v))
                   (fun _ => bind (Telegram.attempt env Telegram.send_message)
                               (fun _ => Telegram.record (Telegram.delete_later 10))))).
  { apply starts_with_bind; [apply telegram_attempt_starts |].
    auto 8 with traces. }
  destruct (H (s ++ [Telegram.message_delete])) as [l Hl].
  exists l. unfold calls in Hl. rewrite Hl, <- app_assoc. reflexivity.
Qed.

End TelegramTraces.

(** ** The duration of a timeout *)

Section Timeout.

Lemma py_min_int_int (b m : Z) : py_min_int (PInt b) m = Ok (PInt (Z.min b m)).
Proof.
  unfold py_min_int, as_number, int_lt.
  destruct (Qlt_le_dec _ _) as [H | H].
  - rewrite <- Zlt_Qlt in H. rewrite Z.min_r by lia. reflexivity.
  - rewrite <- Zle_Qle in H. rewrite Z.min_l by lia. reflexivity.
Qed.

Lemma timedelta_days_int (z : Z) :
  -999999999 <= z <= 999999999 -> timedelta_days (PInt z) = Ok (PInt z).
Proof.
  intros [H1 H2]. unfold timedelta_days, as_number. rewrite Qfloor_Z.
  apply Z.leb_le in H1, H2. rewrite H1, H2. reflexivity.
Qed.

Lemma discord_timeout_days_int cfg d b :
  items_get d "banned_days" = Some (PInt b) -> b <> 0 ->
  Discord.timeout_days cfg (PDict d)
  = Ok (PInt (Z.min b (Discord.AUTO_MODERATE_MAX_TIMEOUT_DAYS cfg))).
Proof.
  intros E Hb. unfold Discord.timeout_days, py_get. rewrite E. simpl.
  apply Z.eqb_neq in Hb. rewrite Hb. simpl. apply py_min_int_int.
Qed.

Lemma discord_timeout_days_absent cfg d :
  items_get d "banned_days" = None ->
  Discord.timeout_days cfg (PDict d)
  = Ok (PInt (Discord.AUTO_MODERATE_DEFAULT_TIMEOUT_DAYS cfg)).
Proof.
  intros E. unfold Discord.timeout_days, py_get. rewrite E. reflexivity.
Qed.

Lemma telegram_timeout_days_int cfg d b :
  items_get d "banned_days" = Some (PInt b) ->
  Telegram.timeout_days cfg (PDict d)
  = Ok (PInt (Z.min b (Telegram.AUTO_MODERATE_MAX_TIMEOUT_DAYS cfg))).
Proof.
  intros E. unfold Telegram.timeout_days, py_get. rewrite E. simpl.
  apply py_min_int_int.
Qed.

Lemma telegram_timeout_days_absent cfg d :
  items_get d "banned_days" = None ->
  Telegram.timeout_days cfg (PDict d)
  = Ok (PInt (Z.min (Telegram.AUTO_MODERATE_DEFAULT_TIMEOUT_DAYS cfg)
                    (Telegram.AUTO_MODERATE_MAX_TIMEOUT_DAYS cfg))).
Proof.
  intros E. unfold Telegram.timeout_days, py_get. rewrite E. simpl.
  apply py_min_int_int.
Qed.

End Timeout.

(** C4, as the claim states it, fails: a negative [banned_days] passes
    the cap untouched, and both bots mute for a duration below one
    day. *)
Lemma C4_negative_banned_days_counterexample :
  Discord.timeout_days Discord.shipped (PDict [("banned_days", PInt (-5))])
  = Ok (PInt (-5))
  /\ Telegram.timeout_days Telegram.shipped (PDict [("banned_days", PInt (-5))])
     = Ok (PInt (-5))
  /\ timedelta_days (PInt (-5)) = Ok (PInt (-5))
  /\ ~ (1 <= -5).
Proof.
  repeat split; try reflexivity. lia.
Qed.

(** C4, amended. For a verdict whose [banned_days] is absent or an
    integer of at least 1, and a configuration with
    1 <= default_timeout_days <= max_timeout_days (the latter within the
    range of [timedelta]), the duration both bots compute is
    [min(banned_days or default_timeout_days, max_timeout_days)], it lies
    between 1 and max_timeout_days, and it is the duration the timeout
    branch asks the platform to mute for. *)
Theorem C4_timeout_duration_bounded
    (banned_days : option Z) (d : list (string * pyval)) :
  items_get d "banned_days" = option_map PInt banned_days ->
  (forall b, banned_days = Some b -> 1 <= b) ->
  (forall (cfg : Discord.Config) (env : Discord.Env) (s : Discord.State),
      1 <= Discord.AUTO_MODERATE_DEFAULT_TIMEOUT_DAYS cfg
        <= Discord.AUTO_MODERATE_MAX_TIMEOUT_DAYS cfg ->
      Discord.AUTO_MODERATE_MAX_TIMEOUT_DAYS cfg <= 999999999 ->
      let days := spec_timeout_days banned_days
                    (Discord.AUTO_MODERATE_DEFAULT_TIMEOUT_DAYS cfg)
                    (Discord.AUTO_MODERATE_MAX_TIMEOUT_DAYS cfg) in
      1 <= days <= Discord.AUTO_MODERATE_MAX_TIMEOUT_DAYS cfg
      /\ Discord.timeout_days cfg (PDict d) = Ok (PInt days)
      /\ (Discord.AUTO_MODERATE_ACTION cfg = "timeout" ->
          exists l,
            Discord.calls (fst (Discord.enforce cfg env (PDict d) s))
            = Discord.calls s ++ Discord.author_timeout (PInt days) :: l))
  /\ (forall (cfg : Telegram.Config) (env : Telegram.Env) (s : Telegram.State),
         1 <= Telegram.AUTO_MODERATE_DEFAULT_TIMEOUT_DAYS cfg
           <= Telegram.AUTO_MODERATE_MAX_TIMEOUT_DAYS cfg ->
         Telegram.AUTO_MODERATE_MAX_TIMEOUT_DAYS cfg <= 999999999 ->
         let days := spec_timeout_days banned_days
                       (Telegram.AUTO_MODERATE_DEFAULT_TIMEOUT_DAYS cfg)
                       (Telegram.AUTO_MODERATE_MAX_TIMEOUT_DAYS cfg) in
         1 <= days <= Telegram.AUTO_MODERATE_MAX_TIMEOUT_DAYS cfg
         /\ Telegram.timeout_days cfg (PDict d) = Ok (PInt days)
         /\ (Telegram.AUTO_MODERATE_ACTION cfg = "timeout" ->
             Telegram.platform env Telegram.message_delete = None ->
             Telegram.date_overflows env (PInt days) = false ->
             exists l,
               fst (Telegram.enforce cfg env (PDict d) s)
               = s ++ Telegram.message_delete
                   :: Telegram.restrict_chat_member (PInt days) :: l)).
Proof.
  intros Hget Hpos. split.
  - intros cfg env s Hcfg Hmax days.
    assert (Hdays : 1 <= days <= Discord.AUTO_MODERATE_MAX_TIMEOUT_DAYS cfg).
    { subst days. unfold spec_timeout_days. destruct banned_days as [b |].
      - specialize (Hpos b eq_refl).
        destruct (Z.eqb_spec b 0); lia.
      - lia. }
    assert (Hval : Discord.timeout_days cfg (PDict d) = Ok (PInt days)).
    { subst days. unfold spec_timeout_days. destruct banned_days as [b |].
      - specialize (Hpos b eq_refl). simpl in Hget.
        rewrite (discord_timeout_days_int cfg d b Hget) by lia.
        destruct (Z.eqb_spec b 0); [lia | reflexivity].
      - simpl in Hget. rewrite (discord_timeout_days_absent cfg d Hget).
        rewrite Z.min_l by lia. reflexivity. }
    split; [exact Hdays | split; [exact Hval |]].
    intros Hact.
    apply (discord_enforce_timeout_starts cfg env (PDict d) (PInt days) Hact Hval).
    apply timedelta_days_int. lia.
  - intros cfg env s Hcfg Hmax days.
    assert (Hdays : 1 <= days <= Telegram.AUTO_MODERATE_MAX_TIMEOUT_DAYS cfg).
    { subst days. unfold spec_timeout_days. destruct banned_days as [b |].
      - specialize (Hpos b eq_refl).
        destruct (Z.eqb_spec b 0); lia.
      - lia. }
    assert (Hval : Telegram.timeout_days cfg (PDict d) = Ok (PInt days)).
    { subst days. unfold spec_timeout_days. destruct banned_days as [b |].
      - specialize (Hpos b eq_refl). simpl in Hget.
        rewrite (telegram_timeout_days_int cfg d b Hget).
        destruct (Z.eqb_spec b 0); [lia | reflexivity].
      - simpl in Hget. rewrite (telegram_timeout_days_absent cfg d Hget).
        reflexivity. }
    split; [exact Hdays | split; [exact Hval |]].
    intros Hact Hdel Hdate.
    apply (telegram_enforce_timeout_starts cfg env (PDict d) (PInt days) s
             Hact Hval); [| exact Hdel | exact Hdate].
    apply timedelta_days_int. lia.
Qed.

(** C4 at sample inputs: three days suggested in the Discord bot, none
    in the Telegram bot. *)
Lemma C4_timeout_duration_bounded_witness :
  (1 <= 3 <= 28
   /\ Discord.timeout_days (Sample.discord_cfg "timeout" [] [])
        (PDict [("status", PStr "BLOCKED"); ("banned_days", PInt 3)])
      = Ok (PInt 3))
  /\ (1 <= 1 <= 28
      /\ Telegram.timeout_days (Sample.telegram_cfg "timeout" [])
           (PDict [("status", PStr "BLOCKED")])
         = Ok (PInt 1)).
Proof.
  split.
  - assert (Hpos : forall b, Some 3 = Some b -> 1 <= b)
      by (intros b E; injection E as <-; lia).
    assert (Hcfg : 1 <= 1 <= 28) by lia.
    assert (Hmax : 28 <= 999999999) by lia.
    pose proof (proj1 (C4_timeout_duration_bounded (Some 3)
             [("status", PStr "BLOCKED"); ("banned_days", PInt 3)]
             eq_refl Hpos)
           (Sample.discord_cfg "timeout" [] [])
           (Sample.discord_env Failed) Sample.discord_start Hcfg Hmax) as H.
    split; [exact (proj1 H) | exact (proj1 (proj2 H))].
  - assert (Hpos : forall b, @None Z = Some b -> 1 <= b)
      by (intros b E; discriminate E).
    assert (Hcfg : 1 <= 1 <= 28) by lia.
    assert (Hmax : 28 <= 999999999) by lia.
    pose proof (proj2 (C4_timeout_duration_bounded None
             [("status", PStr "BLOCKED")] eq_refl Hpos)
           (Sample.telegram_cfg "timeout" [])
           (Sample.telegram_env Failed) [] Hcfg Hmax) as H.
    split; [exact (proj1 H) | exact (proj1 (proj2 H))].
Defined.

(** ** The loaders *)

Section Loaders.

Lemma nonempty_true (s : string) : PyStr.nonempty s = true <-> s <> "".
Proof. destruct s; simpl; split; congruence. Qed.

Lemma nonempty_false (s : string) : PyStr.nonempty s = false <-> s = "".
Proof. destruct s; simpl; split; congruence. Qed.

Lemma prefix_cons (a b : ascii) (p s : string) :
  String.prefix (String a p) (String b s)
  = if ascii_dec a b then String.prefix p s else false.
Proof. reflexivity. Qed.

(** A line that starts with ["#policy"] starts with ["#"]. *)
Lemma startswith_marker_hash (s : string) :
  PyStr.startswith s "#policy" = true -> PyStr.startswith s "#" = true.
Proof.
  unfold PyStr.startswith. destruct s as [| c s]; [discriminate |].
  rewrite !prefix_cons. destruct (ascii_dec _ c); [| discriminate].
  intros _. destruct s; reflexivity.
Qed.

(** The loop of [load_policy_file] is a filter of the stripped lines. *)
Lemma policy_loop_filter (lines acc : list string) :
  Discord.policy_loop lines acc
  = acc ++ List.filter Discord.keeps_policy_line (List.map PyStr.strip lines).
Proof.
  revert acc. induction lines as [| line rest IH]; intros acc; simpl.
  - rewrite app_nil_r. reflexivity.
  - destruct (Discord.keeps_policy_line (PyStr.strip line)).
    + rewrite IH, <- app_assoc. reflexivity.
    + apply IH.
Qed.

Lemma lines_loop_filter (split acc : list string) :
  Telegram.lines_loop split acc
  = acc ++ List.filter (fun l => PyStr.nonempty l && Telegram.keeps_line l)
             (List.map PyStr.strip split).
Proof.
  revert acc. induction split as [| line rest IH]; intros acc; simpl.
  - rewrite app_nil_r. reflexivity.
  - destruct (PyStr.nonempty (PyStr.strip line)); simpl; [| apply IH].
    destruct (Telegram.keeps_line (PyStr.strip line)).
    + rewrite IH, <- app_assoc. reflexivity.
    + apply IH.
Qed.

(** The test of the policy loop, in words. *)
Lemma keeps_policy_line_spec (l : string) :
  Discord.keeps_policy_line l = true <->
  PyStr.startswith (PyStr.lower l) "#policy" = true
  \/ (l <> "" /\ PyStr.startswith l "#" = false).
Proof.
  unfold Discord.keeps_policy_line.
  rewrite orb_true_iff, andb_true_iff, negb_true_iff, nonempty_true.
  reflexivity.
Qed.

Lemma lower_empty (l : string) : PyStr.lower l = "" -> l = "".
Proof. destruct l; simpl; [reflexivity | discriminate]. Qed.

Lemma telegram_keeps_line_spec (l : string) :
  PyStr.nonempty l && Telegram.keeps_line l = true <->
  PyStr.startswith (PyStr.lower l) "#policy" = true
  \/ (l <> "" /\ PyStr.startswith l "#" = false).
Proof.
  unfold Telegram.keeps_line.
  rewrite andb_true_iff, orb_true_iff, negb_true_iff, nonempty_true. split.
  - intros [Hne [H | H]]; [left; exact H | right; split; assumption].
  - intros [H | [Hne H]].
    + split; [| left; exact H]. intros ->. discriminate H.
    + split; [exact Hne | right; exact H].
Qed.

Lemma keeps_instruction_line_spec (l : string) :
  Discord.keeps_instruction_line l = true <->
  PyStr.strip l <> "" /\ PyStr.startswith (PyStr.strip l) "#" = false.
Proof.
  unfold Discord.keeps_instruction_line.
  rewrite andb_true_iff, negb_true_iff, nonempty_true. reflexivity.
Qed.

Lemma dropped_from_policy_not_kept (raw : string) :
  dropped_from_policy raw -> Discord.keeps_policy_line (PyStr.strip raw) = false.
Proof.
  unfold dropped_from_policy. intros H.
  destruct (Discord.keeps_policy_line (PyStr.strip raw)) eqn:E; [| reflexivity].
  apply keeps_policy_line_spec in E.
  destruct H as [H | [H1 H2]], E as [E | [E1 E2]]; try congruence.
  rewrite H in E. discriminate E.
Qed.

Lemma filter_none {A} (f : A -> bool) (l : list A) :
  Forall (fun x => f x = false) l -> List.filter f l = [].
Proof.
  induction 1 as [| x l Hx _ IH]; simpl; [reflexivity |].
  rewrite Hx. exact IH.
Qed.

Lemma policy_lines_none (text : string) :
  Forall dropped_from_policy (PyStr.split_lines (PyStr.strip text)) ->
  Discord.policy_lines text = [].
Proof.
  intros H. unfold Discord.policy_lines. cbv zeta.
  rewrite policy_loop_filter. simpl. apply filter_none.
  apply Forall_map. eapply Forall_impl; [exact H |].
  intros raw. apply dropped_from_policy_not_kept.
Qed.

Lemma kept_lines_none (text : string) :
  Forall dropped_from_policy (PyStr.split_lines (PyStr.strip text)) ->
  Telegram.kept_lines text = [].
Proof.
  intros H. unfold Telegram.kept_lines. cbv zeta.
  rewrite lines_loop_filter. simpl. apply filter_none.
  apply Forall_map. eapply Forall_impl; [exact H |].
  intros raw Hraw. simpl.
  destruct (PyStr.nonempty (PyStr.strip raw) && Telegram.keeps_line (PyStr.strip raw))
    eqn:E; [| reflexivity].
  apply telegram_keeps_line_spec, keeps_policy_line_spec in E.
  rewrite (dropped_from_policy_not_kept raw Hraw) in E. discriminate E.
Qed.

Lemma instruction_lines_none (text : string) :
  Forall dropped_from_instructions (PyStr.split_lines (PyStr.strip text)) ->
  Discord.instruction_lines text = [].
Proof.
  intros H. unfold Discord.instruction_lines. cbv zeta. apply filter_none.
  eapply Forall_impl; [exact H |].
  intros raw Hraw. unfold dropped_from_instructions in Hraw.
  destruct (Discord.keeps_instruction_line raw) eqn:E; [| reflexivity].
  apply keeps_instruction_line_spec in E. destruct E as [E1 E2].
  destruct Hraw; congruence.
Qed.

End Loaders.

(** C9. A file whose every line is blank or a comment makes each loader
    return (None, None), content and warning both absent, which is what
    a disabled loader returns; a missing file makes an enabled loader
    return (None, warning). *)
Theorem C9_effectively_empty_file_gives_no_warning (text : string) :
  (forall cfg,
      Forall dropped_from_policy (PyStr.split_lines (PyStr.strip text)) ->
      Discord.load_policy_file cfg (Contents text) = (None, None))
  /\ (forall cfg,
         Forall dropped_from_instructions (PyStr.split_lines (PyStr.strip text)) ->
         Discord.load_instructions_file cfg (Contents text) = (None, None))
  /\ (forall name max_chars,
         Forall dropped_from_policy (PyStr.split_lines (PyStr.strip text)) ->
         Telegram.load_text_file name (Contents text) max_chars = (None, None))
  /\ (forall cfg,
         Discord.USE_POLICY_FILE cfg = true ->
         Discord.load_policy_file cfg Missing
         = (None, Some (Discord.not_found "policy.txt")))
  /\ (forall cfg,
         Discord.USE_INSTRUCTIONS_FILE cfg = true ->
         Discord.load_instructions_file cfg Missing
         = (None, Some (Discord.not_found "instructions.txt")))
  /\ (forall name max_chars,
         Telegram.load_text_file name Missing max_chars
         = (None, Some (Telegram.file_not_found name)))
  /\ (forall cfg f,
         Discord.USE_POLICY_FILE cfg = false ->
         Discord.load_policy_file cfg f = (None, None))
  /\ (forall cfg f,
         Discord.USE_INSTRUCTIONS_FILE cfg = false ->
         Discord.load_instructions_file cfg f = (None, None)).
Proof.
  repeat split.
  - intros cfg H. unfold Discord.load_policy_file.
    destruct (Discord.USE_POLICY_FILE cfg); simpl; [| reflexivity].
    rewrite (policy_lines_none text H). reflexivity.
  - intros cfg H. unfold Discord.load_instructions_file.
    destruct (Discord.USE_INSTRUCTIONS_FILE cfg); simpl; [| reflexivity].
    rewrite (instruction_lines_none text H). reflexivity.
  - intros name max_chars H. unfold Telegram.load_text_file.
    rewrite (kept_lines_none text H). reflexivity.
  - intros cfg H. unfold Discord.load_policy_file. rewrite H. reflexivity.
  - intros cfg H. unfold Discord.load_instructions_file. rewrite H. reflexivity.
  - intros cfg f H. unfold Discord.load_policy_file. rewrite H. reflexivity.
  - intros cfg f H. unfold Discord.load_instructions_file. rewrite H. reflexivity.
Qed.

(** C9 at a file of comments and blank lines. *)
Lemma C9_effectively_empty_file_gives_no_warning_witness :
  Discord.load_policy_file Discord.shipped (Contents Sample.only_comments)
  = (None, None)
  /\ Discord.load_instructions_file Discord.shipped (Contents Sample.only_comments)
     = (None, None)
  /\ Telegram.load_text_file "policy.txt" (Contents Sample.only_comments)
       POLICY_MAX_CHARS
     = (None, None)
  /\ Discord.load_policy_file Discord.shipped Missing
     = (None, Some (Discord.not_found "policy.txt")).
Proof.
  pose proof (C9_effectively_empty_file_gives_no_warning Sample.only_comments)
    as [H1 [H2 [H3 [H4 _]]]].
  assert (Hp : Forall dropped_from_policy
                 (PyStr.split_lines (PyStr.strip Sample.only_comments))).
  { let l := eval vm_compute in
               (PyStr.split_lines (PyStr.strip Sample.only_comments)) in
    change (PyStr.split_lines (PyStr.strip Sample.only_comments)) with l.
    repeat (constructor;
            [ first [ left; vm_compute; reflexivity
                    | right; split; vm_compute; reflexivity ] |]).
    constructor. }
  assert (Hi : Forall dropped_from_instructions
                 (PyStr.split_lines (PyStr.strip Sample.only_comments))).
  { let l := eval vm_compute in
               (PyStr.split_lines (PyStr.strip Sample.only_comments)) in
    change (PyStr.split_lines (PyStr.strip Sample.only_comments)) with l.
    repeat (constructor;
            [ first [ left; vm_compute; reflexivity
                    | right; vm_compute; reflexivity ] |]).
    constructor. }
  split; [apply H1, Hp | split; [apply H2, Hi | split; [apply H3, Hp |]]].
  apply H4. reflexivity.
Defined.

Section KeptLines.

Lemma eqb_empty (l : string) : negb (String.eqb l "") = PyStr.nonempty l.
Proof. destruct l; reflexivity. Qed.

Lemma policy_lines_spec (text : string) :
  Discord.policy_lines text = spec_policy_lines text.
Proof.
  unfold Discord.policy_lines, spec_policy_lines. cbv zeta.
  rewrite policy_loop_filter. simpl. apply filter_ext. intros l.
  unfold Discord.keeps_policy_line, spec_keeps_policy.
  rewrite eqb_empty. reflexivity.
Qed.

Lemma kept_lines_spec (text : string) :
  Telegram.kept_lines text = spec_policy_lines text.
Proof.
  unfold Telegram.kept_lines, spec_policy_lines. cbv zeta.
  rewrite lines_loop_filter. simpl. apply filter_ext. intros l.
  unfold Telegram.keeps_line, spec_keeps_policy. rewrite eqb_empty.
  destruct l as [| a l]; reflexivity.
Qed.

Lemma instruction_lines_spec (text : string) :
  Discord.instruction_lines text = spec_instruction_lines text.
Proof.
  unfold Discord.instruction_lines, spec_instruction_lines. cbv zeta.
  apply filter_ext. intros l.
  unfold Discord.keeps_instruction_line, spec_keeps_instruction.
  rewrite eqb_empty. reflexivity.
Qed.

Lemma capped_spec_loaded name limit lines :
  fst (Discord.capped name limit (PyStr.join_lines lines))
  = spec_loaded limit lines.
Proof.
  unfold Discord.capped, spec_loaded, spec_truncated. cbv zeta.
  rewrite <- eqb_empty.
  destruct (String.eqb (PyStr.join_lines lines) ""); simpl; [reflexivity |].
  destruct (PyStr.len (PyStr.join_lines lines) >? limit); reflexivity.
Qed.

Lemma load_text_file_spec_loaded name text max_chars :
  fst (Telegram.load_text_file name (Contents text) max_chars)
  = spec_loaded max_chars (spec_policy_lines text).
Proof.
  unfold Telegram.load_text_file. cbv zeta. rewrite kept_lines_spec.
  unfold spec_loaded, spec_truncated. cbv zeta. rewrite <- eqb_empty.
  destruct (String.eqb (PyStr.join_lines (spec_policy_lines text)) ""); simpl;
    [reflexivity |].
  destruct (PyStr.len (PyStr.join_lines (spec_policy_lines text)) >? max_chars);
    reflexivity.
Qed.

End KeptLines.

(** C7, as the claim states it, fails: the instructions loader of the
    Discord bot has no exception for ["#policy"], it drops such a line
    like any comment; and the policy loader matches the marker in any
    letter case and keeps the line without its surrounding blanks. *)
Lemma C7_instructions_marker_counterexample :
  Discord.load_instructions_file Discord.shipped
    (Contents "#policy 1: block all spam")
  = (None, None)
  /\ Discord.load_policy_file Discord.shipped
       (Contents (PyStr.join_lines ["# rules"; "  #POLICY 1: block all spam  "; "be kind"]))
     = (Some (PyStr.join_lines ["#POLICY 1: block all spam"; "be kind"]), None).
Proof.
  split; vm_compute; reflexivity.
Qed.

(** C7, amended. The policy loader of the Discord bot, and the loader
    the Telegram bot uses for both files, strip every line of its
    surrounding blanks and keep exactly the stripped lines that start
    with ["#policy"] in any letter case, or are not empty and do not
    start with ["#"]. The instructions loader of the Discord bot keeps
    exactly the lines that, stripped, are not empty and do not start
    with ["#"], and keeps them as they are: it has no exception for
    ["#policy"]. Each loader keeps these lines once each and in the
    order of the file, and returns them joined with newlines and cut at
    its limit, or nothing when there is nothing to join. *)
Theorem C7_lines_the_loaders_keep (text : string) :
  let lines := PyStr.split_lines (PyStr.strip text) in
  (forall l,
      l ∈ Discord.policy_lines text <->
      exists raw, raw ∈ lines /\ l = PyStr.strip raw
                  /\ (PyStr.startswith (PyStr.lower l) "#policy" = true
                      \/ (l <> "" /\ PyStr.startswith l "#" = false)))
  /\ (forall l,
         l ∈ Telegram.kept_lines text <->
         exists raw, raw ∈ lines /\ l = PyStr.strip raw
                     /\ (PyStr.startswith (PyStr.lower l) "#policy" = true
                         \/ (l <> "" /\ PyStr.startswith l "#" = false)))
  /\ (forall l,
         l ∈ Discord.instruction_lines text <->
         l ∈ lines /\ PyStr.strip l <> ""
         /\ PyStr.startswith (PyStr.strip l) "#" = false)
  /\ (forall l,
         l ∈ Discord.instruction_lines text ->
         PyStr.startswith (PyStr.strip l) "#policy" = false)
  /\ (Discord.policy_lines text = spec_policy_lines text
      /\ Telegram.kept_lines text = spec_policy_lines text
      /\ Discord.instruction_lines text = spec_instruction_lines text)
  /\ (forall cfg,
         Discord.USE_POLICY_FILE cfg = true ->
         fst (Discord.load_policy_file cfg (Contents text))
         = spec_loaded POLICY_MAX_CHARS (spec_policy_lines text))
  /\ (forall cfg,
         Discord.USE_INSTRUCTIONS_FILE cfg = true ->
         fst (Discord.load_instructions_file cfg (Contents text))
         = spec_loaded INSTRUCTIONS_MAX_CHARS (spec_instruction_lines text))
  /\ (forall name max_chars,
         0 <= max_chars ->
         fst (Telegram.load_text_file name (Contents text) max_chars)
         = spec_loaded max_chars (spec_policy_lines text)).
Proof.
  intros lines. split; [| split; [| split; [| split; [| split; [| split; [| split]]]]]].
  - intros l. unfold Discord.policy_lines. cbv zeta. fold lines.
    rewrite policy_loop_filter. simpl.
    rewrite list_elem_of_In, filter_In, in_map_iff, keeps_policy_line_spec.
    split.
    + intros [[raw [E Hin]] Hk]. exists raw.
      rewrite list_elem_of_In. auto.
    + intros [raw [Hin [E Hk]]]. rewrite list_elem_of_In in Hin.
      split; [exists raw; auto | exact Hk].
  - intros l. unfold Telegram.kept_lines. cbv zeta. fold lines.
    rewrite lines_loop_filter. simpl.
    rewrite list_elem_of_In, filter_In, in_map_iff, telegram_keeps_line_spec.
    split.
    + intros [[raw [E Hin]] Hk]. exists raw.
      rewrite list_elem_of_In. auto.
    + intros [raw [Hin [E Hk]]]. rewrite list_elem_of_In in Hin.
      split; [exists raw; auto | exact Hk].
  - intros l. unfold Discord.instruction_lines. cbv zeta. fold lines.
    rewrite list_elem_of_In, filter_In, keeps_instruction_line_spec.
    rewrite list_elem_of_In. reflexivity.
  - intros l. unfold Discord.instruction_lines. cbv zeta. fold lines.
    rewrite list_elem_of_In, filter_In, keeps_instruction_line_spec.
    intros [_ [_ H]].
    destruct (PyStr.startswith (PyStr.strip l) "#policy") eqn:E; [| reflexivity].
    apply startswith_marker_hash in E. congruence.
  - split; [apply policy_lines_spec |].
    split; [apply kept_lines_spec | apply instruction_lines_spec].
  - intros cfg Hu. unfold Discord.load_policy_file. rewrite Hu. cbn [negb].
    cbv iota. rewrite policy_lines_spec. apply capped_spec_loaded.
  - intros cfg Hu. unfold Discord.load_instructions_file. rewrite Hu.
    cbn [negb]. cbv iota. rewrite instruction_lines_spec.
    apply capped_spec_loaded.
  - intros name max_chars _. apply load_text_file_spec_loaded.
Qed.

(** C7 at a file with a comment, a marker line in capitals and a rule
    that stands twice: the policy loader returns the rule, the marker
    line without its blanks and the rule again. *)
Lemma C7_lines_the_loaders_keep_witness :
  fst (Discord.load_policy_file Discord.shipped
         (Contents (PyStr.join_lines
                      ["be kind"; "# rules"; "  #POLICY 1: block all spam  ";
                       ""; "be kind"])))
  = spec_loaded POLICY_MAX_CHARS
      (spec_policy_lines
         (PyStr.join_lines
            ["be kind"; "# rules"; "  #POLICY 1: block all spam  ";
             ""; "be kind"]))
  /\ spec_policy_lines
       (PyStr.join_lines
          ["be kind"; "# rules"; "  #POLICY 1: block all spam  "; "";
           "be kind"])
     = ["be kind"; "#POLICY 1: block all spam"; "be kind"].
Proof.
  split.
  - apply (proj1 (proj2 (proj2 (proj2 (proj2 (proj2
             (C7_lines_the_loaders_keep
                (PyStr.join_lines
                   ["be kind"; "# rules"; "  #POLICY 1: block all spam  ";
                    ""; "be kind"])))))))).
    reflexivity.
  - vm_compute. reflexivity.
Defined.

(** ** The merge of file and inline content *)

Section Merge.

Lemma append_length (a b : string) :
  String.length (String.append a b) = (String.length a + String.length b)%nat.
Proof.
  induction a as [| c a IH]; simpl; [reflexivity |]. rewrite IH. reflexivity.
Qed.

Lemma append_longer (a : string) (c : ascii) (b : string) :
  Some a <> Some (String.append a (String c b)).
Proof.
  intros H. injection H as H. apply (f_equal String.length) in H.
  rewrite append_length in H. simpl in H. lia.
Qed.

Lemma clip_truncated (limit : Z) (s : string) :
  0 <= limit -> Discord.clip limit s = spec_truncated limit s.
Proof.
  intros H. unfold Discord.clip, spec_truncated.
  destruct s as [| c s]; simpl; [| reflexivity].
  destruct (Z.gtb_spec (PyStr.len "") limit) as [G | G]; [| reflexivity].
  unfold PyStr.len in G. simpl in G. lia.
Qed.

(** The content a loader hands to the request: its result when the file
    is asked for and enabled. *)
Lemma build_request_closed_form cfg pf inf content policy instructions upf uif :
  let fp := if upf && Discord.USE_POLICY_FILE cfg
            then fst (Discord.load_policy_file cfg pf) else None in
  let fi := if uif && Discord.USE_INSTRUCTIONS_FILE cfg
            then fst (Discord.load_instructions_file cfg inf) else None in
  Discord.build_request cfg pf inf content policy instructions upf uif
  = (mkPayload content
       (Discord.field (spec_truncated POLICY_MAX_CHARS (spec_merged fp policy)))
       (Discord.field (spec_truncated INSTRUCTIONS_MAX_CHARS
                         (spec_merged fi instructions))),
     spec_listed (opt_truthy fp) Discord.file_policy
     ++ spec_listed (opt_truthy fi) Discord.file_instructions
     ++ spec_listed (opt_truthy policy) Discord.inline_policy
     ++ spec_listed (opt_truthy instructions) Discord.inline_instructions).
Proof.
  cbv zeta. unfold Discord.build_request.
  assert (Hp : 0 <= POLICY_MAX_CHARS) by (vm_compute; congruence).
  assert (Hi : 0 <= INSTRUCTIONS_MAX_CHARS) by (vm_compute; congruence).
  revert Hp Hi. generalize POLICY_MAX_CHARS, INSTRUCTIONS_MAX_CHARS.
  intros lp li Hp Hi.
  destruct (upf && Discord.USE_POLICY_FILE cfg),
           (uif && Discord.USE_INSTRUCTIONS_FILE cfg);
    destruct (fst (Discord.load_policy_file cfg pf)) as [[| c1 x1] |],
             (fst (Discord.load_instructions_file cfg inf)) as [[| c2 x2] |],
             policy as [[| c3 x3] |], instructions as [[| c4 x4] |];
    cbn [PyStr.nonempty opt_truthy spec_listed default app];
    unfold Discord.extend, spec_merged;
    cbn [PyStr.nonempty default];
    rewrite !clip_truncated by assumption; reflexivity.
Qed.

End Merge.

(** C8, as the claim states it, fails: when the file content fills the
    limit, the policy sent is the file content alone, cut at 10000
    characters, and not the file content, a newline and the inline
    content; the inline source is listed all the same. *)
Lemma C8_truncated_merge_counterexample :
  let request := Discord.build_request Discord.shipped
                   (Contents Sample.full_policy) Missing
                   "I will find and hurt you" (Some "no threats") None true true in
  fst (Discord.load_policy_file Discord.shipped (Contents Sample.full_policy))
  = Some Sample.full_policy
  /\ p_policy (fst request) = Some Sample.full_policy
  /\ p_policy (fst request)
     <> Some (String.append Sample.full_policy (String PyStr.newline "no threats"))
  /\ snd request = [Discord.file_policy; Discord.inline_policy].
Proof.
  cbv zeta.
  assert (E : p_policy (fst (Discord.build_request Discord.shipped
                   (Contents Sample.full_policy) Missing
                   "I will find and hurt you" (Some "no threats") None true true))
              = Some Sample.full_policy) by (vm_compute; reflexivity).
  split; [vm_compute; reflexivity | split; [exact E | split]].
  - rewrite E. apply append_longer.
  - vm_compute. reflexivity.
Qed.

(** C8, amended. The policy sent to the API is the file content (when
    the file is asked for, enabled and not empty) followed by the inline
    content, joined by one newline, file content first, or the one of
    the two that is present, cut at 10000 characters when longer, and
    left out when empty; likewise the instructions, cut at 2000. The
    list of sources names every source that is present and not empty,
    in the order file policy, file instructions, inline policy, inline
    instructions, cut or not. When both parts are present and their
    merge is within the limit, what is sent is exactly file content,
    newline, inline content. *)
Theorem C8_merged_content_and_sources
    (cfg : Discord.Config) (pf inf : file) (content : string)
    (policy instructions : option string) (upf uif : bool) :
  let fp := if upf && Discord.USE_POLICY_FILE cfg
            then fst (Discord.load_policy_file cfg pf) else None in
  let fi := if uif && Discord.USE_INSTRUCTIONS_FILE cfg
            then fst (Discord.load_instructions_file cfg inf) else None in
  let request :=
    Discord.build_request cfg pf inf content policy instructions upf uif in
  let sent_policy := spec_truncated POLICY_MAX_CHARS (spec_merged fp policy) in
  let sent_instructions :=
    spec_truncated INSTRUCTIONS_MAX_CHARS (spec_merged fi instructions) in
  p_content (fst request) = content
  /\ p_policy (fst request)
     = (if PyStr.nonempty sent_policy then Some sent_policy else None)
  /\ p_instructions (fst request)
     = (if PyStr.nonempty sent_instructions then Some sent_instructions else None)
  /\ snd request
     = spec_listed (opt_truthy fp) Discord.file_policy
       ++ spec_listed (opt_truthy fi) Discord.file_instructions
       ++ spec_listed (opt_truthy policy) Discord.inline_policy
       ++ spec_listed (opt_truthy instructions) Discord.inline_instructions
  /\ (forall f i,
         fp = Some f -> policy = Some i -> f <> "" -> i <> "" ->
         PyStr.len (String.append f (String PyStr.newline i)) <= POLICY_MAX_CHARS ->
         p_policy (fst request) = Some (String.append f (String PyStr.newline i)))
  /\ (forall f i,
         fi = Some f -> instructions = Some i -> f <> "" -> i <> "" ->
         PyStr.len (String.append f (String PyStr.newline i))
           <= INSTRUCTIONS_MAX_CHARS ->
         p_instructions (fst request)
         = Some (String.append f (String PyStr.newline i))).
Proof.
  intros fp fi request sent_policy sent_instructions.
  assert (E : request
              = (mkPayload content (Discord.field sent_policy)
                           (Discord.field sent_instructions),
                 spec_listed (opt_truthy fp) Discord.file_policy
                 ++ spec_listed (opt_truthy fi) Discord.file_instructions
                 ++ spec_listed (opt_truthy policy) Discord.inline_policy
                 ++ spec_listed (opt_truthy instructions) Discord.inline_instructions))
    by apply build_request_closed_form.
  rewrite E. cbn [fst snd p_content p_policy p_instructions].
  split; [reflexivity | split; [reflexivity | split; [reflexivity |
    split; [reflexivity | split]]]].
  - intros f i Ef Ei Hf Hi Hlen. subst sent_policy. rewrite Ef, Ei.
    unfold spec_merged. simpl.
    apply nonempty_true in Hf, Hi. rewrite Hf, Hi.
    unfold spec_truncated.
    destruct (Z.gtb_spec (PyStr.len (String.append f (String PyStr.newline i)))
                POLICY_MAX_CHARS) as [G | G]; [lia |].
    unfold Discord.field. destruct f; [discriminate Hf | reflexivity].
  - intros f i Ef Ei Hf Hi Hlen. subst sent_instructions. rewrite Ef, Ei.
    unfold spec_merged. simpl.
    apply nonempty_true in Hf, Hi. rewrite Hf, Hi.
    unfold spec_truncated.
    destruct (Z.gtb_spec (PyStr.len (String.append f (String PyStr.newline i)))
                INSTRUCTIONS_MAX_CHARS) as [G | G]; [lia |].
    unfold Discord.field. destruct f; [discriminate Hf | reflexivity].
Qed.

(** C8 at a policy file of one line and an inline policy. *)
Lemma C8_merged_content_and_sources_witness :
  p_policy (fst (Discord.build_request Discord.shipped
                   (Contents "#policy 1: no threats") Missing
                   "I will find and hurt you" (Some "be strict") None true true))
  = Some (String.append "#policy 1: no threats" (String PyStr.newline "be strict"))
  /\ snd (Discord.build_request Discord.shipped
            (Contents "#policy 1: no threats") Missing
            "I will find and hurt you" (Some "be strict") None true true)
     = [Discord.file_policy; Discord.inline_policy].
Proof.
  pose proof (C8_merged_content_and_sources Discord.shipped
                (Contents "#policy 1: no threats") Missing
                "I will find and hurt you" (Some "be strict") None true true)
    as [_ [_ [_ [Hs [Hp _]]]]].
  split.
  - apply Hp.
    + vm_compute. reflexivity.
    + reflexivity.
    + discriminate.
    + discriminate.
    + vm_compute. discriminate.
  - rewrite Hs. vm_compute. reflexivity.
Defined.

(** ** Fields absent from a verdict *)

Section Defaults.

Lemma items_get_app (d : list (string * pyval)) (k key : string) (v : pyval) :
  items_get (d ++ [(k, v)]) key
  = match items_get d key with
    | Some x => Some x
    | None => if String.eqb k key then Some v else None
    end.
Proof.
  induction d as [| [k' v'] d IH]; simpl; [reflexivity |].
  destruct (String.eqb k' key); [reflexivity | exact IH].
Qed.

(** Another member does not change what a key reads. *)
Lemma py_get_app_other d k v key dflt :
  k <> key -> py_get (PDict (d ++ [(k, v)])) key dflt = py_get (PDict d) key dflt.
Proof.
  intros H. unfold py_get. rewrite items_get_app.
  apply String.eqb_neq in H. rewrite H.
  destruct (items_get d key); reflexivity.
Qed.

(** An absent key reads as the default, and as the member once it is
    appended. *)
Lemma py_get_absent d key dflt :
  items_get d key = None -> py_get (PDict d) key dflt = Ok dflt.
Proof. intros H. unfold py_get. rewrite H. reflexivity. Qed.

Lemma py_get_app_absent d key v dflt :
  items_get d key = None -> py_get (PDict (d ++ [(key, v)])) key dflt = Ok v.
Proof.
  intros H. unfold py_get. rewrite items_get_app, H, String.eqb_refl. reflexivity.
Qed.

Lemma discord_enforce_app cfg env d k v :
  k <> "banned_days" ->
  Discord.enforce cfg env (PDict (d ++ [(k, v)])) = Discord.enforce cfg env (PDict d).
Proof.
  intros H. unfold Discord.enforce, Discord.timeout_days.
  rewrite py_get_app_other by exact H. reflexivity.
Qed.

Lemma telegram_enforce_app cfg env d k v :
  k <> "banned_days" ->
  Telegram.enforce cfg env (PDict (d ++ [(k, v)])) = Telegram.enforce cfg env (PDict d).
Proof.
  intros H. unfold Telegram.enforce, Telegram.timeout_days.
  rewrite py_get_app_other by exact H. reflexivity.
Qed.

(** In the decision path of both bots an absent severity reads as
    ["LOW"]. *)
Lemma discord_act_on_absent_severity cfg env d :
  items_get d "severity" = None ->
  Discord.act_on cfg env (PDict d)
  = Discord.act_on cfg env (PDict (d ++ [("severity", PStr "LOW")])).
Proof.
  intros H. unfold Discord.act_on.
  rewrite !(py_get_app_other d "severity") by discriminate.
  rewrite (py_get_absent d "severity" _ H), (py_get_app_absent d "severity" _ _ H).
  rewrite discord_enforce_app by discriminate. reflexivity.
Qed.

Lemma telegram_act_on_absent_severity cfg env d :
  items_get d "severity" = None ->
  Telegram.act_on cfg env (PDict d)
  = Telegram.act_on cfg env (PDict (d ++ [("severity", PStr "LOW")])).
Proof.
  intros H. unfold Telegram.act_on.
  rewrite !(py_get_app_other d "severity") by discriminate.
  rewrite (py_get_absent d "severity" _ H), (py_get_app_absent d "severity" _ _ H).
  rewrite telegram_enforce_app by discriminate. reflexivity.
Qed.

End Defaults.

(** C5, as the claim states it, fails: in the decision path an absent
    severity is not read as ["UNKNOWN"]. With the shipped minimum LOW, a
    blocked verdict without severity gets the message deleted, while the
    same verdict with the severity ["UNKNOWN"] is let through; and the
    Telegram timeout reads an absent [banned_days] as the default number
    of days, where None would raise. *)
Lemma C5_absent_severity_counterexample :
  let cfg := Sample.discord_cfg "delete" [] [] in
  Discord.on_message cfg
    (Sample.discord_env (Sample.verdict [("status", "BLOCKED")]))
    Sample.guild_message Sample.discord_start
  = (Discord.mkState
       [Discord.post_moderation (mkPayload "I will find and hurt you" None None);
        Discord.message_delete]
       (Discord.configured "delete"), Ok tt)
  /\ Discord.on_message cfg
       (Sample.discord_env
          (Sample.verdict [("status", "BLOCKED"); ("severity", "UNKNOWN")]))
       Sample.guild_message Sample.discord_start
     = (Discord.mkState
          [Discord.post_moderation (mkPayload "I will find and hurt you" None None)]
          (Discord.configured ""), Ok tt)
  /\ Telegram.timeout_days Telegram.shipped (PDict [("status", PStr "BLOCKED")])
     = Ok (PInt 1)
  /\ Telegram.timeout_days Telegram.shipped
       (PDict [("status", PStr "BLOCKED"); ("banned_days", PNone)])
     = Raised TypeError.
Proof.
  cbv zeta. repeat split; vm_compute; reflexivity.
Qed.

(** C5, amended. Field by field, whatever else the verdict holds. For a
    verdict without the member [severity]: the result embed of the
    Discord bot and the report of the Telegram bot show the severity
    ["UNKNOWN"], and the decision path of both bots goes on as it does
    for the severity ["LOW"]. For a verdict without the member
    [banned_days]: the embed and the report show no suggested ban; the
    timeout of the Discord bot goes on as it does for [banned_days]
    None, which gives the default number of days; the timeout of the
    Telegram bot goes on as it does for [banned_days] equal to the
    default number of days. A verdict without the member [status] is let
    through by both bots. The embed and the report in question are those
    of a value that is no error. *)
Theorem C5_absent_fields_defaults (d : list (string * pyval)) :
  (items_get d "severity" = None ->
   (truthy (default PNone (items_get d "error")) = false ->
    (exists v, Discord.embed_values (PDict d) = Ok (Discord.result_embed v)
               /\ Discord.shown_severity v = PStr "UNKNOWN")
    /\ (exists st cat reason conf ban,
           Telegram.report_values (PDict d)
           = Ok (Telegram.result_report st (PStr "UNKNOWN") cat reason conf ban)))
   /\ (forall cfg env,
          Discord.act_on cfg env (PDict d)
          = Discord.act_on cfg env (PDict (d ++ [("severity", PStr "LOW")])))
   /\ (forall cfg env,
          Telegram.act_on cfg env (PDict d)
          = Telegram.act_on cfg env (PDict (d ++ [("severity", PStr "LOW")]))))
  /\ (items_get d "banned_days" = None ->
      (truthy (default PNone (items_get d "error")) = false ->
       (exists v, Discord.embed_values (PDict d) = Ok (Discord.result_embed v)
                  /\ Discord.shown_banned_days v = PNone)
       /\ (exists st sev cat reason conf,
              Telegram.report_values (PDict d)
              = Ok (Telegram.result_report st sev cat reason conf None)))
      /\ (forall cfg,
             Discord.timeout_days cfg (PDict d)
             = Discord.timeout_days cfg (PDict (d ++ [("banned_days", PNone)]))
             /\ Discord.timeout_days cfg (PDict d)
                = Ok (PInt (Discord.AUTO_MODERATE_DEFAULT_TIMEOUT_DAYS cfg)))
      /\ (forall cfg,
             Telegram.timeout_days cfg (PDict d)
             = Telegram.timeout_days cfg
                 (PDict (d ++ [("banned_days",
                                PInt (Telegram.AUTO_MODERATE_DEFAULT_TIMEOUT_DAYS
                                        cfg))]))))
  /\ (items_get d "status" = None ->
      (forall cfg env s, Discord.act_on cfg env (PDict d) s = (s, Ok tt))
      /\ (forall cfg env s, Telegram.act_on cfg env (PDict d) s = (s, Ok tt))).
Proof.
  split; [| split].
  - intros Hsev. split; [| split].
    + intros Herr. split.
      * unfold Discord.embed_values. rewrite Herr. eexists.
        split; [reflexivity |]. simpl. rewrite Hsev. reflexivity.
      * unfold Telegram.report_values. rewrite Herr, Hsev. simpl.
        repeat eexists.
    + intros cfg env. apply discord_act_on_absent_severity, Hsev.
    + intros cfg env. apply telegram_act_on_absent_severity, Hsev.
  - intros Hban. split; [| split].
    + intros Herr. split.
      * unfold Discord.embed_values. rewrite Herr. eexists.
        split; [reflexivity |]. simpl. rewrite Hban. reflexivity.
      * unfold Telegram.report_values. rewrite Herr, Hban. simpl.
        repeat eexists.
    + intros cfg. split.
      * unfold Discord.timeout_days.
        rewrite (py_get_absent d "banned_days" _ Hban),
                (py_get_app_absent d "banned_days" _ _ Hban). reflexivity.
      * apply discord_timeout_days_absent, Hban.
    + intros cfg. unfold Telegram.timeout_days.
      rewrite (py_get_absent d "banned_days" _ Hban),
              (py_get_app_absent d "banned_days" _ _ Hban). reflexivity.
  - intros Hst. split; intros cfg env s.
    + unfold Discord.act_on, py_get. rewrite bind_lift_ok. cbv beta.
      destruct (truthy _); [reflexivity |].
      rewrite !bind_lift_ok. cbv beta. rewrite Hst. reflexivity.
    + unfold Telegram.act_on, py_get. rewrite bind_lift_ok. cbv beta.
      destruct (truthy _); [reflexivity |].
      rewrite !bind_lift_ok. cbv beta. rewrite Hst. reflexivity.
Qed.

(** C5 at a verdict that lacks the severity alone, and at one that lacks
    the suggested ban alone. *)
Lemma C5_absent_fields_defaults_witness :
  ((exists v, Discord.embed_values
                (PDict [("status", PStr "BLOCKED"); ("banned_days", PInt 3)])
              = Ok (Discord.result_embed v)
              /\ Discord.shown_severity v = PStr "UNKNOWN")
   /\ (forall cfg env,
          Discord.act_on cfg env
            (PDict [("status", PStr "BLOCKED"); ("banned_days", PInt 3)])
          = Discord.act_on cfg env
              (PDict ([("status", PStr "BLOCKED"); ("banned_days", PInt 3)]
                      ++ [("severity", PStr "LOW")]))))
  /\ (forall cfg,
         Telegram.timeout_days cfg
           (PDict [("status", PStr "BLOCKED"); ("severity", PStr "HIGH")])
         = Telegram.timeout_days cfg
             (PDict ([("status", PStr "BLOCKED"); ("severity", PStr "HIGH")]
                     ++ [("banned_days",
                          PInt (Telegram.AUTO_MODERATE_DEFAULT_TIMEOUT_DAYS
                                  cfg))]))).
Proof.
  split.
  - pose proof (proj1 (C5_absent_fields_defaults
                         [("status", PStr "BLOCKED"); ("banned_days", PInt 3)])
                  eq_refl) as [H1 [H2 _]].
    split; [exact (proj1 (H1 eq_refl)) | exact H2].
  - exact (proj2 (proj2 (proj1 (proj2 (C5_absent_fields_defaults
                    [("status", PStr "BLOCKED"); ("severity", PStr "HIGH")]))
                    eq_refl))).
Defined.

(** ** An unrecognised severity in the handlers *)

(** C6, amended. Every severity string outside LOW, MEDIUM, HIGH,
    CRITICAL fails the threshold test of both bots, for every minimum
    that is one of these four; a verdict with such a severity is then
    let through: the handlers call nothing for it. *)
Theorem C6_unrecognised_severity_rejected (s min : string) :
  s <> "LOW" -> s <> "MEDIUM" -> s <> "HIGH" -> s <> "CRITICAL" ->
  min = "LOW" \/ min = "MEDIUM" \/ min = "HIGH" \/ min = "CRITICAL" ->
  severity_meets_threshold (PStr s) min = false
  /\ severity_below_threshold (PStr s) min = true
  /\ (forall cfg env d st,
         Discord.AUTO_MODERATE_MIN_SEVERITY cfg = min ->
         items_get d "severity" = Some (PStr s) ->
         Discord.act_on cfg env (PDict d) st = (st, Ok tt))
  /\ (forall cfg env d st,
         Telegram.AUTO_MODERATE_MIN_SEVERITY cfg = min ->
         items_get d "severity" = Some (PStr s) ->
         Telegram.act_on cfg env (PDict d) st = (st, Ok tt)).
Proof.
  intros H1 H2 H3 H4 Hmin.
  assert (Hm : severity_meets_threshold (PStr s) min = false).
  { rewrite severity_meets_threshold_rank, (spec_rank_unknown s H1 H2 H3 H4).
    pose proof (spec_rank_known min Hmin). apply Z.leb_gt. lia. }
  assert (Hb : severity_below_threshold (PStr s) min = true).
  { rewrite severity_below_threshold_rank, (spec_rank_unknown s H1 H2 H3 H4).
    pose proof (spec_rank_known min Hmin). apply Z.ltb_lt. lia. }
  split; [exact Hm | split; [exact Hb | split]].
  - intros cfg env d st Hcfg Hsev. unfold Discord.act_on, py_get.
    rewrite bind_lift_ok. cbv beta.
    destruct (truthy _); [reflexivity |].
    rewrite !bind_lift_ok. cbv beta. rewrite Hsev. simpl.
    destruct (Discord.status_blocks _); [| reflexivity]. simpl.
    rewrite Hcfg, Hm. reflexivity.
  - intros cfg env d st Hcfg Hsev. unfold Telegram.act_on, py_get.
    rewrite bind_lift_ok. cbv beta.
    destruct (truthy _); [reflexivity |].
    rewrite !bind_lift_ok. cbv beta. rewrite Hsev. simpl.
    destruct (Telegram.status_blocks _); [| reflexivity]. simpl.
    rewrite Hcfg, Hb. reflexivity.
Qed.

(** C6 at the severity UNKNOWN and the shipped minimum LOW. *)
Lemma C6_unrecognised_severity_rejected_witness :
  severity_meets_threshold (PStr "UNKNOWN") "LOW" = false
  /\ severity_below_threshold (PStr "UNKNOWN") "LOW" = true
  /\ Discord.act_on Discord.shipped (Sample.discord_env Failed)
       (PDict [("status", PStr "BLOCKED"); ("severity", PStr "UNKNOWN")])
       Sample.discord_start
     = (Sample.discord_start, Ok tt).
Proof.
  pose proof (C6_unrecognised_severity_rejected "UNKNOWN" "LOW")
    as [Hm [Hb [Hd _]]];
    [discriminate | discriminate | discriminate | discriminate
    | left; reflexivity |].
  split; [exact Hm | split; [exact Hb |]].
  apply Hd; reflexivity.
Defined.

(** * Further properties of the handlers *)

(** ** The handler as a composition of client and decision *)

Section Composition.

(** [on_message] skips the message, or posts it once and then acts on
    what the client returned; what the client raised it swallows. *)
Lemma discord_on_message_answer cfg env m s reply :
  (forall p, Discord.http env p = reply) ->
  Discord.on_message cfg env m s = (s, Ok tt)
  \/ exists p,
       Discord.on_message cfg env m s
       = match Discord.read_response reply with
         | Ok v =>
             Discord.act_on cfg env v
               (Discord.mkState (Discord.calls s ++ [Discord.post_moderation p])
                                (Discord.action_taken s))
         | Raised _ =>
             (Discord.mkState (Discord.calls s ++ [Discord.post_moderation p])
                              (Discord.action_taken s), Ok tt)
         end.
Proof.
  intros Hhttp. unfold Discord.on_message.
  repeat match goal with
         | |- context [if ?b then _ else _] =>
             destruct b; simpl; [ try (left; reflexivity) | try (left; reflexivity) ]
         | |- context [match Discord.guild m with _ => _ end] =>
             destruct (Discord.guild m); simpl; [| left; reflexivity ]
         end.
  all: right; eexists; unfold bind at 1; unfold try_except; unfold bind at 1;
    rewrite discord_call_nova_moderation_eq; cbv zeta; rewrite Hhttp;
    destruct (Discord.read_response reply); reflexivity.
Qed.

(** [handle_message] skips the update, fails on a message without
    author, or posts the text once and then acts on what the client
    returned; what the client raised goes on to the caller. *)
Lemma telegram_handle_message_answer cfg env um s reply :
  (forall p, Telegram.http env p = reply) ->
  Telegram.handle_message cfg env um s = (s, Ok tt)
  \/ Telegram.handle_message cfg env um s = (s, Raised AttributeError)
  \/ exists p,
       Telegram.handle_message cfg env um s
       = match Telegram.read_response reply with
         | Ok v => Telegram.act_on cfg env v (s ++ [Telegram.post_moderation p])
         | Raised e => (s ++ [Telegram.post_moderation p], Raised e)
         end.
Proof.
  intros Hhttp. unfold Telegram.handle_message.
  destruct (Telegram.AUTO_MODERATE_MESSAGES cfg); simpl; [| left; reflexivity].
  destruct um as [m |]; [| left; reflexivity].
  destruct (opt_truthy (Telegram.text_ m)); simpl; [| left; reflexivity].
  destruct (Telegram.from_user m); simpl; [| right; left; reflexivity].
  destruct (Telegram.chat_not_allowed cfg m); [left; reflexivity |].
  right; right. eexists. unfold bind at 1.
  rewrite telegram_call_nova_moderation_eq. cbv zeta. rewrite Hhttp.
  destruct (Telegram.read_response reply); reflexivity.
Qed.

End Composition.

(** ** Verdicts the handlers let through *)

Section Passing.

Lemma status_blocks_false (v : pyval) :
  v <> PStr "BLOCKED" -> v <> PStr "DISALLOWED" -> Discord.status_blocks v = false.
Proof.
  intros H1 H2. destruct v; try reflexivity. simpl.
  destruct (String.eqb_spec s "BLOCKED"); [congruence |].
  destruct (String.eqb_spec s "DISALLOWED"); [congruence | reflexivity].
Qed.

(** A verdict [act_on] does nothing with costs one call to the API. *)
Lemma discord_on_message_passes cfg env m s text v :
  (forall p, Discord.http env p = Responded (mkResponse 200 text (Some v))) ->
  (forall s', Discord.act_on cfg env v s' = (s', Ok tt)) ->
  exists l,
    Discord.on_message cfg env m s
    = (Discord.mkState (Discord.calls s ++ l) (Discord.action_taken s), Ok tt)
    /\ Forall (fun c => exists p, c = Discord.post_moderation p) l.
Proof.
  intros Hhttp Hact.
  destruct (discord_on_message_answer cfg env m s _ Hhttp) as [E | [p E]];
    rewrite E.
  - exists []. rewrite app_nil_r. destruct s. split; [reflexivity | constructor].
  - simpl. rewrite Hact. exists [Discord.post_moderation p].
    split; [reflexivity | repeat constructor; eexists; reflexivity].
Qed.

Lemma telegram_handle_message_passes cfg env um s text v :
  (forall p, Telegram.http env p = Responded (mkResponse 200 text (Some v))) ->
  (forall s', Telegram.act_on cfg env v s' = (s', Ok tt)) ->
  exists l,
    fst (Telegram.handle_message cfg env um s) = s ++ l
    /\ Forall (fun c => exists p, c = Telegram.post_moderation p) l.
Proof.
  intros Hhttp Hact.
  destruct (telegram_handle_message_answer cfg env um s _ Hhttp)
    as [E | [E | [p E]]]; rewrite E.
  - exists []. rewrite app_nil_r. split; [reflexivity | constructor].
  - exists []. rewrite app_nil_r. split; [reflexivity | constructor].
  - simpl. rewrite Hact. exists [Telegram.post_moderation p].
    split; [reflexivity | repeat constructor; eexists; reflexivity].
Qed.

End Passing.

(** X1. A verdict whose status is absent, or is anything but the strings
    BLOCKED and DISALLOWED, is let through by both bots whatever its
    severity: the decision calls nothing, and the handler as a whole
    calls nothing but the API. *)
Theorem X1_unblocked_status_is_let_through (d : list (string * pyval)) :
  (forall v, items_get d "status" = Some v ->
             v <> PStr "BLOCKED" /\ v <> PStr "DISALLOWED") ->
  (forall cfg env s, Discord.act_on cfg env (PDict d) s = (s, Ok tt))
  /\ (forall cfg env s, Telegram.act_on cfg env (PDict d) s = (s, Ok tt))
  /\ (forall cfg env m s text,
         (forall p, Discord.http env p
                    = Responded (mkResponse 200 text (Some (PDict d)))) ->
         exists l,
           Discord.on_message cfg env m s
           = (Discord.mkState (Discord.calls s ++ l) (Discord.action_taken s), Ok tt)
           /\ Forall (fun c => exists p, c = Discord.post_moderation p) l)
  /\ (forall cfg env um s text,
         (forall p, Telegram.http env p
                    = Responded (mkResponse 200 text (Some (PDict d)))) ->
         exists l,
           fst (Telegram.handle_message cfg env um s) = s ++ l
           /\ Forall (fun c => exists p, c = Telegram.post_moderation p) l).
Proof.
  intros H.
  assert (Hb : Discord.status_blocks
                 (default (PStr "ALLOWED") (items_get d "status")) = false).
  { destruct (items_get d "status") as [v |] eqn:E; simpl; [| reflexivity].
    destruct (H v eq_refl). apply status_blocks_false; assumption. }
  assert (Hd : forall cfg env s, Discord.act_on cfg env (PDict d) s = (s, Ok tt)).
  { intros cfg env s. unfold Discord.act_on, py_get.
    rewrite bind_lift_ok. cbv beta. destruct (truthy _); [reflexivity |].
    rewrite !bind_lift_ok. cbv beta. rewrite Hb. reflexivity. }
  assert (Ht : forall cfg env s, Telegram.act_on cfg env (PDict d) s = (s, Ok tt)).
  { intros cfg env s. unfold Telegram.act_on, py_get.
    rewrite bind_lift_ok. cbv beta. destruct (truthy _); [reflexivity |].
    rewrite !bind_lift_ok. cbv beta.
    change Telegram.status_blocks with Discord.status_blocks.
    rewrite Hb. reflexivity. }
  split; [exact Hd | split; [exact Ht | split]].
  - intros cfg env m s text Hhttp.
    eapply discord_on_message_passes; [exact Hhttp | apply Hd].
  - intros cfg env um s text Hhttp.
    eapply telegram_handle_message_passes; [exact Hhttp | apply Ht].
Qed.

(** X1 at a verdict ALLOWED with the severity CRITICAL. *)
Lemma X1_unblocked_status_is_let_through_witness :
  Discord.act_on (Sample.discord_cfg "ban" [] []) (Sample.discord_env Failed)
    (PDict [("status", PStr "ALLOWED"); ("severity", PStr "CRITICAL")])
    Sample.discord_start
  = (Sample.discord_start, Ok tt).
Proof.
  refine (proj1 (X1_unblocked_status_is_let_through
                   [("status", PStr "ALLOWED"); ("severity", PStr "CRITICAL")] _)
            _ _ _).
  intros v E. injection E as <-. split; discriminate.
Defined.

(** X2. A blocked verdict whose severity ranks below the configured
    minimum is let through by both bots; an absent severity counts as
    LOW. *)
Theorem X2_severity_below_minimum_is_let_through
    (d : list (string * pyval)) (severity : string) :
  items_get d "severity" = Some (PStr severity)
  \/ (items_get d "severity" = None /\ severity = "LOW") ->
  (forall cfg env s,
      spec_rank severity < spec_rank (Discord.AUTO_MODERATE_MIN_SEVERITY cfg) ->
      Discord.act_on cfg env (PDict d) s = (s, Ok tt))
  /\ (forall cfg env s,
         spec_rank severity < spec_rank (Telegram.AUTO_MODERATE_MIN_SEVERITY cfg) ->
         Telegram.act_on cfg env (PDict d) s = (s, Ok tt)).
Proof.
  intros H.
  assert (Hs : default (PStr "LOW") (items_get d "severity") = PStr severity).
  { destruct H as [-> | [-> ->]]; reflexivity. }
  split.
  - intros cfg env s Hr. unfold Discord.act_on, py_get.
    rewrite bind_lift_ok. cbv beta. destruct (truthy _); [reflexivity |].
    rewrite !bind_lift_ok. cbv beta. rewrite Hs.
    destruct (Discord.status_blocks _); [| reflexivity]. simpl.
    rewrite severity_meets_threshold_rank.
    apply Z.leb_gt in Hr. rewrite Hr. reflexivity.
  - intros cfg env s Hr. unfold Telegram.act_on, py_get.
    rewrite bind_lift_ok. cbv beta. destruct (truthy _); [reflexivity |].
    rewrite !bind_lift_ok. cbv beta. rewrite Hs.
    destruct (Telegram.status_blocks _); [| reflexivity]. simpl.
    rewrite severity_below_threshold_rank.
    apply Z.ltb_lt in Hr. rewrite Hr. reflexivity.
Qed.

(** X2 at the example of the specification: HIGH under the minimum
    CRITICAL. *)
Lemma X2_severity_below_minimum_is_let_through_witness :
  Discord.act_on
    (Discord.mkConfig true true true "timeout" 1 28 None "CRITICAL" true [] [] [] [])
    (Sample.discord_env Failed)
    (PDict [("status", PStr "BLOCKED"); ("severity", PStr "HIGH");
            ("banned_days", PInt 3)])
    Sample.discord_start
  = (Sample.discord_start, Ok tt).
Proof.
  refine (proj1 (X2_severity_below_minimum_is_let_through
                   [("status", PStr "BLOCKED"); ("severity", PStr "HIGH");
                    ("banned_days", PInt 3)] "HIGH" _) _ _ _ _).
  - left. reflexivity.
  - vm_compute. reflexivity.
Defined.

(** ** Failures around the handlers *)

(** X3. When the request to the API itself fails, the Discord handler
    swallows the exception and returns with at most the request made; the
    Telegram handler lets the exception out, with the request made and
    nothing else. *)
Theorem X3_failed_request_enforces_nothing :
  (forall cfg env m s,
      (forall p, Discord.http env p = Failed) ->
      exists l,
        Discord.on_message cfg env m s
        = (Discord.mkState (Discord.calls s ++ l) (Discord.action_taken s), Ok tt)
        /\ Forall (fun c => exists p, c = Discord.post_moderation p) l)
  /\ (forall cfg env um s,
         (forall p, Telegram.http env p = Failed) ->
         Telegram.handle_message cfg env um s = (s, Ok tt)
         \/ Telegram.handle_message cfg env um s = (s, Raised AttributeError)
         \/ exists p,
              Telegram.handle_message cfg env um s
              = (s ++ [Telegram.post_moderation p], Raised ClientError)).
Proof.
  split.
  - intros cfg env m s Hhttp.
    destruct (discord_on_message_answer cfg env m s _ Hhttp) as [E | [p E]];
      rewrite E.
    + exists []. rewrite app_nil_r. destruct s. split; [reflexivity | constructor].
    + exists [Discord.post_moderation p].
      split; [reflexivity | repeat constructor; eexists; reflexivity].
  - intros cfg env um s Hhttp.
    destruct (telegram_handle_message_answer cfg env um s _ Hhttp)
      as [E | [E | [p E]]]; auto.
    right; right. exists p. exact E.
Qed.

(** X3 at a guild message and a chat message. *)
Lemma X3_failed_request_enforces_nothing_witness :
  (exists l,
      Discord.on_message (Sample.discord_cfg "ban" [] [])
        (Sample.discord_env Failed) Sample.guild_message Sample.discord_start
      = (Discord.mkState (Discord.calls Sample.discord_start ++ l)
                         (Discord.action_taken Sample.discord_start), Ok tt)
      /\ Forall (fun c => exists p, c = Discord.post_moderation p) l).
Proof.
  apply (proj1 X3_failed_request_enforces_nothing). intros p. reflexivity.
Defined.

Section Swallowing.

Lemma telegram_except_exception_ok m s :
  snd (Telegram.except_exception m s) = Ok tt.
Proof.
  unfold Telegram.except_exception, try_except.
  destruct (m s) as [s' [[] | e]]; reflexivity.
Qed.

Lemma telegram_attempt_eq env c s :
  Telegram.attempt env c s
  = (s ++ [c], match Telegram.platform env c with
               | Some e => Raised e
               | None => Ok tt
               end).
Proof.
  unfold Telegram.attempt, bind, Telegram.record.
  destruct (Telegram.platform env c); reflexivity.
Qed.

Lemma discord_attempt_eq env c s :
  Discord.attempt env c s
  = (Discord.mkState (Discord.calls s ++ [c]) (Discord.action_taken s),
     match Discord.platform env c with
     | Some e => Raised e
     | None => Ok tt
     end).
Proof.
  unfold Discord.attempt, bind, Discord.record.
  destruct (Discord.platform env c); reflexivity.
Qed.

End Swallowing.

(** X4. Once the client has returned a dict whose severity can be looked
    up, the Telegram handler never raises: whatever the platform answers
    to the deletion, the notice, the mute or the ban, and whatever
    [banned_days] holds, the exception is caught. *)
Theorem X4_telegram_enforcement_never_raises
    (cfg : Telegram.Config) (env : Telegram.Env) (d : list (string * pyval))
    (s : Telegram.State) :
  unhashable (default (PStr "LOW") (items_get d "severity")) = false ->
  snd (Telegram.act_on cfg env (PDict d) s) = Ok tt.
Proof.
  intros H. unfold Telegram.act_on, py_get.
  rewrite bind_lift_ok. cbv beta. destruct (truthy _); [reflexivity |].
  rewrite !bind_lift_ok. cbv beta. rewrite H.
  destruct (Telegram.status_blocks _); [| reflexivity]. simpl.
  destruct (severity_below_threshold _ _); [reflexivity |].
  apply telegram_except_exception_ok.
Qed.

(** X4 at a ban the platform refuses. *)
Lemma X4_telegram_enforcement_never_raises_witness :
  snd (Telegram.act_on (Sample.telegram_cfg "ban" [])
         (Telegram.mkEnv Missing Missing (fun _ => Failed)
            (fun _ => Some TelegramError) (fun _ => false))
         (PDict [("status", PStr "BLOCKED"); ("severity", PStr "HIGH")]) [])
  = Ok tt.
Proof.
  apply X4_telegram_enforcement_never_raises. reflexivity.
Defined.

(** X5. In the Telegram bot the deletion comes first for the actions
    delete, delete_and_warn, timeout and ban, and a deletion the platform
    refuses ends the enforcement: no notice is sent, and the author is
    neither muted nor banned. *)
Theorem X5_telegram_failed_deletion_ends_enforcement
    (cfg : Telegram.Config) (env : Telegram.Env) (result : pyval)
    (s : Telegram.State) (e : exn) :
  Telegram.AUTO_MODERATE_ACTION cfg = "delete"
  \/ Telegram.AUTO_MODERATE_ACTION cfg = "delete_and_warn"
  \/ Telegram.AUTO_MODERATE_ACTION cfg = "timeout"
  \/ Telegram.AUTO_MODERATE_ACTION cfg = "ban" ->
  Telegram.platform env Telegram.message_delete = Some e ->
  Telegram.enforce cfg env result s = (s ++ [Telegram.message_delete], Raised e).
Proof.
  intros Hact Hdel. unfold Telegram.enforce, Telegram.deletes.
  destruct Hact as [-> | [-> | [-> | ->]]]; decide_action; cbn [orb]; cbv iota;
    unfold bind at 1; rewrite telegram_attempt_eq, Hdel; reflexivity.
Qed.

(** X5 at a ban whose deletion the platform refuses. *)
Lemma X5_telegram_failed_deletion_ends_enforcement_witness :
  Telegram.enforce (Sample.telegram_cfg "ban" [])
    (Telegram.mkEnv Missing Missing (fun _ => Failed)
       (fun c => match c with
                 | Telegram.message_delete => Some TelegramError
                 | _ => None
                 end) (fun _ => false))
    (PDict [("status", PStr "BLOCKED")]) []
  = ([Telegram.message_delete], Raised TelegramError).
Proof.
  apply (X5_telegram_failed_deletion_ends_enforcement
           (Sample.telegram_cfg "ban" []) _ _ [] TelegramError).
  - right; right; right. reflexivity.
  - reflexivity.
Defined.

(** ** The side effects of the Discord actions *)

Section DiscordEffects.

Lemma discord_except_forbidden_attempt_eq env c s :
  Discord.except_forbidden (Discord.attempt env c) s
  = (Discord.mkState (Discord.calls s ++ [c]) (Discord.action_taken s),
     match Discord.platform env c with
     | None | Some Forbidden => Ok tt
     | Some e => Raised e
     end).
Proof.
  unfold Discord.except_forbidden, try_except. rewrite discord_attempt_eq.
  destruct (Discord.platform env c) as [[] |]; reflexivity.
Qed.

Lemma discord_except_not_found_attempt_eq env c s :
  Discord.except_not_found (Discord.attempt env c) s
  = (Discord.mkState (Discord.calls s ++ [c]) (Discord.action_taken s),
     match Discord.platform env c with
     | None | Some NotFound => Ok tt
     | Some e => Raised e
     end).
Proof.
  unfold Discord.except_not_found, try_except. rewrite discord_attempt_eq.
  destruct (Discord.platform env c) as [[] |]; reflexivity.
Qed.

Lemma discord_except_exception_attempt_eq env c s :
  Discord.except_exception (Discord.attempt env c) s
  = (Discord.mkState (Discord.calls s ++ [c]) (Discord.action_taken s), Ok tt).
Proof.
  unfold Discord.except_exception, try_except. rewrite discord_attempt_eq.
  destruct (Discord.platform env c); reflexivity.
Qed.

(** The notices and the deletion that end the branches delete_and_warn
    and timeout. *)
Lemma discord_notices_then_delete env s :
  Discord.platform env Discord.author_send = None
  \/ Discord.platform env Discord.author_send = Some Forbidden ->
  bind (Discord.except_forbidden (Discord.attempt env Discord.author_send))
       (fun _ => bind (Discord.except_exception
                         (Discord.attempt env Discord.channel_send))
                      (fun _ => Discord.attempt env Discord.message_delete)) s
  = (Discord.mkState
       (Discord.calls s
        ++ [Discord.author_send; Discord.channel_send; Discord.message_delete])
       (Discord.action_taken s),
     match Discord.platform env Discord.message_delete with
     | Some e => Raised e
     | None => Ok tt
     end).
Proof.
  intros H. unfold bind at 1. rewrite discord_except_forbidden_attempt_eq.
  assert (E : match Discord.platform env Discord.author_send with
              | None | Some Forbidden => @Ok unit tt
              | Some e => Raised e
              end = Ok tt) by (destruct H as [-> | ->]; reflexivity).
  rewrite E. unfold bind at 1. rewrite discord_except_exception_attempt_eq.
  rewrite discord_attempt_eq. simpl. rewrite <- !app_assoc. reflexivity.
Qed.

End DiscordEffects.

(** X6. With the action delete_and_warn the Discord bot sends the direct
    message, then the notice in the channel, then deletes the message:
    when the direct message goes through or is forbidden, all three are
    attempted whatever becomes of the notice, and the outcome is that of
    the deletion. *)
Theorem X6_discord_delete_and_warn_effects
    (cfg : Discord.Config) (env : Discord.Env) (result : pyval)
    (s : Discord.State) :
  Discord.AUTO_MODERATE_ACTION cfg = "delete_and_warn" ->
  Discord.platform env Discord.author_send = None
  \/ Discord.platform env Discord.author_send = Some Forbidden ->
  Discord.enforce cfg env result s
  = (Discord.mkState
       (Discord.calls s
        ++ [Discord.author_send; Discord.channel_send; Discord.message_delete])
       (Discord.action_taken s),
     match Discord.platform env Discord.message_delete with
     | Some e => Raised e
     | None => Ok tt
     end).
Proof.
  intros Hact H. unfold Discord.enforce. rewrite Hact. decide_action.
  apply discord_notices_then_delete, H.
Qed.

(** X6 with direct messages closed and a channel the bot cannot write
    to. *)
Lemma X6_discord_delete_and_warn_effects_witness :
  Discord.enforce Discord.shipped
    (Discord.mkEnv Missing Missing (fun _ => Failed)
       (fun c => match c with
                 | Discord.author_send | Discord.channel_send => Some Forbidden
                 | _ => None
                 end) false)
    (PDict [("status", PStr "BLOCKED")]) Sample.discord_start
  = (Discord.mkState
       [Discord.author_send; Discord.channel_send; Discord.message_delete]
       (Discord.configured ""), Ok tt).
Proof.
  apply (X6_discord_delete_and_warn_effects Discord.shipped).
  - reflexivity.
  - right. reflexivity.
Defined.

(** The calls of the ban branch. *)
Lemma discord_enforce_ban_effects
    (cfg : Discord.Config) (env : Discord.Env) (result : pyval)
    (s : Discord.State) :
  Discord.AUTO_MODERATE_ACTION cfg = "ban" ->
  Discord.platform env Discord.author_ban = None
  \/ Discord.platform env Discord.author_ban = Some Forbidden ->
  Discord.platform env Discord.author_send = None
  \/ Discord.platform env Discord.author_send = Some Forbidden ->
  Discord.enforce cfg env result s
  = (Discord.mkState
       (Discord.calls s
        ++ [Discord.author_ban; Discord.author_send; Discord.channel_send;
            Discord.message_delete])
       (Discord.action_taken s),
     match Discord.platform env Discord.message_delete with
     | None | Some NotFound => Ok tt
     | Some e => Raised e
     end).
Proof.
  intros Hact Hban Hsend. unfold Discord.enforce. rewrite Hact. decide_action.
  unfold bind at 1. rewrite discord_except_forbidden_attempt_eq.
  assert (Eb : match Discord.platform env Discord.author_ban with
               | None | Some Forbidden => @Ok unit tt
               | Some e => Raised e
               end = Ok tt) by (destruct Hban as [-> | ->]; reflexivity).
  rewrite Eb. unfold bind at 1. rewrite discord_except_forbidden_attempt_eq.
  assert (Es : match Discord.platform env Discord.author_send with
               | None | Some Forbidden => @Ok unit tt
               | Some e => Raised e
               end = Ok tt) by (destruct Hsend as [-> | ->]; reflexivity).
  rewrite Es. unfold bind at 1. rewrite discord_except_exception_attempt_eq.
  rewrite discord_except_not_found_attempt_eq. simpl.
  rewrite <- !app_assoc. reflexivity.
Qed.

(** X7. With the action ban the Discord bot bans, sends the direct
    message, sends the notice and deletes the message, in this order:
    when the ban and the direct message go through or are forbidden, all
    four are attempted, and a message that is already gone counts as
    deleted. *)
Theorem X7_discord_ban_effects
    (cfg : Discord.Config) (env : Discord.Env) (result : pyval)
    (s : Discord.State) :
  Discord.AUTO_MODERATE_ACTION cfg = "ban" ->
  Discord.platform env Discord.author_ban = None
  \/ Discord.platform env Discord.author_ban = Some Forbidden ->
  Discord.platform env Discord.author_send = None
  \/ Discord.platform env Discord.author_send = Some Forbidden ->
  Discord.enforce cfg env result s
  = (Discord.mkState
       (Discord.calls s
        ++ [Discord.author_ban; Discord.author_send; Discord.channel_send;
            Discord.message_delete])
       (Discord.action_taken s),
     match Discord.platform env Discord.message_delete with
     | None | Some NotFound => Ok tt
     | Some e => Raised e
     end).
Proof.
  apply discord_enforce_ban_effects.
Qed.

(** X7 with a message that is gone before the bot deletes it. *)
Lemma X7_discord_ban_effects_witness :
  Discord.enforce (Sample.discord_cfg "ban" [] [])
    (Discord.mkEnv Missing Missing (fun _ => Failed)
       (fun c => match c with
                 | Discord.message_delete => Some NotFound
                 | _ => None
                 end) false)
    (PDict [("status", PStr "BLOCKED")]) Sample.discord_start
  = (Discord.mkState
       [Discord.author_ban; Discord.author_send; Discord.channel_send;
        Discord.message_delete]
       (Discord.configured ""), Ok tt).
Proof.
  apply (X7_discord_ban_effects (Sample.discord_cfg "ban" [] [])).
  - reflexivity.
  - left. reflexivity.
  - left. reflexivity.
Defined.

(** The calls and the label of the timeout branch. *)
Lemma discord_enforce_timeout_effects
    (cfg : Discord.Config) (env : Discord.Env) (result : pyval)
    (s : Discord.State) (v : pyval) :
  Discord.AUTO_MODERATE_ACTION cfg = "timeout" ->
  Discord.timeout_days cfg result = Ok v ->
  timedelta_days v = Ok v ->
  Discord.platform env (Discord.author_timeout v) = None
  \/ Discord.platform env (Discord.author_timeout v) = Some Forbidden ->
  Discord.platform env Discord.author_send = None
  \/ Discord.platform env Discord.author_send = Some Forbidden ->
  Discord.enforce cfg env result s
  = (Discord.mkState
       (Discord.calls s
        ++ [Discord.author_timeout v; Discord.author_send; Discord.channel_send;
            Discord.message_delete])
       (match Discord.platform env (Discord.author_timeout v) with
        | None => Discord.timed_out v
        | Some _ => Discord.action_taken s
        end),
     match Discord.platform env Discord.message_delete with
     | Some e => Raised e
     | None => Ok tt
     end).
Proof.
  intros Hact Hdays Hdelta Htime Hsend.
  unfold Discord.enforce. rewrite Hact. decide_action.
  rewrite Hdays, bind_lift_ok. cbv beta. rewrite Hdelta, bind_lift_ok. cbv beta.
  unfold bind at 1. unfold Discord.except_forbidden at 1, try_except.
  unfold bind at 1. rewrite discord_attempt_eq.
  destruct Htime as [E | E]; rewrite E; cbv iota beta.
  - unfold Discord.set_action_taken. cbv iota beta.
    rewrite (discord_notices_then_delete env _ Hsend). simpl.
    rewrite <- !app_assoc. reflexivity.
  - unfold ret at 1. cbv iota beta.
    rewrite (discord_notices_then_delete env _ Hsend). simpl.
    rewrite <- !app_assoc. reflexivity.
Qed.

(** X8. With the action timeout the Discord bot asks for the timeout
    with the duration it computed, sends the direct message, sends the
    notice and deletes the message, in this order, when the timeout and
    the direct message go through or are forbidden; [action_taken]
    becomes the label with the duration exactly when the timeout went
    through. *)
Theorem X8_discord_timeout_effects
    (cfg : Discord.Config) (env : Discord.Env) (result : pyval)
    (s : Discord.State) (v : pyval) :
  Discord.AUTO_MODERATE_ACTION cfg = "timeout" ->
  Discord.timeout_days cfg result = Ok v ->
  timedelta_days v = Ok v ->
  Discord.platform env (Discord.author_timeout v) = None
  \/ Discord.platform env (Discord.author_timeout v) = Some Forbidden ->
  Discord.platform env Discord.author_send = None
  \/ Discord.platform env Discord.author_send = Some Forbidden ->
  Discord.enforce cfg env result s
  = (Discord.mkState
       (Discord.calls s
        ++ [Discord.author_timeout v; Discord.author_send; Discord.channel_send;
            Discord.message_delete])
       (match Discord.platform env (Discord.author_timeout v) with
        | None => Discord.timed_out v
        | Some _ => Discord.action_taken s
        end),
     match Discord.platform env Discord.message_delete with
     | Some e => Raised e
     | None => Ok tt
     end).
Proof.
  apply discord_enforce_timeout_effects.
Qed.

(** X8 at three suggested days, all calls going through. *)
Lemma X8_discord_timeout_effects_witness :
  Discord.enforce (Sample.discord_cfg "timeout" [] [])
    (Sample.discord_env Failed)
    (PDict [("status", PStr "BLOCKED"); ("banned_days", PInt 3)])
    Sample.discord_start
  = (Discord.mkState
       [Discord.author_timeout (PInt 3); Discord.author_send;
        Discord.channel_send; Discord.message_delete]
       (Discord.timed_out (PInt 3)), Ok tt).
Proof.
  apply (X8_discord_timeout_effects (Sample.discord_cfg "timeout" [] [])
           (Sample.discord_env Failed) _ Sample.discord_start (PInt 3)).
  - reflexivity.
  - reflexivity.
  - reflexivity.
  - left. reflexivity.
  - left. reflexivity.
Defined.

Section Logging.

(** What [act_on] does with a verdict it acts on: it enforces, and then
    posts to the log channel unless the enforcement was forbidden. *)
Lemma discord_act_on_acting cfg env d severity s :
  truthy (default PNone (items_get d "error")) = false ->
  Discord.status_blocks (default (PStr "ALLOWED") (items_get d "status")) = true ->
  default (PStr "LOW") (items_get d "severity") = PStr severity ->
  spec_rank (Discord.AUTO_MODERATE_MIN_SEVERITY cfg) <= spec_rank severity ->
  Discord.act_on cfg env (PDict d) s
  = let run := Discord.enforce cfg env (PDict d)
                 (Discord.mkState (Discord.calls s)
                    (Discord.configured (Discord.AUTO_MODERATE_ACTION cfg))) in
    match snd run with
    | Ok _ | Raised NotFound => Discord.log_alert cfg env (fst run)
    | Raised Forbidden => (fst run, Ok tt)
    | Raised e => (fst run, Raised e)
    end.
Proof.
  intros Herr Hst Hsev Hrank. unfold Discord.act_on, py_get.
  rewrite bind_lift_ok. cbv beta. rewrite Herr.
  rewrite !bind_lift_ok. cbv beta. rewrite Hst, Hsev. simpl.
  rewrite severity_meets_threshold_rank.
  apply Z.leb_le in Hrank. rewrite Hrank. simpl.
  unfold bind at 1. unfold Discord.set_action_taken at 1.
  unfold bind at 1. unfold try_except. unfold bind at 1.
  destruct (Discord.enforce cfg env (PDict d) _) as [s2 [[] | e]]; simpl;
    [reflexivity |].
  destruct e; reflexivity.
Qed.

(** The post to the log channel never raises, and adds at most the
    alert. *)
Lemma discord_log_alert_eq cfg env s :
  exists l,
    Discord.log_alert cfg env s
    = (Discord.mkState (Discord.calls s ++ l) (Discord.action_taken s), Ok tt)
    /\ (l = [] \/ l = [Discord.log_channel_send (Discord.action_taken s)]).
Proof.
  unfold Discord.log_alert.
  assert (Hs : (s, @Ok unit tt)
               = (Discord.mkState (Discord.calls s ++ []) (Discord.action_taken s),
                  Ok tt)) by (rewrite app_nil_r; destruct s; reflexivity).
  destruct (Discord.AUTO_MODERATE_LOG_CHANNEL_ID cfg) as [id |];
    [| exists []; split; [exact Hs | left; reflexivity]].
  destruct (negb (id =? 0) && Discord.log_channel_found env);
    [| exists []; split; [exact Hs | left; reflexivity]].
  exists [Discord.log_channel_send (Discord.action_taken s)].
  split; [| right; reflexivity].
  unfold Discord.except_exception, try_except, bind, Discord.get_action_taken.
  rewrite discord_attempt_eq.
  destruct (Discord.platform env _); reflexivity.
Qed.

End Logging.

(** X9. For a verdict the Discord bot acts on (no error member, status
    BLOCKED or DISALLOWED, a severity at or above the minimum): when the
    enforcement ends on a missing permission the handler returns at once
    and nothing is posted to the log channel; when it goes through, or
    ends on a message already gone, the handler goes on to the log
    channel; and the post to the log channel never raises. *)
Theorem X9_discord_forbidden_skips_the_log
    (cfg : Discord.Config) (env : Discord.Env) (d : list (string * pyval))
    (severity : string) (s : Discord.State) :
  items_get d "error" = None ->
  items_get d "status" = Some (PStr "BLOCKED")
  \/ items_get d "status" = Some (PStr "DISALLOWED") ->
  items_get d "severity" = Some (PStr severity) ->
  spec_rank (Discord.AUTO_MODERATE_MIN_SEVERITY cfg) <= spec_rank severity ->
  let run := Discord.enforce cfg env (PDict d)
               (Discord.mkState (Discord.calls s)
                  (Discord.configured (Discord.AUTO_MODERATE_ACTION cfg))) in
  (snd run = Raised Forbidden ->
   Discord.act_on cfg env (PDict d) s = (fst run, Ok tt))
  /\ (snd run = Ok tt \/ snd run = Raised NotFound ->
      Discord.act_on cfg env (PDict d) s = Discord.log_alert cfg env (fst run))
  /\ (forall s2, snd (Discord.log_alert cfg env s2) = Ok tt).
Proof.
  intros Herr Hst Hsev Hrank run.
  assert (E := discord_act_on_acting cfg env d severity s).
  rewrite Herr, Hsev in E. cbv zeta in E. fold run in E.
  assert (Hb : Discord.status_blocks
                 (default (PStr "ALLOWED") (items_get d "status")) = true)
    by (destruct Hst as [-> | ->]; reflexivity).
  specialize (E eq_refl Hb eq_refl Hrank).
  split; [| split].
  - intros H. rewrite E, H. reflexivity.
  - intros [H | H]; rewrite E, H; reflexivity.
  - intros s2. destruct (discord_log_alert_eq cfg env s2) as [l [El _]].
    rewrite El. reflexivity.
Qed.

(** X9 at a deletion the bot has no permission for, a log channel being
    set and found. *)
Lemma X9_discord_forbidden_skips_the_log_witness :
  Discord.act_on
    (Discord.mkConfig true true true "delete" 1 28 (Some 77) "LOW" true [] [] [] [])
    (Discord.mkEnv Missing Missing (fun _ => Failed)
       (fun c => match c with
                 | Discord.message_delete => Some Forbidden
                 | _ => None
                 end) true)
    (PDict [("status", PStr "BLOCKED"); ("severity", PStr "HIGH")])
    Sample.discord_start
  = (Discord.mkState [Discord.message_delete] (Discord.configured "delete"), Ok tt).
Proof.
  refine (proj1 (X9_discord_forbidden_skips_the_log
                   (Discord.mkConfig true true true "delete" 1 28 (Some 77) "LOW"
                                     true [] [] [] [])
                   _ [("status", PStr "BLOCKED"); ("severity", PStr "HIGH")]
                   "HIGH" Sample.discord_start _ _ _ _) _).
  - reflexivity.
  - left. reflexivity.
  - reflexivity.
  - vm_compute. discriminate.
  - reflexivity.
Defined.

(** X10. An action that is none of delete, warn, delete_and_warn,
    timeout and ban enforces nothing in either bot: so it is for log,
    which the Discord bot names, and for any string the bots do not
    know. *)
Theorem X10_other_actions_enforce_nothing (action : string) :
  action <> "delete" -> action <> "warn" -> action <> "delete_and_warn" ->
  action <> "timeout" -> action <> "ban" ->
  (forall cfg env result s,
      Discord.AUTO_MODERATE_ACTION cfg = action ->
      Discord.enforce cfg env result s = (s, Ok tt))
  /\ (forall cfg env result s,
         Telegram.AUTO_MODERATE_ACTION cfg = action ->
         Telegram.enforce cfg env result s = (s, Ok tt)).
Proof.
  intros H1 H2 H3 H4 H5.
  apply String.eqb_neq in H1, H2, H3, H4, H5. split.
  - intros cfg env result s E. unfold Discord.enforce. cbv zeta.
    rewrite E, H1, H2, H3, H4, H5.
    destruct (String.eqb action "log"); reflexivity.
  - intros cfg env result s E. unfold Telegram.enforce, Telegram.deletes.
    cbv zeta. rewrite E, H1, H2, H3, H4, H5. reflexivity.
Qed.

(** X10 at the action mute, which the Telegram configuration mentions. *)
Lemma X10_other_actions_enforce_nothing_witness :
  Telegram.enforce (Sample.telegram_cfg "mute" []) (Sample.telegram_env Failed)
    (PDict [("status", PStr "BLOCKED")]) []
  = ([], Ok tt).
Proof.
  refine (proj2 (X10_other_actions_enforce_nothing "mute" _ _ _ _ _) _ _ _ _ _);
    try discriminate.
  reflexivity.
Defined.

Section Cap.

Lemma le_int_refl (m : Z) : le_int (finite (inject_Z m)) m = true.
Proof.
  unfold le_int. destruct (Qlt_le_dec _ _) as [H | H]; [| reflexivity].
  exfalso. exact (Qlt_irrefl _ H).
Qed.

(** [min(a, m)] on a number other than NaN is a number of at most [m],
    and is [a] itself when [a] is at most [m]. *)
Lemma py_min_int_capped (a : pyval) (m : Z) (n : number) :
  as_number a = Some n -> n <> nan ->
  exists v n',
    py_min_int a m = Ok v /\ as_number v = Some n'
    /\ le_int n' m = true
    /\ (le_int n m = true -> v = a).
Proof.
  intros E Hn. unfold py_min_int. rewrite E.
  destruct n as [q | | negative]; [| congruence |].
  - unfold int_lt, le_int. destruct (Qlt_le_dec (inject_Z m) q) as [H | H].
    + exists (PInt m), (finite (inject_Z m)).
      repeat split; [apply le_int_refl | discriminate].
    + exists a, (finite q). repeat split; [exact E |].
      unfold le_int. destruct (Qlt_le_dec (inject_Z m) q) as [H' | H'];
        [exfalso; exact (Qlt_not_le _ _ H' H) | reflexivity].
  - destruct negative; simpl.
    + exists a, (infinity true). repeat split. exact E.
    + exists (PInt m), (finite (inject_Z m)).
      repeat split; [apply le_int_refl | discriminate].
Qed.

(** [min(nan, m)] is NaN: [m < nan] is false. *)
Lemma py_min_int_nan (a : pyval) (m : Z) :
  as_number a = Some nan -> py_min_int a m = Ok a.
Proof. intros E. unfold py_min_int. rewrite E. reflexivity. Qed.

Lemma py_min_int_not_a_number (a : pyval) (m : Z) :
  as_number a = None -> py_min_int a m = Raised TypeError.
Proof. intros E. unfold py_min_int. rewrite E. reflexivity. Qed.

End Cap.

(** X11. Whatever number other than NaN the verdict's [banned_days] is
    (an int, a bool, a finite float or an infinity, of any sign), the
    days the Telegram bot computes are a number of at most the
    configured maximum, and are [banned_days] itself when that is at
    most the maximum; the same holds in the Discord bot for a number
    other than zero. NaN is not capped: [min] hands it back in both
    bots, and [timedelta] then refuses it with ValueError. *)
Theorem X11_numeric_banned_days_is_capped
    (d : list (string * pyval)) (b : pyval) (n : number) :
  items_get d "banned_days" = Some b ->
  as_number b = Some n ->
  (n <> nan ->
   (forall cfg : Telegram.Config,
       exists v n',
         Telegram.timeout_days cfg (PDict d) = Ok v
         /\ as_number v = Some n'
         /\ le_int n' (Telegram.AUTO_MODERATE_MAX_TIMEOUT_DAYS cfg) = true
         /\ (le_int n (Telegram.AUTO_MODERATE_MAX_TIMEOUT_DAYS cfg) = true ->
             v = b))
   /\ (forall cfg : Discord.Config,
          truthy b = true ->
          exists v n',
            Discord.timeout_days cfg (PDict d) = Ok v
            /\ as_number v = Some n'
            /\ le_int n' (Discord.AUTO_MODERATE_MAX_TIMEOUT_DAYS cfg) = true
            /\ (le_int n (Discord.AUTO_MODERATE_MAX_TIMEOUT_DAYS cfg) = true ->
                v = b)))
  /\ (n = nan ->
      (forall cfg : Telegram.Config,
          Telegram.timeout_days cfg (PDict d) = Ok b)
      /\ (forall cfg : Discord.Config,
             Discord.timeout_days cfg (PDict d) = Ok b)
      /\ timedelta_days b = Raised ValueError).
Proof.
  intros E Hn. split.
  - intros Hnan. split.
    + intros cfg. unfold Telegram.timeout_days, py_get. rewrite E. simpl.
      apply (py_min_int_capped _ _ _ Hn Hnan).
    + intros cfg Ht. unfold Discord.timeout_days, py_get. rewrite E. simpl.
      rewrite Ht. apply (py_min_int_capped _ _ _ Hn Hnan).
  - intros ->.
    assert (Hb : b = PNaN) by (destruct b as [| [] | | | | | | |]; inversion Hn; reflexivity).
    subst b. split; [| split].
    + intros cfg. unfold Telegram.timeout_days, py_get. rewrite E. reflexivity.
    + intros cfg. unfold Discord.timeout_days, py_get. rewrite E. reflexivity.
    + reflexivity.
Qed.

(** X11 at two and a half days under a maximum of 28: the float is
    kept. *)
Lemma X11_numeric_banned_days_is_capped_witness :
  exists v n',
    Telegram.timeout_days (Sample.telegram_cfg "timeout" [])
      (PDict [("banned_days", PFloat (5 # 2))]) = Ok v
    /\ as_number v = Some n'
    /\ le_int n' (Telegram.AUTO_MODERATE_MAX_TIMEOUT_DAYS
                    (Sample.telegram_cfg "timeout" [])) = true
    /\ (le_int (finite (5 # 2))
               (Telegram.AUTO_MODERATE_MAX_TIMEOUT_DAYS
                  (Sample.telegram_cfg "timeout" [])) = true ->
        v = PFloat (5 # 2)).
Proof.
  refine (proj1 (proj1 (X11_numeric_banned_days_is_capped
                          [("banned_days", PFloat (5 # 2))] (PFloat (5 # 2))
                          (finite (5 # 2)) eq_refl eq_refl) _) _).
  discriminate.
Defined.

(** X12. A [banned_days] that Python counts as false (absent, null, 0,
    0.0, False, an empty string, list or dict) makes the Discord bot use
    the default days as they are, without the cap of the maximum; with
    the action timeout and the default within the range of [timedelta],
    the timeout is asked for with exactly the default. *)
Theorem X12_discord_falsy_banned_days_gives_uncapped_default
    (cfg : Discord.Config) (env : Discord.Env) (d : list (string * pyval))
    (s : Discord.State) :
  truthy (default PNone (items_get d "banned_days")) = false ->
  Discord.timeout_days cfg (PDict d)
  = Ok (PInt (Discord.AUTO_MODERATE_DEFAULT_TIMEOUT_DAYS cfg))
  /\ (Discord.AUTO_MODERATE_ACTION cfg = "timeout" ->
      -999999999 <= Discord.AUTO_MODERATE_DEFAULT_TIMEOUT_DAYS cfg <= 999999999 ->
      exists l,
        Discord.calls (fst (Discord.enforce cfg env (PDict d) s))
        = Discord.calls s
          ++ Discord.author_timeout
               (PInt (Discord.AUTO_MODERATE_DEFAULT_TIMEOUT_DAYS cfg)) :: l).
Proof.
  intros Hf.
  assert (E : Discord.timeout_days cfg (PDict d)
              = Ok (PInt (Discord.AUTO_MODERATE_DEFAULT_TIMEOUT_DAYS cfg)))
    by (unfold Discord.timeout_days, py_get; rewrite Hf; reflexivity).
  split; [exact E |].
  intros Hact Hrange.
  apply (discord_enforce_timeout_starts cfg env (PDict d) _ Hact E
           (timedelta_days_int _ Hrange) s).
Qed.

(** X12 at a verdict with [banned_days] 0, under a default of 40 days and
    a maximum of 28: the timeout is asked for 40 days. *)
Lemma X12_discord_falsy_banned_days_gives_uncapped_default_witness :
  Discord.timeout_days
    (Discord.mkConfig true true true "timeout" 40 28 None "LOW" true [] [] [] [])
    (PDict [("banned_days", PInt 0)])
  = Ok (PInt 40).
Proof.
  apply (proj1 (X12_discord_falsy_banned_days_gives_uncapped_default
                  (Discord.mkConfig true true true "timeout" 40 28 None "LOW"
                                    true [] [] [] [])
                  (Sample.discord_env Failed)
                  [("banned_days", PInt 0)] Sample.discord_start eq_refl)).
Defined.

(** X13. A [banned_days] that is no number (a string, a list, a dict,
    and in the Telegram bot also null) stops the action timeout at the
    computation of the days: the Discord bot raises TypeError having
    called nothing, so that the message stays; the Telegram bot has
    deleted the message before, and restricts nobody. *)
Theorem X13_non_numeric_banned_days_stops_the_timeout
    (d : list (string * pyval)) (b : pyval) :
  items_get d "banned_days" = Some b ->
  as_number b = None ->
  (forall cfg env s,
      Discord.AUTO_MODERATE_ACTION cfg = "timeout" ->
      truthy b = true ->
      Discord.enforce cfg env (PDict d) s = (s, Raised TypeError))
  /\ (forall cfg env s,
         Telegram.AUTO_MODERATE_ACTION cfg = "timeout" ->
         Telegram.enforce cfg env (PDict d) s
         = (s ++ [Telegram.message_delete],
            match Telegram.platform env Telegram.message_delete with
            | Some e => Raised e
            | None => Raised TypeError
            end)).
Proof.
  intros E Hn. split.
  - intros cfg env s Hact Ht. unfold Discord.enforce. rewrite Hact.
    decide_action.
    assert (Hd : Discord.timeout_days cfg (PDict d) = Raised TypeError).
    { unfold Discord.timeout_days, py_get. rewrite E. simpl. rewrite Ht.
      apply py_min_int_not_a_number, Hn. }
    rewrite Hd, bind_lift_raised. reflexivity.
  - intros cfg env s Hact. unfold Telegram.enforce. rewrite Hact.
    unfold Telegram.deletes. decide_action. cbn [orb]. cbv iota.
    assert (Hd : Telegram.timeout_days cfg (PDict d) = Raised TypeError).
    { unfold Telegram.timeout_days, py_get. rewrite E. simpl.
      apply py_min_int_not_a_number, Hn. }
    rewrite Hd. unfold bind at 1. rewrite telegram_attempt_eq.
    destruct (Telegram.platform env Telegram.message_delete);
      [reflexivity |].
    rewrite bind_lift_raised. reflexivity.
Qed.

(** X13 at the days written as a string. *)
Lemma X13_non_numeric_banned_days_stops_the_timeout_witness :
  Discord.enforce (Sample.discord_cfg "timeout" [] [])
    (Sample.discord_env Failed)
    (PDict [("banned_days", PStr "3")]) Sample.discord_start
  = (Sample.discord_start, Raised TypeError).
Proof.
  apply (proj1 (X13_non_numeric_banned_days_stops_the_timeout
                  [("banned_days", PStr "3")] (PStr "3") eq_refl eq_refl)).
  - reflexivity.
  - reflexivity.
Defined.

(** * Further properties of the loaders and of the request *)

Section Bounds.

Lemma take_length (n : nat) (s : string) :
  String.length (PyStr.take n s) = Nat.min n (String.length s).
Proof.
  revert s. induction n as [| n IH]; intros [| c s]; simpl; try reflexivity.
  rewrite IH. reflexivity.
Qed.

Lemma take_prefix (n : nat) (s : string) :
  String.prefix (PyStr.take n s) s = true.
Proof.
  revert s. induction n as [| n IH]; intros [| c s]; simpl; try reflexivity.
  rewrite IH. destruct (ascii_dec c c); [reflexivity | congruence].
Qed.

Lemma prefix_refl (s : string) : String.prefix s s = true.
Proof.
  induction s as [| c s IH]; simpl; [reflexivity |].
  destruct (ascii_dec c c); [exact IH | congruence].
Qed.

Lemma len_nonempty (s : string) : 1 <= PyStr.len s -> PyStr.nonempty s = true.
Proof. destruct s; unfold PyStr.len; simpl; [lia | reflexivity]. Qed.

Lemma nonempty_len (s : string) : PyStr.nonempty s = true -> 1 <= PyStr.len s.
Proof. destruct s; unfold PyStr.len; simpl; [discriminate | lia]. Qed.

(** A cut at [limit >= 0] of a longer string has [limit] characters. *)
Lemma slice_to_len (limit : Z) (s : string) :
  0 <= limit -> limit < PyStr.len s ->
  PyStr.len (PyStr.slice_to limit s) = limit.
Proof.
  unfold PyStr.len, PyStr.slice_to. intros H0 H. rewrite take_length. lia.
Qed.

Lemma spec_truncated_within (limit : Z) (content : string) :
  1 <= limit -> PyStr.nonempty content = true ->
  within limit content (spec_truncated limit content).
Proof.
  intros Hl Hn. apply nonempty_len in Hn. unfold within, spec_truncated.
  destruct (Z.gtb_spec (PyStr.len content) limit) as [G | G].
  - repeat split; try lia.
    + apply take_prefix.
    + rewrite slice_to_len; lia.
    + rewrite slice_to_len; lia.
    + apply slice_to_len; lia.
  - repeat split; try lia. apply prefix_refl.
Qed.

Lemma capped_within name limit content c w :
  1 <= limit ->
  Discord.capped name limit content = (Some c, w) ->
  within limit content c
  /\ (w = None /\ PyStr.len content <= limit
      \/ w = Some (Discord.exceeds name limit (PyStr.len content))
         /\ limit < PyStr.len content).
Proof.
  intros Hl. unfold Discord.capped.
  destruct (PyStr.nonempty content) eqn:Hn; simpl; [| discriminate].
  pose proof (spec_truncated_within limit content Hl Hn) as Hw.
  unfold spec_truncated in Hw.
  destruct (Z.gtb_spec (PyStr.len content) limit) as [G | G];
    intros E; inversion E; subst; (split; [exact Hw |]).
  - right. split; [reflexivity | lia].
  - left. split; [reflexivity | lia].
Qed.

Lemma capped_none name limit content w :
  Discord.capped name limit content = (None, w) ->
  w = None /\ content = "".
Proof.
  unfold Discord.capped. destruct content as [| a content]; simpl.
  - intros E. inversion E. split; reflexivity.
  - destruct (_ >? _); discriminate.
Qed.

Lemma telegram_load_text_file_within name text max_chars c w :
  1 <= max_chars ->
  Telegram.load_text_file name (Contents text) max_chars = (Some c, w) ->
  let content := PyStr.join_lines (Telegram.kept_lines text) in
  within max_chars content c
  /\ (w = None /\ PyStr.len content <= max_chars
      \/ w = Some (Telegram.truncated_to max_chars)
         /\ max_chars < PyStr.len content).
Proof.
  intros Hl. unfold Telegram.load_text_file. cbv zeta.
  generalize (PyStr.join_lines (Telegram.kept_lines text)). intros content.
  destruct (PyStr.nonempty content) eqn:Hn; simpl; [| discriminate].
  pose proof (spec_truncated_within max_chars content Hl Hn) as Hw.
  unfold spec_truncated in Hw.
  destruct (Z.gtb_spec (PyStr.len content) max_chars) as [G | G];
    intros E; inversion E; subst; (split; [exact Hw |]).
  - right. split; [reflexivity | lia].
  - left. split; [reflexivity | lia].
Qed.

Lemma policy_limit : 1 <= POLICY_MAX_CHARS.
Proof. vm_compute. discriminate. Qed.

Lemma instructions_limit : 1 <= INSTRUCTIONS_MAX_CHARS.
Proof. vm_compute. discriminate. Qed.

End Bounds.

(** X14. A loader that returns a content returns the start of the joined
    kept lines, never empty and never longer than its limit (10000
    characters for the policy, 2000 for the instructions, [max_chars] of
    at least 1 in the Telegram bot): the joined lines themselves, without
    warning, when they fit, and exactly the limit with the warning of a
    truncation when they do not. Only a file that could be read gives a
    content. *)
Theorem X14_loaded_content_within_limit (f : file) (c : string) :
  (forall cfg w,
      Discord.load_policy_file cfg f = (Some c, w) ->
      exists text,
        f = Contents text
        /\ let content := PyStr.join_lines (Discord.policy_lines text) in
           within POLICY_MAX_CHARS content c
           /\ (w = None /\ PyStr.len content <= POLICY_MAX_CHARS
               \/ w = Some (Discord.exceeds "policy.txt" POLICY_MAX_CHARS
                              (PyStr.len content))
                  /\ POLICY_MAX_CHARS < PyStr.len content))
  /\ (forall cfg w,
         Discord.load_instructions_file cfg f = (Some c, w) ->
         exists text,
           f = Contents text
           /\ let content := PyStr.join_lines (Discord.instruction_lines text) in
              within INSTRUCTIONS_MAX_CHARS content c
              /\ (w = None /\ PyStr.len content <= INSTRUCTIONS_MAX_CHARS
                  \/ w = Some (Discord.exceeds "instructions.txt"
                                 INSTRUCTIONS_MAX_CHARS (PyStr.len content))
                     /\ INSTRUCTIONS_MAX_CHARS < PyStr.len content))
  /\ (forall name max_chars w,
         1 <= max_chars ->
         Telegram.load_text_file name f max_chars = (Some c, w) ->
         exists text,
           f = Contents text
           /\ let content := PyStr.join_lines (Telegram.kept_lines text) in
              within max_chars content c
              /\ (w = None /\ PyStr.len content <= max_chars
                  \/ w = Some (Telegram.truncated_to max_chars)
                     /\ max_chars < PyStr.len content)).
Proof.
  split; [| split].
  - intros cfg w. unfold Discord.load_policy_file.
    destruct (Discord.USE_POLICY_FILE cfg); simpl; [| discriminate].
    destruct f as [| | text]; try discriminate.
    intros E. exists text. split; [reflexivity |].
    apply (capped_within _ _ _ _ _ policy_limit E).
  - intros cfg w. unfold Discord.load_instructions_file.
    destruct (Discord.USE_INSTRUCTIONS_FILE cfg); simpl; [| discriminate].
    destruct f as [| | text]; try discriminate.
    intros E. exists text. split; [reflexivity |].
    apply (capped_within _ _ _ _ _ instructions_limit E).
  - intros name max_chars w Hl E.
    destruct f as [| | text]; try discriminate.
    exists text. split; [reflexivity |].
    apply (telegram_load_text_file_within _ _ _ _ _ Hl E).
Qed.

(** X14 at a short policy file read by the Telegram loader with a limit
    of five characters. *)
Lemma X14_loaded_content_within_limit_witness :
  exists text,
    Contents "# rules
no threats" = Contents text
    /\ let content := PyStr.join_lines (Telegram.kept_lines text) in
       within 5 content "no th"
       /\ (Some (Telegram.truncated_to 5) = None /\ PyStr.len content <= 5
           \/ Some (Telegram.truncated_to 5) = Some (Telegram.truncated_to 5)
              /\ 5 < PyStr.len content).
Proof.
  refine (proj2 (proj2 (X14_loaded_content_within_limit _ _))
            "policy.txt" 5 _ _ _).
  - lia.
  - vm_compute. reflexivity.
Defined.

Section RequestBounds.

Lemma field_within (limit : Z) (merged x : string) :
  1 <= limit ->
  Discord.field (spec_truncated limit merged) = Some x ->
  within limit merged x.
Proof.
  intros Hl. unfold Discord.field.
  destruct (PyStr.nonempty (spec_truncated limit merged)) eqn:Hn;
    [| discriminate].
  intros E. inversion E. subst x.
  apply spec_truncated_within; [exact Hl |].
  destruct merged as [| a merged]; [| reflexivity].
  unfold spec_truncated in Hn.
  destruct (PyStr.len "" >? limit) eqn:G; [| discriminate].
  apply Z.gtb_lt in G. unfold PyStr.len in G. simpl in G. lia.
Qed.

Lemma telegram_loaded_len name f max_chars c :
  1 <= max_chars ->
  fst (Telegram.load_text_file name f max_chars) = Some c ->
  1 <= PyStr.len c <= max_chars.
Proof.
  intros Hl E.
  destruct (Telegram.load_text_file name f max_chars) as [o w] eqn:El.
  simpl in E. subst o.
  destruct f as [| | text]; try discriminate.
  destruct (telegram_load_text_file_within _ _ _ _ _ Hl El) as [Hw _].
  apply Hw.
Qed.

Lemma telegram_field_len name f max_chars (use : bool) x :
  1 <= max_chars ->
  (let loaded :=
     if use then
       match fst (Telegram.load_text_file name f max_chars) with
       | Some p => if PyStr.nonempty p then p else ""
       | None => ""
       end
     else "" in
   if PyStr.nonempty loaded then Some loaded else None) = Some x ->
  1 <= PyStr.len x <= max_chars.
Proof.
  intros Hl. cbv zeta. destruct use; [| discriminate].
  destruct (fst (Telegram.load_text_file name f max_chars)) as [p |] eqn:E;
    [| discriminate].
  destruct (PyStr.nonempty p) eqn:Hn; [| discriminate].
  rewrite Hn. intros H. inversion H. subst x.
  apply (telegram_loaded_len _ _ _ _ Hl E).
Qed.

End RequestBounds.

(** X15. Whatever the files, the inline texts and the flags are, the
    request of either bot carries the content unchanged, and a policy or
    instructions, when it carries them, that are not empty and have at
    most 10000 and 2000 characters. *)
Theorem X15_request_fields_within_limits (content : string) :
  (forall cfg pf inf policy instructions upf uif,
      let p := fst (Discord.build_request cfg pf inf content policy instructions
                      upf uif) in
      p_content p = content
      /\ (forall x, p_policy p = Some x ->
                    1 <= PyStr.len x <= POLICY_MAX_CHARS)
      /\ (forall x, p_instructions p = Some x ->
                    1 <= PyStr.len x <= INSTRUCTIONS_MAX_CHARS))
  /\ (forall cfg pf inf,
         let p := Telegram.build_request cfg pf inf content in
         p_content p = content
         /\ (forall x, p_policy p = Some x ->
                       1 <= PyStr.len x <= POLICY_MAX_CHARS)
         /\ (forall x, p_instructions p = Some x ->
                       1 <= PyStr.len x <= INSTRUCTIONS_MAX_CHARS)).
Proof.
  split.
  - intros cfg pf inf policy instructions upf uif p. subst p.
    rewrite build_request_closed_form. cbn [fst p_content p_policy p_instructions].
    split; [reflexivity |].
    split; intros x E.
    + apply (field_within _ _ _ policy_limit E).
    + apply (field_within _ _ _ instructions_limit E).
  - intros cfg pf inf p. subst p. unfold Telegram.build_request.
    cbn [p_content p_policy p_instructions].
    split; [reflexivity |].
    split; intros x E.
    + apply (telegram_field_len _ _ _ _ _ policy_limit E).
    + apply (telegram_field_len _ _ _ _ _ instructions_limit E).
Qed.

Section SamePolicy.

Lemma keeps_policy_line_telegram (l : string) :
  Discord.keeps_policy_line l = PyStr.nonempty l && Telegram.keeps_line l.
Proof.
  unfold Discord.keeps_policy_line, Telegram.keeps_line.
  destruct l as [| a l]; [reflexivity |]. reflexivity.
Qed.

(** The loop of the Telegram loader keeps the lines the loop of the
    Discord policy loader keeps, in the same order. *)
Lemma kept_lines_policy_lines (text : string) :
  Telegram.kept_lines text = Discord.policy_lines text.
Proof.
  unfold Telegram.kept_lines, Discord.policy_lines. cbv zeta.
  rewrite lines_loop_filter, policy_loop_filter.
  f_equal. apply filter_ext. intros l. symmetry.
  apply keeps_policy_line_telegram.
Qed.

Lemma loaders_same_policy (cfg : Discord.Config) (f : file) :
  Discord.USE_POLICY_FILE cfg = true ->
  fst (Discord.load_policy_file cfg f)
  = fst (Telegram.load_text_file "policy.txt" f POLICY_MAX_CHARS).
Proof.
  intros Hu. unfold Discord.load_policy_file, Telegram.load_text_file.
  rewrite Hu. cbn [negb]. cbv iota.
  destruct f as [| | text]; try reflexivity.
  cbv zeta. rewrite kept_lines_policy_lines. unfold Discord.capped.
  generalize (PyStr.join_lines (Discord.policy_lines text)), POLICY_MAX_CHARS.
  intros content limit.
  destruct (negb (PyStr.nonempty content)); [reflexivity |].
  destruct (PyStr.len content >? limit); reflexivity.
Qed.

(** A loaded policy is not cut again by the request. *)
Lemma loaded_policy_fits (cfg : Discord.Config) (f : file) :
  spec_truncated POLICY_MAX_CHARS
    (default "" (fst (Discord.load_policy_file cfg f)))
  = default "" (fst (Discord.load_policy_file cfg f)).
Proof.
  destruct (Discord.load_policy_file cfg f) as [[c |] w] eqn:E; simpl.
  - unfold Discord.load_policy_file in E.
    destruct (negb (Discord.USE_POLICY_FILE cfg)); [discriminate |].
    destruct f as [| | text]; try discriminate.
    destruct (capped_within _ _ _ _ _ policy_limit E) as [[_ [Hlen _]] _].
    unfold spec_truncated.
    destruct (Z.gtb_spec (PyStr.len c) POLICY_MAX_CHARS) as [G | G];
      [lia | reflexivity].
  - unfold spec_truncated.
    destruct (Z.gtb_spec (PyStr.len "") POLICY_MAX_CHARS) as [G | G];
      [| reflexivity].
    pose proof policy_limit. unfold PyStr.len in G. simpl in G. lia.
Qed.

End SamePolicy.

(** X16. The two bots read the same policy out of the same policy.txt:
    the loader of the Telegram bot keeps the lines the policy loader of
    the Discord bot keeps, in the same order, returns the same content,
    and the requests of the two handlers carry the same policy when the
    policy file is switched on or off in both. *)
Theorem X16_both_bots_send_the_same_policy
    (dcfg : Discord.Config) (tcfg : Telegram.Config) :
  Discord.USE_POLICY_FILE dcfg = Telegram.USE_POLICY_FILE tcfg ->
  (forall text, Telegram.kept_lines text = Discord.policy_lines text)
  /\ (forall f,
         Discord.USE_POLICY_FILE dcfg = true ->
         fst (Discord.load_policy_file dcfg f)
         = fst (Telegram.load_text_file "policy.txt" f POLICY_MAX_CHARS))
  /\ (forall pf inf inf' content,
         p_policy (fst (Discord.build_request dcfg pf inf content None None
                          true true))
         = p_policy (Telegram.build_request tcfg pf inf' content)).
Proof.
  intros Hsame. split; [exact kept_lines_policy_lines |].
  split; [intros f Hu; apply loaders_same_policy, Hu |].
  intros pf inf inf' content.
  rewrite build_request_closed_form. cbn [fst p_policy andb].
  unfold Telegram.build_request. cbn [p_policy]. rewrite <- Hsame.
  destruct (Discord.USE_POLICY_FILE dcfg) eqn:Hu.
  - rewrite <- (loaders_same_policy dcfg pf Hu).
    assert (Hm : spec_merged (fst (Discord.load_policy_file dcfg pf)) None
                 = default "" (fst (Discord.load_policy_file dcfg pf))).
    { unfold spec_merged. cbv zeta.
      destruct (PyStr.nonempty (default "" _)) eqn:Hn; [reflexivity |].
      destruct (default "" _); [reflexivity | discriminate]. }
    rewrite Hm, loaded_policy_fits. unfold Discord.field.
    destruct (fst (Discord.load_policy_file dcfg pf)) as [[| a p] |];
      reflexivity.
  - unfold spec_merged, spec_truncated, Discord.field. simpl.
    destruct (PyStr.len "" >? POLICY_MAX_CHARS) eqn:G; [| reflexivity].
    apply Z.gtb_lt in G. pose proof policy_limit.
    unfold PyStr.len in G. simpl in G. lia.
Qed.

(** X16 at the shipped configurations and a policy file with a comment,
    a marker line and a rule. *)
Lemma X16_both_bots_send_the_same_policy_witness :
  p_policy (fst (Discord.build_request Discord.shipped
                   (Contents "# house rules
#Policy: be kind
  no threats  ") Missing "hello" None None true true))
  = p_policy (Telegram.build_request Telegram.shipped
                (Contents "# house rules
#Policy: be kind
  no threats  ") Missing "hello").
Proof.
  apply (proj2 (proj2 (X16_both_bots_send_the_same_policy
                         Discord.shipped Telegram.shipped eq_refl))).
Defined.

(** * Further properties: the status of the files and the log alert *)

Section FileStatus.

Lemma spec_merged_file_only (fp : option string) :
  spec_merged fp None = default "" fp.
Proof.
  unfold spec_merged. cbv zeta.
  destruct (PyStr.nonempty (default "" fp)) eqn:Hn; [reflexivity |].
  destruct (default "" fp); [reflexivity | discriminate].
Qed.

Lemma loaded_instructions_fits (cfg : Discord.Config) (f : file) :
  spec_truncated INSTRUCTIONS_MAX_CHARS
    (default "" (fst (Discord.load_instructions_file cfg f)))
  = default "" (fst (Discord.load_instructions_file cfg f)).
Proof.
  destruct (Discord.load_instructions_file cfg f) as [[c |] w] eqn:E; simpl.
  - unfold Discord.load_instructions_file in E.
    destruct (negb (Discord.USE_INSTRUCTIONS_FILE cfg)); [discriminate |].
    destruct f as [| | text]; try discriminate.
    destruct (capped_within _ _ _ _ _ instructions_limit E) as [[_ [Hlen _]] _].
    unfold spec_truncated.
    destruct (Z.gtb_spec (PyStr.len c) INSTRUCTIONS_MAX_CHARS) as [G | G];
      [lia | reflexivity].
  - unfold spec_truncated.
    destruct (Z.gtb_spec (PyStr.len "") INSTRUCTIONS_MAX_CHARS) as [G | G];
      [| reflexivity].
    pose proof instructions_limit. unfold PyStr.len in G. simpl in G. lia.
Qed.

(** A loader returns no empty content. *)
Lemma loaded_policy_len cfg f c :
  fst (Discord.load_policy_file cfg f) = Some c ->
  1 <= PyStr.len c <= POLICY_MAX_CHARS.
Proof.
  destruct (Discord.load_policy_file cfg f) as [o w] eqn:E. simpl.
  intros ->. unfold Discord.load_policy_file in E.
  destruct (negb (Discord.USE_POLICY_FILE cfg)); [discriminate |].
  destruct f as [| | text]; try discriminate.
  destruct (capped_within _ _ _ _ _ policy_limit E) as [[_ [Hlen _]] _].
  exact Hlen.
Qed.

Lemma loaded_instructions_len cfg f c :
  fst (Discord.load_instructions_file cfg f) = Some c ->
  1 <= PyStr.len c <= INSTRUCTIONS_MAX_CHARS.
Proof.
  destruct (Discord.load_instructions_file cfg f) as [o w] eqn:E. simpl.
  intros ->. unfold Discord.load_instructions_file in E.
  destruct (negb (Discord.USE_INSTRUCTIONS_FILE cfg)); [discriminate |].
  destruct f as [| | text]; try discriminate.
  destruct (capped_within _ _ _ _ _ instructions_limit E) as [[_ [Hlen _]] _].
  exact Hlen.
Qed.

Lemma field_default (o : option string) :
  (forall c, o = Some c -> 1 <= PyStr.len c) ->
  Discord.field (default "" o) = o.
Proof.
  intros H. destruct o as [[| a c] |]; try reflexivity.
  specialize (H "" eq_refl). unfold PyStr.len in H. simpl in H. lia.
Qed.

Lemma load_policy_file_disabled cfg f :
  Discord.USE_POLICY_FILE cfg = false ->
  Discord.load_policy_file cfg f = (None, None).
Proof. intros H. unfold Discord.load_policy_file. rewrite H. reflexivity. Qed.

Lemma load_instructions_file_disabled cfg f :
  Discord.USE_INSTRUCTIONS_FILE cfg = false ->
  Discord.load_instructions_file cfg f = (None, None).
Proof.
  intros H. unfold Discord.load_instructions_file. rewrite H. reflexivity.
Qed.

(** The request of a call without inline texts carries what the loaders
    return. *)
Lemma request_carries_the_loaded cfg pf inf content :
  let p := fst (Discord.build_request cfg pf inf content None None true true) in
  p_policy p = fst (Discord.load_policy_file cfg pf)
  /\ p_instructions p = fst (Discord.load_instructions_file cfg inf).
Proof.
  cbv zeta. rewrite build_request_closed_form.
  cbn [fst p_policy p_instructions andb].
  assert (Hp : (if Discord.USE_POLICY_FILE cfg
                then fst (Discord.load_policy_file cfg pf) else None)
               = fst (Discord.load_policy_file cfg pf)).
  { destruct (Discord.USE_POLICY_FILE cfg) eqn:E; [reflexivity |].
    rewrite (load_policy_file_disabled _ _ E). reflexivity. }
  assert (Hi : (if Discord.USE_INSTRUCTIONS_FILE cfg
                then fst (Discord.load_instructions_file cfg inf) else None)
               = fst (Discord.load_instructions_file cfg inf)).
  { destruct (Discord.USE_INSTRUCTIONS_FILE cfg) eqn:E; [reflexivity |].
    rewrite (load_instructions_file_disabled _ _ E). reflexivity. }
  rewrite Hp, Hi, !spec_merged_file_only.
  rewrite loaded_policy_fits, loaded_instructions_fits.
  split; apply field_default; intros c E.
  - apply (loaded_policy_len _ _ _ E).
  - apply (loaded_instructions_len _ _ _ E).
Qed.

Lemma length_or_0_bounds (o : option string) (limit : Z) :
  (forall c, o = Some c -> 1 <= PyStr.len c <= limit) ->
  0 <= limit ->
  0 <= Discord.length_or_0 o <= limit
  /\ (Discord.length_or_0 o = 0 <-> o = None).
Proof.
  intros H Hl. destruct o as [c |]; simpl.
  - specialize (H c eq_refl).
    rewrite (len_nonempty c) by lia.
    split; [lia |]. split; [lia | discriminate].
  - split; [lia |]. split; reflexivity.
Qed.

End FileStatus.

(** X17. What [get_file_status] reports of a file agrees with what the
    requests carry: the content it reports is the policy, or the
    instructions, of a request without inline texts; the length it
    reports lies between 0 and the maximum it reports, and is 0 exactly
    when there is no content; a file that is switched off has neither
    content nor warning, whether it exists or not. *)
Theorem X17_file_status_agrees_with_the_request
    (cfg : Discord.Config) (pf inf : file) (content : string) :
  let status := Discord.get_file_status cfg pf inf in
  let p := fst (Discord.build_request cfg pf inf content None None true true) in
  (Discord.fs_content (fst status) = p_policy p
   /\ Discord.fs_content (snd status) = p_instructions p)
  /\ (0 <= Discord.fs_length (fst status) <= Discord.fs_max_length (fst status)
      /\ 0 <= Discord.fs_length (snd status) <= Discord.fs_max_length (snd status))
  /\ ((Discord.fs_length (fst status) = 0 <-> Discord.fs_content (fst status) = None)
      /\ (Discord.fs_length (snd status) = 0
          <-> Discord.fs_content (snd status) = None))
  /\ (Discord.fs_enabled (fst status) = false ->
      Discord.fs_content (fst status) = None
      /\ Discord.fs_warning (fst status) = None)
  /\ (Discord.fs_enabled (snd status) = false ->
      Discord.fs_content (snd status) = None
      /\ Discord.fs_warning (snd status) = None).
Proof.
  cbv zeta.
  destruct (request_carries_the_loaded cfg pf inf content) as [Hp Hi].
  cbv zeta in Hp, Hi. rewrite Hp, Hi.
  pose proof (loaded_policy_len cfg pf) as Lp.
  pose proof (loaded_instructions_len cfg inf) as Li.
  pose proof (load_policy_file_disabled cfg pf) as Dp.
  pose proof (load_instructions_file_disabled cfg inf) as Di.
  unfold Discord.get_file_status.
  destruct (Discord.load_policy_file cfg pf) as [pc pw].
  destruct (Discord.load_instructions_file cfg inf) as [ic iw].
  cbn [fst snd Discord.fs_content Discord.fs_length Discord.fs_max_length
       Discord.fs_enabled Discord.fs_warning] in *.
  pose proof policy_limit. pose proof instructions_limit.
  destruct (length_or_0_bounds pc POLICY_MAX_CHARS Lp ltac:(lia)) as [B1 Z1].
  destruct (length_or_0_bounds ic INSTRUCTIONS_MAX_CHARS Li ltac:(lia)) as [B2 Z2].
  split; [split; reflexivity |].
  split; [split; assumption |].
  split; [split; assumption |].
  split; intros E.
  - specialize (Dp E). split; congruence.
  - specialize (Di E). split; congruence.
Qed.

Section Alert.

Lemma discord_log_alert_posts cfg env id s :
  Discord.AUTO_MODERATE_LOG_CHANNEL_ID cfg = Some id -> id <> 0 ->
  Discord.log_channel_found env = true ->
  Discord.log_alert cfg env s
  = (Discord.mkState
       (Discord.calls s ++ [Discord.log_channel_send (Discord.action_taken s)])
       (Discord.action_taken s), Ok tt).
Proof.
  intros Hid Hz Hf. unfold Discord.log_alert. rewrite Hid, Hf.
  apply Z.eqb_neq in Hz. rewrite Hz. simpl.
  unfold Discord.except_exception, try_except, bind, Discord.get_action_taken.
  rewrite discord_attempt_eq.
  destruct (Discord.platform env _); reflexivity.
Qed.

(** The text of [action_taken] after a timeout that went through is
    none of the keys of [action_labels]. *)
Lemma timed_out_text_is_no_key (tail : string) :
  Discord.jump_to_message (String.append "timeout (" tail) = true
  /\ Discord.action_taken_field (String.append "timeout (" tail)
     = String.append "timeout (" tail.
Proof. split; reflexivity. Qed.

End Alert.

(** X18. After a timeout that went through, the alert in the log channel
    is made with the text ["timeout (<days>d)"], which is no key of
    [action_labels] and none of the deleting actions: for a verdict the
    bot acts on, with the log channel set and found, the bot times the
    author out, sends the notices, deletes the message and posts the
    alert, and that alert shows the text as it is and carries the field
    "Jump to Message" for the message just deleted. *)
Theorem X18_alert_after_timeout_links_to_the_deleted_message
    (cfg : Discord.Config) (env : Discord.Env) (d : list (string * pyval))
    (severity : string) (s : Discord.State) (v : pyval) (id : Z) :
  items_get d "error" = None ->
  items_get d "status" = Some (PStr "BLOCKED")
  \/ items_get d "status" = Some (PStr "DISALLOWED") ->
  items_get d "severity" = Some (PStr severity) ->
  spec_rank (Discord.AUTO_MODERATE_MIN_SEVERITY cfg) <= spec_rank severity ->
  Discord.AUTO_MODERATE_ACTION cfg = "timeout" ->
  Discord.timeout_days cfg (PDict d) = Ok v ->
  timedelta_days v = Ok v ->
  Discord.platform env (Discord.author_timeout v) = None ->
  Discord.platform env Discord.author_send = None
  \/ Discord.platform env Discord.author_send = Some Forbidden ->
  Discord.platform env Discord.message_delete = None ->
  Discord.AUTO_MODERATE_LOG_CHANNEL_ID cfg = Some id -> id <> 0 ->
  Discord.log_channel_found env = true ->
  Discord.act_on cfg env (PDict d) s
  = (Discord.mkState
       (Discord.calls s
        ++ [Discord.author_timeout v; Discord.author_send; Discord.channel_send;
            Discord.message_delete;
            Discord.log_channel_send (Discord.timed_out v)])
       (Discord.timed_out v), Ok tt)
  /\ (forall str_of,
         let text := Discord.label_text str_of (Discord.timed_out v) in
         Discord.jump_to_message text = true
         /\ Discord.action_taken_field text = text).
Proof.
  intros Herr Hst Hsev Hrank Hact Hdays Hdelta Htime Hsend Hdel Hid Hz Hf.
  split; [| intros str_of; apply timed_out_text_is_no_key].
  assert (Hb : Discord.status_blocks
                 (default (PStr "ALLOWED") (items_get d "status")) = true)
    by (destruct Hst as [-> | ->]; reflexivity).
  rewrite (discord_act_on_acting cfg env d severity s);
    [| rewrite Herr; reflexivity | exact Hb | rewrite Hsev; reflexivity
     | exact Hrank].
  cbv zeta.
  assert (He := fun st => discord_enforce_timeout_effects cfg env (PDict d) st v
                            Hact Hdays Hdelta (or_introl Htime) Hsend).
  rewrite He. rewrite Htime, Hdel. cbn [fst snd Discord.calls].
  rewrite (discord_log_alert_posts cfg env id _ Hid Hz Hf).
  cbn [Discord.calls Discord.action_taken]. rewrite <- app_assoc. reflexivity.
Qed.

(** X18 at a verdict suggesting three days. *)
Lemma X18_alert_after_timeout_links_to_the_deleted_message_witness :
  Discord.act_on (Sample.logged_cfg "timeout") Sample.logged_env
    (PDict [("status", PStr "BLOCKED"); ("severity", PStr "HIGH");
            ("banned_days", PInt 3)])
    Sample.discord_start
  = (Discord.mkState
       [Discord.author_timeout (PInt 3); Discord.author_send;
        Discord.channel_send; Discord.message_delete;
        Discord.log_channel_send (Discord.timed_out (PInt 3))]
       (Discord.timed_out (PInt 3)), Ok tt).
Proof.
  refine (proj1 (X18_alert_after_timeout_links_to_the_deleted_message
                   (Sample.logged_cfg "timeout") Sample.logged_env
                   [("status", PStr "BLOCKED"); ("severity", PStr "HIGH");
                    ("banned_days", PInt 3)]
                   "HIGH" Sample.discord_start (PInt 3) 77
                   _ _ _ _ _ _ _ _ _ _ _ _ _)).
  - reflexivity.
  - left. reflexivity.
  - reflexivity.
  - vm_compute. discriminate.
  - reflexivity.
  - reflexivity.
  - reflexivity.
  - reflexivity.
  - left. reflexivity.
  - reflexivity.
  - reflexivity.
  - lia.
  - reflexivity.
Defined.

(** X19. The alert after the action ban does not tell a ban that was
    refused from one that went through: for a verdict the bot acts on,
    with the log channel set and found, the calls and the alert are the
    same whether the ban, and the direct message, succeed or are
    forbidden, and whether the message could be deleted or was already
    gone; the alert reads "Deleted + Banned" and has no field "Jump to
    Message". *)
Theorem X19_alert_after_ban_is_the_same_when_refused
    (cfg : Discord.Config) (env : Discord.Env) (d : list (string * pyval))
    (severity : string) (s : Discord.State) (id : Z) :
  items_get d "error" = None ->
  items_get d "status" = Some (PStr "BLOCKED")
  \/ items_get d "status" = Some (PStr "DISALLOWED") ->
  items_get d "severity" = Some (PStr severity) ->
  spec_rank (Discord.AUTO_MODERATE_MIN_SEVERITY cfg) <= spec_rank severity ->
  Discord.AUTO_MODERATE_ACTION cfg = "ban" ->
  Discord.platform env Discord.author_ban = None
  \/ Discord.platform env Discord.author_ban = Some Forbidden ->
  Discord.platform env Discord.author_send = None
  \/ Discord.platform env Discord.author_send = Some Forbidden ->
  Discord.platform env Discord.message_delete = None
  \/ Discord.platform env Discord.message_delete = Some NotFound ->
  Discord.AUTO_MODERATE_LOG_CHANNEL_ID cfg = Some id -> id <> 0 ->
  Discord.log_channel_found env = true ->
  Discord.act_on cfg env (PDict d) s
  = (Discord.mkState
       (Discord.calls s
        ++ [Discord.author_ban; Discord.author_send; Discord.channel_send;
            Discord.message_delete;
            Discord.log_channel_send (Discord.configured "ban")])
       (Discord.configured "ban"), Ok tt)
  /\ (forall str_of,
         let text := Discord.label_text str_of (Discord.configured "ban") in
         Discord.action_taken_field text = "Deleted + Banned"
         /\ Discord.jump_to_message text = false).
Proof.
  intros Herr Hst Hsev Hrank Hact Hban Hsend Hdel Hid Hz Hf.
  split; [| intros str_of; split; reflexivity].
  assert (Hb : Discord.status_blocks
                 (default (PStr "ALLOWED") (items_get d "status")) = true)
    by (destruct Hst as [-> | ->]; reflexivity).
  rewrite (discord_act_on_acting cfg env d severity s);
    [| rewrite Herr; reflexivity | exact Hb | rewrite Hsev; reflexivity
     | exact Hrank].
  cbv zeta.
  rewrite (discord_enforce_ban_effects cfg env (PDict d) _ Hact Hban Hsend).
  rewrite Hact. cbn [fst snd Discord.calls Discord.action_taken].
  assert (Ed : match Discord.platform env Discord.message_delete with
               | None | Some NotFound => @Ok unit tt
               | Some e => Raised e
               end = Ok tt) by (destruct Hdel as [-> | ->]; reflexivity).
  rewrite Ed.
  rewrite (discord_log_alert_posts cfg env id _ Hid Hz Hf).
  cbn [Discord.calls Discord.action_taken]. rewrite <- app_assoc. reflexivity.
Qed.

(** X19 at a ban the bot has no permission for. *)
Lemma X19_alert_after_ban_is_the_same_when_refused_witness :
  Discord.act_on (Sample.logged_cfg "ban")
    (Discord.mkEnv Missing Missing (fun _ => Failed)
       (fun c => match c with
                 | Discord.author_ban => Some Forbidden
                 | _ => None
                 end) true)
    (PDict [("status", PStr "BLOCKED"); ("severity", PStr "CRITICAL")])
    Sample.discord_start
  = (Discord.mkState
       [Discord.author_ban; Discord.author_send; Discord.channel_send;
        Discord.message_delete;
        Discord.log_channel_send (Discord.configured "ban")]
       (Discord.configured "ban"), Ok tt).
Proof.
  refine (proj1 (X19_alert_after_ban_is_the_same_when_refused
                   (Sample.logged_cfg "ban") _
                   [("status", PStr "BLOCKED"); ("severity", PStr "CRITICAL")]
                   "CRITICAL" Sample.discord_start 77
                   _ _ _ _ _ _ _ _ _ _ _)).
  - reflexivity.
  - left. reflexivity.
  - reflexivity.
  - vm_compute. discriminate.
  - reflexivity.
  - right. reflexivity.
  - left. reflexivity.
  - left. reflexivity.
  - reflexivity.
  - lia.
  - reflexivity.
Defined.

(** * Further properties: the commands *)

Section Commands.

Lemma discord_respond_eq i c (st : Discord.Session) :
  Discord.respond i c st
  = ((fst st, snd st ++ [c]),
     match Discord.answers i c with
     | Some e => Raised e
     | None => Ok tt
     end).
Proof.
  unfold Discord.respond, bind. destruct (Discord.answers i c); reflexivity.
Qed.

Lemma telegram_answer_eq answers c (st : Telegram.Session) :
  Telegram.answer answers c st
  = ((fst st, snd st ++ [c]),
     match answers c with
     | Some e => Raised e
     | None => Ok tt
     end).
Proof.
  unfold Telegram.answer, bind. destruct (answers c); reflexivity.
Qed.

(** The end the three commands of the Discord bot share: the request,
    and the answer on the interaction when the client returns. *)
Lemma discord_command_end cfg env i content pol ins upf uif with_author
    (st : Discord.Session) :
  (r <- on_fst (Discord.call_nova_moderation cfg env content pol ins upf uif) ;;
   lift (Discord.create_moderation_embed i (fst r) content (snd r)) ;;;
   Discord.respond i (Discord.followup_result (fst r) content (snd r) with_author))
    st
  = let br := Discord.build_request cfg (Discord.policy_txt env)
                (Discord.instructions_txt env) content pol ins upf uif in
    match Discord.read_response (Discord.http env (fst br)) with
    | Ok v =>
        let c := Discord.followup_result v content (snd br) with_author in
        match Discord.create_moderation_embed i v content (snd br) with
        | Ok _ =>
            ((Discord.mkState
                (Discord.calls (fst st) ++ [Discord.post_moderation (fst br)])
                (Discord.action_taken (fst st)),
              snd st ++ [c]),
             match Discord.answers i c with
             | Some e => Raised e
             | None => Ok tt
             end)
        | Raised e =>
            ((Discord.mkState
                (Discord.calls (fst st) ++ [Discord.post_moderation (fst br)])
                (Discord.action_taken (fst st)),
              snd st), Raised e)
        end
    | Raised e =>
        ((Discord.mkState
            (Discord.calls (fst st) ++ [Discord.post_moderation (fst br)])
            (Discord.action_taken (fst st)),
          snd st), Raised e)
    end.
Proof.
  unfold bind at 1. unfold on_fst.
  rewrite discord_call_nova_moderation_eq. cbv zeta.
  destruct (Discord.read_response _) as [v | e]; [| reflexivity].
  cbn [fst snd]. unfold bind at 1. unfold lift at 1.
  destruct (Discord.create_moderation_embed i v content _); [| reflexivity].
  rewrite discord_respond_eq. reflexivity.
Qed.

Lemma telegram_command_end cfg env answers content (st : Telegram.Session) :
  (result <- on_fst (Telegram.call_nova_moderation cfg env content) ;;
   lift (Telegram.format_report result content) ;;;
   Telegram.answer answers (Telegram.edit_text result content)) st
  = let p := Telegram.build_request cfg (Telegram.policy_txt env)
               (Telegram.instructions_txt env) content in
    match Telegram.read_response (Telegram.http env p) with
    | Ok v =>
        match Telegram.format_report v content with
        | Ok _ =>
            ((fst st ++ [Telegram.post_moderation p],
              snd st ++ [Telegram.edit_text v content]),
             match answers (Telegram.edit_text v content) with
             | Some e => Raised e
             | None => Ok tt
             end)
        | Raised e => ((fst st ++ [Telegram.post_moderation p], snd st), Raised e)
        end
    | Raised e => ((fst st ++ [Telegram.post_moderation p], snd st), Raised e)
    end.
Proof.
  unfold bind at 1. unfold on_fst.
  rewrite telegram_call_nova_moderation_eq. cbv zeta.
  destruct (Telegram.read_response _) as [v | e]; [| reflexivity].
  cbn [fst snd]. unfold bind at 1. unfold lift at 1.
  destruct (Telegram.format_report v content); [| reflexivity].
  rewrite telegram_answer_eq. reflexivity.
Qed.

End Commands.

Section DiscordCommands.

Variables (cfg : Discord.Config) (env : Discord.Env) (i : Discord.Interaction).

(** What a command does after its request: nothing on the interaction
    when the client raises, the result embed when it returns. *)
Lemma discord_command_end_calls content pol ins upf uif with_author st :
  let br := Discord.build_request cfg (Discord.policy_txt env)
              (Discord.instructions_txt env) content pol ins upf uif in
  let run := (r <- on_fst (Discord.call_nova_moderation cfg env content pol ins
                             upf uif) ;;
              lift (Discord.create_moderation_embed i (fst r) content (snd r)) ;;;
              Discord.respond i
                (Discord.followup_result (fst r) content (snd r) with_author)) st in
  Discord.calls (fst (fst run))
  = Discord.calls (fst st) ++ [Discord.post_moderation (fst br)].
Proof.
  cbv zeta. rewrite discord_command_end. cbv zeta.
  destruct (Discord.read_response _) as [v | e]; [| reflexivity].
  destruct (Discord.create_moderation_embed i v content _); reflexivity.
Qed.

Lemma discord_moderate_eq content (st : Discord.Session) :
  Discord.moderate cfg env i content st
  = match Discord.answers i Discord.defer with
    | Some e => ((fst st, snd st ++ [Discord.defer]), Raised e)
    | None =>
        if PyStr.len content >? 50000
        then Discord.respond i (Discord.followup_error Discord.too_long)
               (fst st, snd st ++ [Discord.defer])
        else (r <- on_fst (Discord.call_nova_moderation cfg env content
                             None None true true) ;;
              lift (Discord.create_moderation_embed i (fst r) content (snd r)) ;;;
              Discord.respond i
                (Discord.followup_result (fst r) content (snd r) false))
               (fst st, snd st ++ [Discord.defer])
    end.
Proof.
  unfold Discord.moderate. unfold bind at 1. rewrite discord_respond_eq.
  destruct (Discord.answers i Discord.defer); [reflexivity |].
  destruct (PyStr.len content >? 50000); reflexivity.
Qed.

Lemma discord_moderate_context_eq content (st : Discord.Session) :
  Discord.moderate_context cfg env i content st
  = match Discord.answers i Discord.defer with
    | Some e => ((fst st, snd st ++ [Discord.defer]), Raised e)
    | None =>
        if PyStr.nonempty content
        then (r <- on_fst (Discord.call_nova_moderation cfg env content
                             None None true true) ;;
              lift (Discord.create_moderation_embed i (fst r) content (snd r)) ;;;
              Discord.respond i
                (Discord.followup_result (fst r) content (snd r) true))
               (fst st, snd st ++ [Discord.defer])
        else Discord.respond i (Discord.followup_error Discord.no_text)
               (fst st, snd st ++ [Discord.defer])
    end.
Proof.
  unfold Discord.moderate_context. unfold bind at 1.
  rewrite discord_respond_eq.
  destruct (Discord.answers i Discord.defer); [reflexivity |].
  destruct (PyStr.nonempty content); reflexivity.
Qed.

(** [/moderate-message] after a deferral that went through: the look-up
    of the message, then the complaint or the request. *)
Lemma discord_moderate_message_eq message_id pol ins upf uif
    (st : Discord.Session) :
  Discord.answers i Discord.defer = None ->
  Discord.moderate_message cfg env i message_id pol ins upf uif st
  = let st1 := (fst st, snd st ++ [Discord.defer]) in
    match message_id with
    | None =>
        Discord.respond i (Discord.followup_error Discord.message_not_found) st1
    | Some msg_id =>
        let st2 := (fst st, snd st1 ++ [Discord.fetch_message msg_id]) in
        match Discord.answers i (Discord.fetch_message msg_id) with
        | Some NotFound =>
            Discord.respond i (Discord.followup_error Discord.message_not_found)
              st2
        | Some Forbidden =>
            Discord.respond i (Discord.followup_error Discord.cannot_read) st2
        | Some e => (st2, Raised e)
        | None =>
            let content := Discord.fetched i msg_id in
            if PyStr.nonempty content
            then (r <- on_fst (Discord.call_nova_moderation cfg env content
                                 pol ins upf uif) ;;
                  lift (Discord.create_moderation_embed i (fst r) content
                          (snd r)) ;;;
                  Discord.respond i
                    (Discord.followup_result (fst r) content (snd r) true)) st2
            else Discord.respond i (Discord.followup_error Discord.no_text) st2
        end
    end.
Proof.
  intros Hdefer. unfold Discord.moderate_message. unfold bind at 1.
  rewrite discord_respond_eq, Hdefer. cbv zeta.
  destruct message_id as [msg_id |]; [| reflexivity].
  unfold bind at 1. unfold try_except. unfold bind at 1.
  rewrite discord_respond_eq. cbn [fst snd].
  destruct (Discord.answers i (Discord.fetch_message msg_id)) as [e |].
  - destruct e; reflexivity.
  - unfold ret at 1. cbv iota beta.
    destruct (PyStr.nonempty (Discord.fetched i msg_id)); reflexivity.
Qed.

Lemma discord_respond_calls c (st : Discord.Session) :
  fst (fst (Discord.respond i c st)) = fst st.
Proof. rewrite discord_respond_eq. reflexivity. Qed.

End DiscordCommands.

(** X20. A command of the Discord bot posts at most one request, and
    the request is the one the client builds from the content as it is
    and from the options of the command: [/moderate] and the context
    menu ask for both files and give no inline text, [/moderate-message]
    hands its policy, instructions and flags on. [/moderate] posts
    nothing for a content of more than 50000 characters, the other two
    nothing for a message without text. *)
Theorem X20_commands_post_at_most_once
    (cfg : Discord.Config) (env : Discord.Env) (i : Discord.Interaction)
    (st : Discord.Session) :
  let request content policy instructions upf uif :=
    Discord.post_moderation
      (fst (Discord.build_request cfg (Discord.policy_txt env)
              (Discord.instructions_txt env) content policy instructions
              upf uif)) in
  (forall content,
      exists l,
        Discord.calls (fst (fst (Discord.moderate cfg env i content st)))
        = Discord.calls (fst st) ++ l
        /\ (l = []
            \/ l = [request content None None true true]
               /\ PyStr.len content <= 50000))
  /\ (forall message_id policy instructions upf uif,
         exists l,
           Discord.calls
             (fst (fst (Discord.moderate_message cfg env i message_id policy
                          instructions upf uif st)))
           = Discord.calls (fst st) ++ l
           /\ (l = []
               \/ exists msg_id,
                    message_id = Some msg_id
                    /\ PyStr.nonempty (Discord.fetched i msg_id) = true
                    /\ l = [request (Discord.fetched i msg_id) policy
                              instructions upf uif]))
  /\ (forall content,
         exists l,
           Discord.calls (fst (fst (Discord.moderate_context cfg env i content st)))
           = Discord.calls (fst st) ++ l
           /\ (l = []
               \/ l = [request content None None true true]
                  /\ PyStr.nonempty content = true)).
Proof.
  cbv zeta.
  assert (Hnil : forall x : Discord.Session,
             fst x = fst st ->
             exists l : list Discord.call,
               Discord.calls (fst x) = Discord.calls (fst st) ++ l
               /\ l = []).
  { intros x ->. exists []. rewrite app_nil_r. split; reflexivity. }
  split; [| split].
  - intros content. rewrite discord_moderate_eq.
    destruct (Discord.answers i Discord.defer).
    { exists []. rewrite app_nil_r. split; [reflexivity | left; reflexivity]. }
    destruct (Z.gtb_spec (PyStr.len content) 50000) as [G | G].
    + exists []. rewrite discord_respond_calls, app_nil_r.
      split; [reflexivity | left; reflexivity].
    + eexists. split.
      * apply (discord_command_end_calls cfg env i content None None true true
                 false (fst st, snd st ++ [Discord.defer])).
      * right. split; [reflexivity | exact G].
  - intros message_id policy instructions upf uif.
    destruct (Discord.answers i Discord.defer) as [e |] eqn:Hdefer.
    { exists []. rewrite app_nil_r. split; [| left; reflexivity].
      unfold Discord.moderate_message. unfold bind at 1.
      rewrite discord_respond_eq, Hdefer. reflexivity. }
    rewrite (discord_moderate_message_eq cfg env i _ _ _ _ _ st Hdefer).
    cbv zeta.
    destruct message_id as [msg_id |].
    2:{ exists []. rewrite discord_respond_calls, app_nil_r.
        split; [reflexivity | left; reflexivity]. }
    destruct (Discord.answers i (Discord.fetch_message msg_id)) as [e |].
    { exists []. rewrite app_nil_r. split; [| left; reflexivity].
      destruct e; try reflexivity; rewrite discord_respond_calls; reflexivity. }
    destruct (PyStr.nonempty (Discord.fetched i msg_id)) eqn:Hn.
    + eexists. split.
      * apply (discord_command_end_calls cfg env i (Discord.fetched i msg_id)
                 policy instructions upf uif true
                 (fst st, (snd st ++ [Discord.defer])
                          ++ [Discord.fetch_message msg_id])).
      * right. exists msg_id. repeat split. exact Hn.
    + exists []. rewrite discord_respond_calls, app_nil_r.
      split; [reflexivity | left; reflexivity].
  - intros content. rewrite discord_moderate_context_eq.
    destruct (Discord.answers i Discord.defer).
    { exists []. rewrite app_nil_r. split; [reflexivity | left; reflexivity]. }
    destruct (PyStr.nonempty content) eqn:Hn.
    + eexists. split.
      * apply (discord_command_end_calls cfg env i content None None true true
                 true (fst st, snd st ++ [Discord.defer])).
      * right. split; reflexivity.
    + exists []. rewrite discord_respond_calls, app_nil_r.
      split; [reflexivity | left; reflexivity].
Qed.

(** X20 at a message without text: the context menu posts nothing. *)
Lemma X20_commands_post_at_most_once_witness :
  exists l,
    Discord.calls
      (fst (fst (Discord.moderate_context Discord.shipped
                   (Sample.discord_env Failed) (Sample.interaction "") ""
                   Sample.discord_session)))
    = Discord.calls (fst Sample.discord_session) ++ l
    /\ (l = []
        \/ l = [Discord.post_moderation
                  (fst (Discord.build_request Discord.shipped
                          (Discord.policy_txt (Sample.discord_env Failed))
                          (Discord.instructions_txt (Sample.discord_env Failed))
                          "" None None true true))]
           /\ PyStr.nonempty "" = true).
Proof.
  apply (proj2 (proj2 (X20_commands_post_at_most_once Discord.shipped
                         (Sample.discord_env Failed) (Sample.interaction "")
                         Sample.discord_session)) "").
Defined.

(** X21. [/moderate], once deferred: a content of more than 50000
    characters is answered with the complaint alone, and no request is
    made; any other content is posted. When the client returns, the
    embed is made of what it returned, of the content and of the
    sources: if [create_moderation_embed] returns, the embed is sent; if
    it raises, the command raises the same exception and sends nothing.
    It raises AttributeError on every value that is no dict (a body
    null, a list, a number, a string). For a status other than 200 the
    client returns the error dict, which the embed shows as an error
    with the status code and the body. *)
Theorem X21_discord_moderate_answers
    (cfg : Discord.Config) (env : Discord.Env) (i : Discord.Interaction)
    (content : string) (st : Discord.Session) :
  Discord.answers i Discord.defer = None ->
  let br := Discord.build_request cfg (Discord.policy_txt env)
              (Discord.instructions_txt env) content None None true true in
  let run := Discord.moderate cfg env i content st in
  let posted :=
    Discord.mkState
      (Discord.calls (fst st) ++ [Discord.post_moderation (fst br)])
      (Discord.action_taken (fst st)) in
  (50000 < PyStr.len content ->
   fst run = (fst st,
              snd st ++ [Discord.defer; Discord.followup_error Discord.too_long]))
  /\ (PyStr.len content <= 50000 ->
      forall v, Discord.read_response (Discord.http env (fst br)) = Ok v ->
      match Discord.create_moderation_embed i v content (snd br) with
      | Ok _ =>
          fst run
          = (posted,
             snd st ++ [Discord.defer;
                        Discord.followup_result v content (snd br) false])
      | Raised e => run = ((posted, snd st ++ [Discord.defer]), Raised e)
      end)
  /\ (forall v sources,
         (forall d, v <> PDict d) ->
         Discord.create_moderation_embed i v content sources
         = Raised AttributeError)
  /\ (forall r, Discord.http env (fst br) = Responded r -> status r <> 200 ->
      Discord.read_response (Discord.http env (fst br))
      = Ok (Discord.error_dict r)
      /\ Discord.create_moderation_embed i (Discord.error_dict r) content
           (snd br)
         = Ok (Discord.error_embed (PInt (status r)) (PStr (text r)))).
Proof.
  intros Hdefer br run posted. subst run posted.
  rewrite discord_moderate_eq, Hdefer.
  split; [| split; [| split]].
  - intros G. apply Z.gtb_lt in G. rewrite G, discord_respond_eq.
    cbn [fst snd]. rewrite <- app_assoc. reflexivity.
  - intros G v Hv.
    assert (G' : (PyStr.len content >? 50000) = false)
      by (destruct (Z.gtb_spec (PyStr.len content) 50000); [lia | reflexivity]).
    rewrite G', discord_command_end. cbv zeta. fold br. rewrite Hv.
    destruct (Discord.create_moderation_embed i v content (snd br));
      [| reflexivity].
    cbn [fst snd]. rewrite <- app_assoc. reflexivity.
  - intros v sources Hv. unfold Discord.create_moderation_embed.
    destruct v; try reflexivity. exfalso. apply (Hv d). reflexivity.
  - intros r Hr Hs. rewrite Hr. unfold Discord.read_response.
    apply Z.eqb_neq in Hs. rewrite Hs. split; reflexivity.
Qed.

(** X21 at a short content and an answer 200 whose body is null: the
    command raises, and nothing is sent. *)
Lemma X21_discord_moderate_answers_witness :
  Discord.moderate Discord.shipped
    (Sample.discord_env (Responded (mkResponse 200 "null" (Some PNone))))
    (Sample.interaction "") "hello" Sample.discord_session
  = ((Discord.mkState
        [Discord.post_moderation (mkPayload "hello" None None)]
        (Discord.configured ""),
      [Discord.defer]), Raised AttributeError).
Proof.
  refine (proj1 (proj2 (X21_discord_moderate_answers Discord.shipped
                          (Sample.discord_env
                             (Responded (mkResponse 200 "null" (Some PNone))))
                          (Sample.interaction "") "hello"
                          Sample.discord_session _)) _ PNone _).
  - reflexivity.
  - vm_compute. discriminate.
  - reflexivity.
Defined.

(** X22. A request that fails leaves a command of the Discord bot
    without answer: when the client raises (the request failed, or a 200
    body is no JSON), [/moderate] and the context menu raise the same
    exception after the deferral and the request, and send nothing on
    the interaction. No [try] stands around the call, unlike in
    [on_message]. *)
Theorem X22_failed_request_leaves_the_command_unanswered
    (cfg : Discord.Config) (env : Discord.Env) (i : Discord.Interaction)
    (content : string) (st : Discord.Session) (e : exn) :
  Discord.answers i Discord.defer = None ->
  let br := Discord.build_request cfg (Discord.policy_txt env)
              (Discord.instructions_txt env) content None None true true in
  Discord.read_response (Discord.http env (fst br)) = Raised e ->
  let left_at :=
    ((Discord.mkState
        (Discord.calls (fst st) ++ [Discord.post_moderation (fst br)])
        (Discord.action_taken (fst st)),
      snd st ++ [Discord.defer]), @Raised unit e) in
  (PyStr.len content <= 50000 ->
   Discord.moderate cfg env i content st = left_at)
  /\ (PyStr.nonempty content = true ->
      Discord.moderate_context cfg env i content st = left_at).
Proof.
  intros Hdefer br Hr left_at. subst left_at. split.
  - intros G.
    assert (G' : (PyStr.len content >? 50000) = false)
      by (destruct (Z.gtb_spec (PyStr.len content) 50000); [lia | reflexivity]).
    rewrite discord_moderate_eq, Hdefer, G', discord_command_end.
    cbv zeta. fold br. rewrite Hr. reflexivity.
  - intros Hn.
    rewrite discord_moderate_context_eq, Hdefer, Hn, discord_command_end.
    cbv zeta. fold br. rewrite Hr. reflexivity.
Qed.

(** X22 at a request that fails. *)
Lemma X22_failed_request_leaves_the_command_unanswered_witness :
  Discord.moderate Discord.shipped (Sample.discord_env Failed)
    (Sample.interaction "") "hello" Sample.discord_session
  = ((Discord.mkState
        [Discord.post_moderation (mkPayload "hello" None None)]
        (Discord.configured ""),
      [Discord.defer]), Raised ClientError).
Proof.
  refine (proj1 (X22_failed_request_leaves_the_command_unanswered
                   Discord.shipped (Sample.discord_env Failed)
                   (Sample.interaction "") "hello" Sample.discord_session
                   ClientError _ _) _).
  - reflexivity.
  - reflexivity.
  - vm_compute. discriminate.
Defined.



Section TelegramCommands.

Lemma join_args_nonempty_list (args : list string) :
  args <> [] -> list_truthy args = true.
Proof. destruct args; [congruence | reflexivity]. Qed.

Lemma slice_to_min (n : Z) (s : string) :
  0 <= n -> PyStr.len (PyStr.slice_to n s) = Z.min n (PyStr.len s).
Proof.
  intros H. unfold PyStr.len, PyStr.slice_to. rewrite take_length. lia.
Qed.

End TelegramCommands.

(** X24. [/moderate] of the Telegram bot does nothing without a message,
    replies with the usage when it has no arguments, and with the error
    when the arguments joined by blanks have more than 50000 characters,
    in each case without a request. Otherwise it replies "Analyzing...",
    sends the chat action and posts the joined arguments as the content.
    When the client returns and [format_report] makes the report, the
    status message is edited; when [format_report] raises, as it does
    with AttributeError on every value that is no dict, or when the
    client raises, the command raises the same exception and the status
    message is left as it is. *)
Theorem X24_telegram_moderate_command
    (cfg : Telegram.Config) (env : Telegram.Env)
    (answers : Telegram.command_call -> option exn)
    (args : list string) (st : Telegram.Session) :
  let content := Telegram.join_args args in
  let p := Telegram.build_request cfg (Telegram.policy_txt env)
             (Telegram.instructions_txt env) content in
  let analyzed :=
    snd st ++ [Telegram.command_reply Telegram.analyzing;
               Telegram.send_chat_action] in
  Telegram.moderate_command cfg env answers false args st = (st, Ok tt)
  /\ fst (Telegram.moderate_command cfg env answers true [] st)
     = (fst st, snd st ++ [Telegram.command_reply Telegram.usage])
  /\ (args <> [] -> 50000 < PyStr.len content ->
      fst (Telegram.moderate_command cfg env answers true args st)
      = (fst st, snd st ++ [Telegram.command_reply Telegram.text_too_long]))
  /\ (args <> [] -> PyStr.len content <= 50000 ->
      answers (Telegram.command_reply Telegram.analyzing) = None ->
      answers Telegram.send_chat_action = None ->
      p_content p = content
      /\ match Telegram.read_response (Telegram.http env p) with
         | Ok v =>
             match Telegram.format_report v content with
             | Ok _ =>
                 fst (Telegram.moderate_command cfg env answers true args st)
                 = (fst st ++ [Telegram.post_moderation p],
                    analyzed ++ [Telegram.edit_text v content])
             | Raised e =>
                 Telegram.moderate_command cfg env answers true args st
                 = ((fst st ++ [Telegram.post_moderation p], analyzed), Raised e)
             end
         | Raised e =>
             Telegram.moderate_command cfg env answers true args st
             = ((fst st ++ [Telegram.post_moderation p], analyzed), Raised e)
         end)
  /\ (forall v, (forall d, v <> PDict d) ->
                Telegram.format_report v content = Raised AttributeError).
Proof.
  cbv zeta. split; [reflexivity |].
  split; [unfold Telegram.moderate_command; simpl;
          rewrite telegram_answer_eq; reflexivity |].
  split; [| split].
  - intros Ha G. unfold Telegram.moderate_command.
    rewrite (join_args_nonempty_list _ Ha). apply Z.gtb_lt in G.
    cbn [negb]. cbv zeta. rewrite G, telegram_answer_eq. reflexivity.
  - intros Ha G Han Hch. split; [reflexivity |].
    assert (G' : (PyStr.len (Telegram.join_args args) >? 50000) = false).
    { destruct (Z.gtb_spec (PyStr.len (Telegram.join_args args)) 50000);
        [lia | reflexivity]. }
    assert (E : Telegram.moderate_command cfg env answers true args st
                = (result <- on_fst (Telegram.call_nova_moderation cfg env
                                       (Telegram.join_args args)) ;;
                   lift (Telegram.format_report result
                           (Telegram.join_args args)) ;;;
                   Telegram.answer answers
                     (Telegram.edit_text result (Telegram.join_args args)))
                    (fst st,
                     (snd st ++ [Telegram.command_reply Telegram.analyzing])
                     ++ [Telegram.send_chat_action])).
    { unfold Telegram.moderate_command.
      rewrite (join_args_nonempty_list _ Ha). cbn [negb]. cbv zeta.
      rewrite G'. unfold bind at 1. rewrite telegram_answer_eq, Han.
      unfold bind at 1. rewrite telegram_answer_eq, Hch. reflexivity. }
    rewrite E, telegram_command_end. cbv zeta. cbn [fst snd].
    destruct (Telegram.read_response _) as [v | e].
    + destruct (Telegram.format_report v (Telegram.join_args args));
        cbn [fst snd]; rewrite <- ?app_assoc; reflexivity.
    + rewrite <- ?app_assoc; reflexivity.
  - intros v Hv. unfold Telegram.format_report.
    destruct v; try reflexivity. exfalso. apply (Hv d). reflexivity.
Qed.

(** X24 at two arguments and an answer 200 whose body is null: the
    command raises, and the status message is not edited. *)
Lemma X24_telegram_moderate_command_witness :
  Telegram.moderate_command Telegram.shipped
    (Sample.telegram_env (Responded (mkResponse 200 "null" (Some PNone))))
    (fun _ => None) true ["hello"; "there"] Sample.telegram_session
  = (([Telegram.post_moderation (mkPayload "hello there" None None)],
      [Telegram.command_reply Telegram.analyzing; Telegram.send_chat_action]),
     Raised AttributeError).
Proof.
  pose proof (proj1 (proj2 (proj2 (proj2
                (X24_telegram_moderate_command Telegram.shipped
                   (Sample.telegram_env
                      (Responded (mkResponse 200 "null" (Some PNone))))
                   (fun _ => None)
                   ["hello"; "there"] Sample.telegram_session))))) as H.
  assert (Ha : ["hello"; "there"] <> @nil string) by discriminate.
  assert (G : PyStr.len (Telegram.join_args ["hello"; "there"]) <= 50000)
    by (vm_compute; discriminate).
  exact (proj2 (H Ha G eq_refl eq_refl)).
Defined.

(** X25. [/policy] of the Telegram bot shows the policy file whether the
    requests use it or not: the command does not look at
    [USE_POLICY_FILE]. When the loader returns a content, the reply
    shows its first 1000 characters, with the note of a truncation
    exactly when it is longer, while the requests carry that content as
    their policy only when [USE_POLICY_FILE] is set; when the loader
    returns none, the reply says that no policy file is loaded. *)
Theorem X25_policy_command_shows_the_file
    (pf : file) (answers : Telegram.command_call -> option exn)
    (st : Telegram.Session) :
  (forall c w,
      Telegram.load_text_file "policy.txt" pf POLICY_MAX_CHARS = (Some c, w) ->
      (exists shown truncated,
          fst (Telegram.policy_command pf answers true st)
          = (fst st,
             snd st ++ [Telegram.command_reply
                          (Telegram.policy_configuration shown truncated)])
          /\ String.prefix shown c = true
          /\ PyStr.len shown = Z.min 1000 (PyStr.len c)
          /\ (truncated = true <-> 1000 < PyStr.len c))
      /\ (forall cfg inf content,
             p_policy (Telegram.build_request cfg pf inf content)
             = if Telegram.USE_POLICY_FILE cfg then Some c else None))
  /\ (forall w,
         Telegram.load_text_file "policy.txt" pf POLICY_MAX_CHARS = (None, w) ->
         fst (Telegram.policy_command pf answers true st)
         = (fst st, snd st ++ [Telegram.command_reply Telegram.no_policy_file])).
Proof.
  split.
  - intros c w E.
    assert (Hlen : 1 <= PyStr.len c <= POLICY_MAX_CHARS).
    { apply (telegram_loaded_len "policy.txt" pf POLICY_MAX_CHARS c policy_limit).
      rewrite E. reflexivity. }
    assert (Hn : PyStr.nonempty c = true) by (apply len_nonempty; lia).
    split.
    + exists (PyStr.slice_to 1000 c), (PyStr.len c >? 1000).
      unfold Telegram.policy_command. rewrite E. cbn [negb opt_truthy].
      rewrite Hn. cbn [negb]. cbv zeta. rewrite telegram_answer_eq.
      split; [reflexivity |].
      split; [apply take_prefix |].
      split; [apply slice_to_min; lia |].
      rewrite Z.gtb_lt. reflexivity.
    + intros cfg inf content. unfold Telegram.build_request.
      cbn [p_policy]. rewrite E. cbn [fst]. rewrite Hn.
      destruct (Telegram.USE_POLICY_FILE cfg); [rewrite Hn |]; reflexivity.
  - intros w E. unfold Telegram.policy_command. rewrite E.
    cbn [negb opt_truthy]. rewrite telegram_answer_eq. reflexivity.
Qed.

(** X25 at a missing policy file. *)
Lemma X25_policy_command_shows_the_file_witness :
  fst (Telegram.policy_command Missing (fun _ => None) true
         Sample.telegram_session)
  = ([], [Telegram.command_reply Telegram.no_policy_file]).
Proof.
  apply (proj2 (X25_policy_command_shows_the_file Missing (fun _ => None)
                  Sample.telegram_session)
           (Some (Telegram.file_not_found "policy.txt"))).
  reflexivity.
Defined.
